(** * The zrepl data connection (lib/libzrepl/data_conn.c)

    A shallow embedding of the replica's data-plane code: the framed socket
    primitives, the WRITE payload walker [uzfs_submit_writes], the worker
    [uzfs_zvol_worker], the rebuild downstream driver
    [uzfs_zvol_rebuild_dw_replica], [uzfs_update_ionum_interval], the
    checkpoint timer [uzfs_zvol_timer_thread], the purge
    [remove_pending_cmds_to_ack] and the rebuild scanner
    [uzfs_zvol_rebuild_scanner] with its callback.  The connection acceptor
    [uzfs_zvol_io_conn_acceptor], which is [epoll] and thread creation, is
    left out.

    Conventions.
    - C integers are [Z]; where the C type is unsigned and the code can wrap,
      the wrap-around is written with [u64].
    - Buffers are [list byte]; a struct read through a cast pointer is decoded
      little-endian (host order on the supported targets).
    - A loop whose termination depends on its environment takes [fuel] and
      returns [None] when the fuel is used up before the loop ends.
    - [VERIFY]/[ASSERT] failures end the process: [Panic].
    - What lies outside the file (the kernel, the storage engine, the volume
      registry, the ack sender) is a parameter: a class of the functions
      called, or a function that gives what the thread finds. *)

From Stdlib Require Import ZArith List Lia Bool Sorted.
From coqutil Require Import Byte Word.LittleEndianList.
Import ListNotations.
Local Open Scope Z_scope.

(** ** Machine integers and buffers *)

Definition u64 (z : Z) : Z := z mod 2 ^ 64.

(** [memcpy]-style store of [bs] into [mem] at byte offset [off]. *)
Definition store_bytes (mem : list byte) (off : nat) (bs : list byte) : list byte :=
  firstn off mem ++ bs ++ skipn (off + length bs) mem.

(** Result of a function that may hit a failed [VERIFY]/[ASSERT]. *)
Inductive outcome (A : Type) : Type :=
| Done (a : A)
| Panic.
Arguments Done {A} a.
Arguments Panic {A}.

(** ** zrepl_prot.h: the wire protocol

    data_conn.c takes its protocol types from this header; they are written
    down here with the names the code uses. *)

(** Modelled from the spec: [zvol_op_code_t] of zrepl_prot.h ("Opcodes:
    HANDSHAKE, READ, WRITE, SYNC, OPEN, REBUILD_STEP, REBUILD_STEP_DONE,
    REBUILD_COMPLETE"). *)
Inductive zvol_op_code_t : Type :=
| ZVOL_OPCODE_HANDSHAKE
| ZVOL_OPCODE_READ
| ZVOL_OPCODE_WRITE
| ZVOL_OPCODE_SYNC
| ZVOL_OPCODE_OPEN
| ZVOL_OPCODE_REBUILD_STEP
| ZVOL_OPCODE_REBUILD_STEP_DONE
| ZVOL_OPCODE_REBUILD_COMPLETE.

(** Modelled from the spec: [zvol_op_status_t] of zrepl_prot.h ("Status: OK,
    FAILED"). *)
Inductive zvol_op_status_t : Type :=
| ZVOL_OP_STATUS_OK
| ZVOL_OP_STATUS_FAILED.

(** Modelled from the spec: the flag bits of zrepl_prot.h ("Flags: REBUILD
    (1), READ_METADATA (2)"). *)
Definition ZVOL_OP_FLAG_REBUILD : Z := 1.
Definition ZVOL_OP_FLAG_READ_METADATA : Z := 2.

Definition opcode_eqb (a b : zvol_op_code_t) : bool :=
  match a, b with
  | ZVOL_OPCODE_HANDSHAKE, ZVOL_OPCODE_HANDSHAKE
  | ZVOL_OPCODE_READ, ZVOL_OPCODE_READ
  | ZVOL_OPCODE_WRITE, ZVOL_OPCODE_WRITE
  | ZVOL_OPCODE_SYNC, ZVOL_OPCODE_SYNC
  | ZVOL_OPCODE_OPEN, ZVOL_OPCODE_OPEN
  | ZVOL_OPCODE_REBUILD_STEP, ZVOL_OPCODE_REBUILD_STEP
  | ZVOL_OPCODE_REBUILD_STEP_DONE, ZVOL_OPCODE_REBUILD_STEP_DONE
  | ZVOL_OPCODE_REBUILD_COMPLETE, ZVOL_OPCODE_REBUILD_COMPLETE => true
  | _, _ => false
  end.

Definition status_eqb (a b : zvol_op_status_t) : bool :=
  match a, b with
  | ZVOL_OP_STATUS_OK, ZVOL_OP_STATUS_OK
  | ZVOL_OP_STATUS_FAILED, ZVOL_OP_STATUS_FAILED => true
  | _, _ => false
  end.

(** Modelled from the spec: [zvol_io_hdr_t] of zrepl_prot.h ("IoHeader.
    Fields: version, opcode, flags, status, io_seq, checkpointed_io_seq,
    offset, len"). *)
Record zvol_io_hdr_t : Type := mk_hdr {
  version : Z;
  opcode : zvol_op_code_t;
  flags : Z;
  status : zvol_op_status_t;
  io_seq : Z;
  checkpointed_io_seq : Z;
  offset : Z;
  len : Z
}.

(** [bzero (&hdr, sizeof (hdr))]: every field holds its zero value. *)
Definition zero_hdr : zvol_io_hdr_t :=
  mk_hdr 0 ZVOL_OPCODE_HANDSHAKE 0 ZVOL_OP_STATUS_OK 0 0 0 0.

Definition set_version (h : zvol_io_hdr_t) (v : Z) : zvol_io_hdr_t :=
  mk_hdr v (opcode h) (flags h) (status h) (io_seq h) (checkpointed_io_seq h)
         (offset h) (len h).
Definition set_opcode (h : zvol_io_hdr_t) (o : zvol_op_code_t) : zvol_io_hdr_t :=
  mk_hdr (version h) o (flags h) (status h) (io_seq h) (checkpointed_io_seq h)
         (offset h) (len h).
Definition set_status (h : zvol_io_hdr_t) (s : zvol_op_status_t) : zvol_io_hdr_t :=
  mk_hdr (version h) (opcode h) (flags h) s (io_seq h) (checkpointed_io_seq h)
         (offset h) (len h).
Definition set_checkpointed_io_seq (h : zvol_io_hdr_t) (c : Z) : zvol_io_hdr_t :=
  mk_hdr (version h) (opcode h) (flags h) (status h) (io_seq h) c
         (offset h) (len h).
Definition set_offset (h : zvol_io_hdr_t) (o : Z) : zvol_io_hdr_t :=
  mk_hdr (version h) (opcode h) (flags h) (status h) (io_seq h)
         (checkpointed_io_seq h) o (len h).
Definition set_len (h : zvol_io_hdr_t) (l : Z) : zvol_io_hdr_t :=
  mk_hdr (version h) (opcode h) (flags h) (status h) (io_seq h)
         (checkpointed_io_seq h) (offset h) l.

(** [hdr->flags & flag], used as a C truth value. *)
Definition flag_set (h : zvol_io_hdr_t) (flag : Z) : bool :=
  negb (Z.land (flags h) flag =? 0).

(** Modelled from the spec: [struct zvol_io_rw_hdr] of zrepl_prot.h, the
    sub-header in front of every chunk of a WRITE payload ("sub_hdr{io_num,
    len}"). *)
Record zvol_io_rw_hdr : Type := mk_rw_hdr {
  io_num : Z;
  rw_len : Z
}.

(** Modelled from the spec: the layout of [struct zvol_io_rw_hdr], which
    zrepl_prot.h declares ("sub_hdr{io_num: u64, len: u64}", sixteen bytes,
    host order). *)
Definition sizeof_rw_hdr : Z := 16.

(** The cast of [datap] to a [struct zvol_io_rw_hdr] pointer: the two fields
    as the bytes at [datap] spell them; bytes past the end of the list read
    as zero. *)
Definition rw_hdr_of_bytes (datap : list byte) : zvol_io_rw_hdr :=
  mk_rw_hdr (le_combine (firstn 8 datap))
            (le_combine (firstn 8 (skipn 8 datap))).

Definition rw_hdr_to_bytes (h : zvol_io_rw_hdr) : list byte :=
  le_split 8 (io_num h) ++ le_split 8 (rw_len h).

(** The layout of [zvol_io_hdr_t] and the protocol version are constants of
    zrepl_prot.h; the code uses them through [sizeof], field access and
    [REPLICA_VERSION] only, so they are parameters here. *)
Class Wire : Type := {
  sizeof_hdr : Z;
  sizeof_version : Z;
  REPLICA_VERSION : Z;
  hdr_of_bytes : list byte -> zvol_io_hdr_t;
  hdr_to_bytes : zvol_io_hdr_t -> list byte
}.

(** ** The operating system: sockets

    The state [W] of everything outside the process.  A call returns what the
    peer and the kernel decide: data or an [errno]. *)

Inductive sysret (A : Type) : Type :=
| Ret (a : A)
| Errno (e : Z).
Arguments Ret {A} a.
Arguments Errno {A} e.

Definition EINTR : Z := 4.

Class Sys (W : Type) : Type := {
  (** data the socket has for a [read] of up to [nbytes] bytes *)
  sys_read : W -> Z -> Z -> sysret (list byte) * W;
  (** number of bytes the socket takes from a [write] of [nbytes] bytes at
      [buf] *)
  sys_write : W -> Z -> list byte -> Z -> sysret Z * W;
  sys_setsockopt : W -> Z -> Z * W;
  sys_connect : W -> Z -> Z * W;
  (** [shutdown (fd, SHUT_RDWR); close (fd)] *)
  sys_close : W -> Z -> W
}.

(** Result of a [read]/[write] call as C sees it: the returned count,
    [errno], and for [read] the bytes stored. *)
Record io_ret : Type := mk_io_ret {
  count : Z;
  errno : Z;
  data : list byte
}.

Section Sockets.
Context {W : Type} {SYS : Sys W}.

(** [read (fd, p, nbytes)]: never more than [nbytes] bytes. *)
Definition read (w : W) (fd nbytes : Z) : io_ret * W :=
  match sys_read w fd nbytes with
  | (Ret bs, w') =>
      let got := firstn (Z.to_nat nbytes) bs in
      (mk_io_ret (Z.of_nat (length got)) 0 got, w')
  | (Errno e, w') => (mk_io_ret (-1) e [], w')
  end.

(** [write (fd, p, nbytes)]: between 0 and [nbytes] bytes are taken. *)
Definition write (w : W) (fd : Z) (p : list byte) (nbytes : Z) : io_ret * W :=
  match sys_write w fd p nbytes with
  | (Ret n, w') => (mk_io_ret (Z.max 0 (Z.min n nbytes)) 0 [], w')
  | (Errno e, w') => (mk_io_ret (-1) e [], w')
  end.

(** [uzfs_zvol_socket_read] (lines 107-127): [got] is what has been stored at
    [buf] so far
    (callers start with [[]]); the result is the return value, the
    bytes stored, and the world. *)
Fixpoint uzfs_zvol_socket_read (fuel : nat) (w : W) (fd : Z)
    (got : list byte) (nbytes : Z) : option (Z * list byte * W) :=
  if nbytes =? 0 then Some (0, got, w)
  else
    match fuel with
    | O => None
    | S fuel' =>
        let (r, w') := read w fd nbytes in
        if count r <? 0 then
          if errno r =? EINTR then uzfs_zvol_socket_read fuel' w' fd got nbytes
          else Some (-1, got, w')
        else if count r =? 0 then Some (-1, got, w')
        else uzfs_zvol_socket_read fuel' w' fd (got ++ data r)
                                   (u64 (nbytes - count r))
    end.

(** [uzfs_zvol_socket_write] (lines 165-182): [p] is the part of the buffer
    not yet sent. *)
Fixpoint uzfs_zvol_socket_write (fuel : nat) (w : W) (fd : Z)
    (p : list byte) (nbytes : Z) : option (Z * W) :=
  if nbytes =? 0 then Some (0, w)
  else
    match fuel with
    | O => None
    | S fuel' =>
        let (r, w') := write w fd p nbytes in
        if count r <? 0 then
          if errno r =? EINTR then uzfs_zvol_socket_write fuel' w' fd p nbytes
          else Some (-1, w')
        else uzfs_zvol_socket_write fuel' w' fd (skipn (Z.to_nat (count r)) p)
                                    (u64 (nbytes - count r))
    end.

Context {WIRE : Wire}.

(** [uzfs_zvol_read_header] (lines 137-159): [hdr0] is the memory [hdr]
    points to on entry.
    Returns < 0 on error, > 0 on an invalid version, 0 when ok. *)
Definition uzfs_zvol_read_header (fuel : nat) (w : W) (fd : Z)
    (hdr0 : list byte) : option (Z * list byte * W) :=
  match uzfs_zvol_socket_read fuel w fd [] sizeof_version with
  | None => None
  | Some (rc, vbytes, w1) =>
      let hdr1 := store_bytes hdr0 0 vbytes in
      if negb (rc =? 0) then Some (-1, hdr1, w1)
      else if negb (version (hdr_of_bytes hdr1) =? REPLICA_VERSION) then
        Some (1, hdr1, w1)
      else
        match uzfs_zvol_socket_read fuel w1 fd []
                (u64 (sizeof_hdr - sizeof_version)) with
        | None => None
        | Some (rc2, rest, w2) =>
            let hdr2 := store_bytes hdr1 (Z.to_nat sizeof_version) rest in
            if negb (rc2 =? 0) then Some (-1, hdr2, w2)
            else Some (0, hdr2, w2)
        end
  end.

End Sockets.

(** ** The block store (uzfs_io.h, uzfs_rebuilding.h) and the volume

    The storage engine is outside data_conn.c.  [zvol_state_t] carries the
    fields the code reads and writes itself; what the engine keeps behind the
    handle is [zv_objset], of an arbitrary type. *)

(** Modelled from the spec: the health of a volume, of which the code names
    [ZVOL_STATUS_HEALTHY] ("DONE implies the volume's health is promoted to
    HEALTHY"). *)
Inductive zvol_status_t : Type :=
| ZVOL_STATUS_DEGRADED
| ZVOL_STATUS_HEALTHY.

(** Modelled from the spec: the rebuild status ("[rebuild_state]
    transitions: INIT, IN_PROGRESS, then DONE, ERRORED or FAILED"). *)
Inductive zvol_rebuild_status_t : Type :=
| ZVOL_REBUILDING_INIT
| ZVOL_REBUILDING_IN_PROGRESS
| ZVOL_REBUILDING_DONE
| ZVOL_REBUILDING_ERRORED
| ZVOL_REBUILDING_FAILED.

(** Modelled from the spec: the state of a volume record ("state in
    {ONLINE, OFFLINE}"). *)
Inductive zvol_info_state_t : Type :=
| ZVOL_INFO_STATE_ONLINE
| ZVOL_INFO_STATE_OFFLINE.

(** Modelled from the spec: [blk_metadata_t] of uzfs_io.h, the io number
    stored with a block. *)
Record blk_metadata_t : Type := mk_blk_metadata {
  blk_io_num : Z
}.

(** Modelled from the spec: [metadata_desc_t] of uzfs_io.h, the list of
    (metadata, length) runs a read with metadata returns. *)
Definition metadata_desc_t : Type := list (blk_metadata_t * Z).

(** Modelled from the spec: the fields of [zvol_state_t] that data_conn.c
    touches: the volume size, the health, and [rebuild_info] ("rebuild_info
    {cnt, done_cnt, failed_cnt}, rebuild_state"). *)
Record zvol_state_t {store : Type} : Type := mk_zv {
  zv_objset : store;
  zv_volsize : Z;
  zv_status : zvol_status_t;
  zv_rebuild_status : zvol_rebuild_status_t;
  rebuild_cnt : Z;
  rebuild_done_cnt : Z;
  rebuild_failed_cnt : Z
}.
Arguments zvol_state_t : clear implicits.
Arguments mk_zv {store}.

(** The engine's entry points, as functions of the handle.
    - [uzfs_read_data zv offset len want_md] gives the return code, the bytes
      in the caller's buffer afterwards and the metadata list left in
      [*metadata_desc] ([want_md] says whether [metadata_desc] was non-NULL).
    - [uzfs_write_data zv buf offset len md is_rebuild] gives the return code
      and the handle afterwards. *)
Class BlockStore (zvol : Type) : Type := {
  uzfs_read_data :
    zvol -> Z -> Z -> bool -> Z * list byte * option metadata_desc_t;
  uzfs_write_data :
    zvol -> list byte -> Z -> Z -> blk_metadata_t -> bool -> Z * zvol;
  uzfs_flush_data : zvol -> zvol;
  uzfs_zvol_get_last_committed_io_no : zvol -> Z
}.

(** Modelled from the spec: the status macros and setters of
    uzfs_rebuilding.h, which read and write the fields above (a volume "past
    its rebuild" is one whose rebuild status is DONE). *)
Definition ZVOL_IS_REBUILDED {store} (z : zvol_state_t store) : bool :=
  match zv_rebuild_status z with ZVOL_REBUILDING_DONE => true | _ => false end.
Definition ZVOL_IS_REBUILDING_ERRORED {store} (z : zvol_state_t store) : bool :=
  match zv_rebuild_status z with ZVOL_REBUILDING_ERRORED => true | _ => false end.
Definition ZVOL_VOLUME_SIZE {store} (z : zvol_state_t store) : Z := zv_volsize z.
Definition uzfs_zvol_set_rebuild_status {store} (z : zvol_state_t store)
    (s : zvol_rebuild_status_t) : zvol_state_t store :=
  mk_zv (zv_objset z) (zv_volsize z) (zv_status z) s
        (rebuild_cnt z) (rebuild_done_cnt z) (rebuild_failed_cnt z).
Definition uzfs_zvol_set_status {store} (z : zvol_state_t store)
    (s : zvol_status_t) : zvol_state_t store :=
  mk_zv (zv_objset z) (zv_volsize z) s (zv_rebuild_status z)
        (rebuild_cnt z) (rebuild_done_cnt z) (rebuild_failed_cnt z).

Definition set_rebuild_done_cnt {store} (z : zvol_state_t store) (n : Z)
    : zvol_state_t store :=
  mk_zv (zv_objset z) (zv_volsize z) (zv_status z) (zv_rebuild_status z)
        (rebuild_cnt z) n (rebuild_failed_cnt z).
Definition set_rebuild_failed_cnt {store} (z : zvol_state_t store) (n : Z)
    : zvol_state_t store :=
  mk_zv (zv_objset z) (zv_volsize z) (zv_status z) (zv_rebuild_status z)
        (rebuild_cnt z) (rebuild_done_cnt z) n.

(** ** zrepl_mgmt.h: commands and the per-volume record *)

(** Modelled from the spec: [zvol_io_cmd_t] of zrepl_mgmt.h ("IoCmd:
    {header, buffer?, buffer_len, conn_fd, volume_ref, metadata_desc?}").
    [buf = None] is the NULL pointer.  The [zv] link to the volume record is
    the [zvol_info_t] the functions below take beside the command. *)
Record zvol_io_cmd_t : Type := mk_cmd {
  hdr : zvol_io_hdr_t;
  buf : option (list byte);
  buf_len : Z;
  conn : Z;
  metadata_desc : option metadata_desc_t
}.

Definition set_hdr (c : zvol_io_cmd_t) (h : zvol_io_hdr_t) : zvol_io_cmd_t :=
  mk_cmd h (buf c) (buf_len c) (conn c) (metadata_desc c).
Definition set_buf (c : zvol_io_cmd_t) (b : option (list byte)) : zvol_io_cmd_t :=
  mk_cmd (hdr c) b (buf_len c) (conn c) (metadata_desc c).
Definition set_buf_len (c : zvol_io_cmd_t) (n : Z) : zvol_io_cmd_t :=
  mk_cmd (hdr c) (buf c) n (conn c) (metadata_desc c).
Definition set_conn (c : zvol_io_cmd_t) (fd : Z) : zvol_io_cmd_t :=
  mk_cmd (hdr c) (buf c) (buf_len c) fd (metadata_desc c).
Definition set_metadata_desc (c : zvol_io_cmd_t) (m : option metadata_desc_t)
    : zvol_io_cmd_t :=
  mk_cmd (hdr c) (buf c) (buf_len c) (conn c) m.

(** Modelled from the spec: the fields of [zvol_info_t] of zrepl_mgmt.h that
    data_conn.c touches ("VolumeInfo").  [io_ack_cond] counts the
    [pthread_cond_signal]s sent to the ack sender. *)
Record zvol_info_t {store : Type} : Type := mk_zinfo {
  state : zvol_info_state_t;
  zv : zvol_state_t store;
  refcnt : Z;
  complete_queue : list zvol_io_cmd_t;
  is_io_ack_sender_created : bool;
  io_ack_waiting : bool;
  io_ack_cond : nat;
  running_ionum : Z;
  checkpointed_ionum : Z;
  checkpointed_time : Z;
  update_ionum_interval : Z;
  read_req_received_cnt : Z;
  write_req_received_cnt : Z;
  sync_req_received_cnt : Z
}.
Arguments zvol_info_t : clear implicits.
Arguments mk_zinfo {store}.

Section Volume.
Context {store : Type}.

Definition set_zv (i : zvol_info_t store) (z : zvol_state_t store)
    : zvol_info_t store :=
  mk_zinfo (state i) z (refcnt i) (complete_queue i)
    (is_io_ack_sender_created i) (io_ack_waiting i) (io_ack_cond i)
    (running_ionum i) (checkpointed_ionum i) (checkpointed_time i)
    (update_ionum_interval i) (read_req_received_cnt i)
    (write_req_received_cnt i) (sync_req_received_cnt i).
Definition set_refcnt (i : zvol_info_t store) (n : Z) : zvol_info_t store :=
  mk_zinfo (state i) (zv i) n (complete_queue i)
    (is_io_ack_sender_created i) (io_ack_waiting i) (io_ack_cond i)
    (running_ionum i) (checkpointed_ionum i) (checkpointed_time i)
    (update_ionum_interval i) (read_req_received_cnt i)
    (write_req_received_cnt i) (sync_req_received_cnt i).
Definition set_complete_queue (i : zvol_info_t store) (q : list zvol_io_cmd_t)
    : zvol_info_t store :=
  mk_zinfo (state i) (zv i) (refcnt i) q
    (is_io_ack_sender_created i) (io_ack_waiting i) (io_ack_cond i)
    (running_ionum i) (checkpointed_ionum i) (checkpointed_time i)
    (update_ionum_interval i) (read_req_received_cnt i)
    (write_req_received_cnt i) (sync_req_received_cnt i).
Definition set_io_ack_cond (i : zvol_info_t store) (n : nat)
    : zvol_info_t store :=
  mk_zinfo (state i) (zv i) (refcnt i) (complete_queue i)
    (is_io_ack_sender_created i) (io_ack_waiting i) n
    (running_ionum i) (checkpointed_ionum i) (checkpointed_time i)
    (update_ionum_interval i) (read_req_received_cnt i)
    (write_req_received_cnt i) (sync_req_received_cnt i).
Definition set_running_ionum (i : zvol_info_t store) (n : Z)
    : zvol_info_t store :=
  mk_zinfo (state i) (zv i) (refcnt i) (complete_queue i)
    (is_io_ack_sender_created i) (io_ack_waiting i) (io_ack_cond i)
    n (checkpointed_ionum i) (checkpointed_time i)
    (update_ionum_interval i) (read_req_received_cnt i)
    (write_req_received_cnt i) (sync_req_received_cnt i).
Definition set_update_ionum_interval (i : zvol_info_t store) (n : Z)
    : zvol_info_t store :=
  mk_zinfo (state i) (zv i) (refcnt i) (complete_queue i)
    (is_io_ack_sender_created i) (io_ack_waiting i) (io_ack_cond i)
    (running_ionum i) (checkpointed_ionum i) (checkpointed_time i)
    n (read_req_received_cnt i)
    (write_req_received_cnt i) (sync_req_received_cnt i).
Definition set_read_req_received_cnt (i : zvol_info_t store) (n : Z)
    : zvol_info_t store :=
  mk_zinfo (state i) (zv i) (refcnt i) (complete_queue i)
    (is_io_ack_sender_created i) (io_ack_waiting i) (io_ack_cond i)
    (running_ionum i) (checkpointed_ionum i) (checkpointed_time i)
    (update_ionum_interval i) n
    (write_req_received_cnt i) (sync_req_received_cnt i).
Definition set_write_req_received_cnt (i : zvol_info_t store) (n : Z)
    : zvol_info_t store :=
  mk_zinfo (state i) (zv i) (refcnt i) (complete_queue i)
    (is_io_ack_sender_created i) (io_ack_waiting i) (io_ack_cond i)
    (running_ionum i) (checkpointed_ionum i) (checkpointed_time i)
    (update_ionum_interval i) (read_req_received_cnt i)
    n (sync_req_received_cnt i).
Definition set_sync_req_received_cnt (i : zvol_info_t store) (n : Z)
    : zvol_info_t store :=
  mk_zinfo (state i) (zv i) (refcnt i) (complete_queue i)
    (is_io_ack_sender_created i) (io_ack_waiting i) (io_ack_cond i)
    (running_ionum i) (checkpointed_ionum i) (checkpointed_time i)
    (update_ionum_interval i) (read_req_received_cnt i)
    (write_req_received_cnt i) n.

(** Modelled from the spec: [uzfs_zinfo_take_refcnt] and
    [uzfs_zinfo_drop_refcnt] of zrepl_mgmt.c, which are not among the sources
    ("refcount take/drop"): one increment, one decrement. *)
Definition uzfs_zinfo_take_refcnt (i : zvol_info_t store) : zvol_info_t store :=
  set_refcnt i (refcnt i + 1).
Definition uzfs_zinfo_drop_refcnt (i : zvol_info_t store) : zvol_info_t store :=
  set_refcnt i (refcnt i - 1).

(** [atomic_inc_64] *)
Definition atomic_inc_64 (x : Z) : Z := u64 (x + 1).

(** [atomic_cas_64 (&target, cmp, newval)]: the value of [target] afterwards. *)
Definition atomic_cas_64 (target cmp newval : Z) : Z :=
  if target =? cmp then newval else target.

End Volume.

(** ** Other threads

    [running_ionum] is shared with the workers of the other connections, which
    run the same code.  A [schedule] lists what they do to the field, one
    entry for each point at which this thread loads or CASes it; when the
    list is used up the other threads are quiet. *)
Definition schedule : Type := list (Z -> Z).

Definition others_run (s : schedule) (cell : Z) : Z * schedule :=
  match s with
  | [] => (cell, [])
  | f :: s' => (f cell, s')
  end.

(** What the other threads promise when they run [uzfs_submit_writes] too:
    they never lower the field. *)
Definition never_lowers (s : schedule) : Prop :=
  Forall (fun f : Z -> Z => forall x, x <= f x) s.

(** What happens to the shared field during a call, in order: a step of the
    other threads, or one [atomic_cas_64] of this thread.  An event holds the
    field before and after it; a CAS also the value it compared the field
    with and the value it asked for. *)
Inductive ionum_event : Type :=
| ev_others (before after : Z)
| ev_cas (before cmp newval after : Z).

(** The step that [others_run s cell] takes, if the schedule has one left. *)
Definition others_log (s : schedule) (cell : Z) : list ionum_event :=
  match s with
  | [] => []
  | f :: _ => [ev_others cell (f cell)]
  end.

(** One call of [uzfs_write_data] as [uzfs_submit_writes] issued it, with the
    code it returned. *)
Record write_call : Type := mk_write_call {
  wc_io_num : Z;
  wc_offset : Z;
  wc_len : Z;
  wc_rebuild : bool;
  wc_data : list byte;
  wc_rc : Z
}.

Record submit_t {store : Type} : Type := mk_submit {
  sub_rc : Z;
  sub_zinfo : zvol_info_t store;
  sub_sched : schedule;
  (** the block-store writes issued, in order *)
  sub_writes : list write_call;
  (** what happened to [running_ionum] during the call: the steps of the
      other threads and every [atomic_cas_64] of this one, in order *)
  sub_cas : list ionum_event
}.
Arguments submit_t : clear implicits.
Arguments mk_submit {store}.

Record worker_t {store : Type} : Type := mk_worker {
  w_zinfo : zvol_info_t store;
  (** the command as the worker left it *)
  w_cmd : zvol_io_cmd_t;
  (** [zio_cmd_free] has released it *)
  w_freed : bool;
  w_sched : schedule;
  w_writes : list write_call;
  w_cas : list ionum_event
}.
Arguments worker_t : clear implicits.
Arguments mk_worker {store}.

(** ** data_conn.c: commands and the worker *)

(** [zio_cmd_alloc] (lines 54-70): [kmem_zalloc] gives zeroed memory. *)
Definition zio_cmd_alloc (h : zvol_io_hdr_t) (fd : Z) : zvol_io_cmd_t :=
  let zio_cmd := mk_cmd h None 0 0 None in
  let zio_cmd :=
    match opcode h with
    | ZVOL_OPCODE_READ | ZVOL_OPCODE_WRITE | ZVOL_OPCODE_OPEN =>
        set_buf_len
          (set_buf zio_cmd (Some (repeat Byte.x00 (Z.to_nat (len h))))) (len h)
    | _ => zio_cmd
    end in
  set_conn zio_cmd fd.

(** [zio_cmd_free] (lines 75-101): the command is gone afterwards; an opcode
    outside the switch fails the [VERIFY]. *)
Definition zio_cmd_free (zio_cmd : zvol_io_cmd_t) : outcome unit :=
  match opcode (hdr zio_cmd) with
  | ZVOL_OPCODE_READ | ZVOL_OPCODE_WRITE | ZVOL_OPCODE_OPEN => Done tt
  | ZVOL_OPCODE_SYNC | ZVOL_OPCODE_REBUILD_STEP_DONE => Done tt
  | _ => Panic
  end.

(** The loop that raises [zinfo->running_ionum] to [io_num] (lines
    220-224): [cell] is the shared field, [running_ionum] the local copy.
    The other threads get a turn before the CAS and before the load that
    follows it.  [cas] is the log of the field: each step of the others, and
    each [atomic_cas_64] with the field as it met it and as it left it. *)
Fixpoint ionum_cas_loop (fuel : nat) (s : schedule) (cell running_ionum : Z)
    (io_num : Z) (cas : list ionum_event)
    : option (Z * schedule * list ionum_event) :=
  if running_ionum <? io_num then
    match fuel with
    | O => None
    | S fuel' =>
        let (cell1, s1) := others_run s cell in
        let cell2 := atomic_cas_64 cell1 running_ionum io_num in
        let cas' :=
          cas ++ others_log s cell
              ++ [ev_cas cell1 running_ionum io_num cell2]
              ++ others_log s1 cell2 in
        let (cell3, s2) := others_run s1 cell2 in
        ionum_cas_loop fuel' s2 cell3 cell3 io_num cas'
    end
  else Some (cell, s, cas).

Section Worker.
Context {store : Type} {BS : BlockStore (zvol_state_t store)}.

(** The [while (remain > 0)] loop of [uzfs_submit_writes] (lines 202-229).
    The inner loop is given the fuel it can need at most. *)
Fixpoint submit_loop (fuel : nat) (zinfo : zvol_info_t store) (s : schedule)
    (is_rebuild : bool) (datap : list byte) (data_offset remain : Z)
    (writes : list write_call) (cas : list ionum_event)
    : option (submit_t store) :=
  if 0 <? remain then
    match fuel with
    | O => None
    | S fuel' =>
        if remain <? sizeof_rw_hdr then Some (mk_submit (-1) zinfo s writes cas)
        else
          let write_hdr := rw_hdr_of_bytes datap in
          let metadata := mk_blk_metadata (io_num write_hdr) in
          let datap := skipn (Z.to_nat sizeof_rw_hdr) datap in
          let remain := remain - sizeof_rw_hdr in
          if remain <? rw_len write_hdr then
            Some (mk_submit (-1) zinfo s writes cas)
          else
            let chunk := firstn (Z.to_nat (rw_len write_hdr)) datap in
            let (rc, zv') :=
              uzfs_write_data (zv zinfo) chunk data_offset (rw_len write_hdr)
                              metadata is_rebuild in
            let zinfo := set_zv zinfo zv' in
            let writes :=
              writes ++ [mk_write_call (io_num write_hdr) data_offset
                           (rw_len write_hdr) is_rebuild chunk rc] in
            if negb (rc =? 0) then Some (mk_submit rc zinfo s writes cas)
            else
              (* Update the highest ionum used for checkpointing *)
              let (cell0, s0) := others_run s (running_ionum zinfo) in
              match ionum_cas_loop (S (S (length s0))) s0 cell0 cell0
                      (io_num write_hdr)
                      (cas ++ others_log s (running_ionum zinfo)) with
              | None => None
              | Some (cell, s', cas') =>
                  submit_loop fuel' (set_running_ionum zinfo cell) s' is_rebuild
                    (skipn (Z.to_nat (rw_len write_hdr)) datap)
                    (u64 (data_offset + rw_len write_hdr))
                    (remain - rw_len write_hdr) writes cas'
              end
    end
  else Some (mk_submit 0 zinfo s writes cas).

(** [uzfs_submit_writes] (lines 188-232); every turn of the loop uses up at
    least one byte of [remain], hence the fuel. *)
Definition uzfs_submit_writes (zinfo : zvol_info_t store)
    (zio_cmd : zvol_io_cmd_t) (s : schedule) : option (submit_t store) :=
  let h := hdr zio_cmd in
  let datap := match buf zio_cmd with Some b => b | None => [] end in
  let is_rebuild := flag_set h ZVOL_OP_FLAG_REBUILD in
  submit_loop (Z.to_nat (len h)) zinfo s is_rebuild datap (offset h) (len h)
              [] [].

(** The [switch (hdr->opcode)] of the worker (lines 286-310): return code,
    volume record, command, schedule and the two logs. *)
Definition worker_exec (zinfo : zvol_info_t store) (zio_cmd : zvol_io_cmd_t)
    (want_md : bool) (s : schedule)
    : option (outcome (Z * worker_t store)) :=
  let h := hdr zio_cmd in
  match opcode h with
  | ZVOL_OPCODE_READ =>
      let '(rc, bytes, md) :=
        uzfs_read_data (zv zinfo) (offset h) (len h) want_md in
      let zio_cmd := set_buf zio_cmd (Some bytes) in
      let zio_cmd := if want_md then set_metadata_desc zio_cmd md else zio_cmd in
      let zinfo :=
        set_read_req_received_cnt zinfo
          (atomic_inc_64 (read_req_received_cnt zinfo)) in
      Some (Done (rc, mk_worker zinfo zio_cmd false s [] []))
  | ZVOL_OPCODE_WRITE =>
      match uzfs_submit_writes zinfo zio_cmd s with
      | None => None
      | Some r =>
          let zinfo := sub_zinfo r in
          let zinfo :=
            set_write_req_received_cnt zinfo
              (atomic_inc_64 (write_req_received_cnt zinfo)) in
          Some (Done (sub_rc r,
                      mk_worker zinfo zio_cmd false (sub_sched r)
                                (sub_writes r) (sub_cas r)))
      end
  | ZVOL_OPCODE_SYNC =>
      let zinfo := set_zv zinfo (uzfs_flush_data (zv zinfo)) in
      let zinfo :=
        set_sync_req_received_cnt zinfo
          (atomic_inc_64 (sync_req_received_cnt zinfo)) in
      Some (Done (0, mk_worker zinfo zio_cmd false s [] []))
  | ZVOL_OPCODE_REBUILD_STEP_DONE =>
      Some (Done (0, mk_worker zinfo zio_cmd false s [] []))
  | _ => Some Panic
  end.

(** [uzfs_zvol_worker] (lines 244-342); [zinfo] is the record [zio_cmd->zv]
    points to. *)
Definition uzfs_zvol_worker (zinfo : zvol_info_t store)
    (zio_cmd : zvol_io_cmd_t) (s : schedule)
    : option (outcome (worker_t store)) :=
  let h := hdr zio_cmd in
  let rebuild_cmd_req := flag_set h ZVOL_OP_FLAG_REBUILD in
  let read_metadata := flag_set h ZVOL_OP_FLAG_READ_METADATA in
  match state zinfo with
  | ZVOL_INFO_STATE_OFFLINE =>
      let zio_cmd :=
        set_hdr zio_cmd (set_len (set_status h ZVOL_OP_STATUS_FAILED) 0) in
      if negb (rebuild_cmd_req && opcode_eqb (opcode h) ZVOL_OPCODE_WRITE) then
        match zio_cmd_free zio_cmd with
        | Panic => Some Panic
        | Done _ =>
            Some (Done (mk_worker (uzfs_zinfo_drop_refcnt zinfo) zio_cmd true
                                  s [] []))
        end
      else
        Some (Done (mk_worker (uzfs_zinfo_drop_refcnt zinfo) zio_cmd false
                              s [] []))
  | ZVOL_INFO_STATE_ONLINE =>
      (* If zvol hasn't passed rebuild phase or if read is meant for rebuild
         or if target has asked for metadata then we need the metadata *)
      let want_md :=
        negb ((negb rebuild_cmd_req && ZVOL_IS_REBUILDED (zv zinfo))
              && negb read_metadata) in
      let zio_cmd :=
        if want_md then zio_cmd else set_metadata_desc zio_cmd None in
      match worker_exec zinfo zio_cmd want_md s with
      | None => None
      | Some Panic => Some Panic
      | Some (Done (rc, r)) =>
          let zinfo := w_zinfo r in
          let zio_cmd := w_cmd r in
          let zio_cmd :=
            if negb (rc =? 0) then
              set_hdr zio_cmd
                (set_len (set_status (hdr zio_cmd) ZVOL_OP_STATUS_FAILED) 0)
            else set_hdr zio_cmd (set_status (hdr zio_cmd) ZVOL_OP_STATUS_OK) in
          (* We are not sending ACK for writes meant for rebuild *)
          if rebuild_cmd_req
             && opcode_eqb (opcode (hdr zio_cmd)) ZVOL_OPCODE_WRITE then
            Some (Done (mk_worker (uzfs_zinfo_drop_refcnt zinfo) zio_cmd false
                                  (w_sched r) (w_writes r) (w_cas r)))
          else if negb (is_io_ack_sender_created zinfo) then
            match zio_cmd_free zio_cmd with
            | Panic => Some Panic
            | Done _ =>
                Some (Done (mk_worker (uzfs_zinfo_drop_refcnt zinfo) zio_cmd
                                      true (w_sched r) (w_writes r) (w_cas r)))
            end
          else
            let zinfo :=
              set_complete_queue zinfo (complete_queue zinfo ++ [zio_cmd]) in
            let zinfo :=
              if io_ack_waiting zinfo then
                set_io_ack_cond zinfo (S (io_ack_cond zinfo))
              else zinfo in
            Some (Done (mk_worker (uzfs_zinfo_drop_refcnt zinfo) zio_cmd false
                                  (w_sched r) (w_writes r) (w_cas r)))
      end
  end.

(** [uzfs_update_ionum_interval] (lines 585-597); [timer_cv] counts the
    [cv_signal]s sent to the timer thread. *)
Definition uzfs_update_ionum_interval (zinfo : zvol_info_t store)
    (timeout : Z) (timer_cv : nat) : zvol_info_t store * nat :=
  if update_ionum_interval zinfo =? timeout then (zinfo, timer_cv)
  else
    let zinfo :=
      if negb (timeout =? 0) then set_update_ionum_interval zinfo timeout
      else zinfo in
    (zinfo, S timer_cv).

End Worker.

(** ** data_conn.c: the rebuild downstream driver *)

(** What the driver thread holds at its labels: the world, the volume
    record, the timer's signal count, the schedule of the other threads, and
    its locals [offset] and [hdr].  The local [zio_cmd] is NULL at both
    labels (it is allocated inside an iteration of the read loop and freed,
    or handed to [exit:], before the iteration ends), so it is a value of
    the iteration and an argument of [dw_exit]. *)
Record dw_state {W store : Type} : Type := mk_dw_state {
  dw_world : W;
  dw_zinfo : zvol_info_t store;
  dw_timer_cv : nat;
  dw_sched : schedule;
  dw_offset : Z;
  dw_hdr : zvol_io_hdr_t
}.
Arguments dw_state : clear implicits.
Arguments mk_dw_state {W store}.

(** [rebuild_thread_arg_t]: the socket and the volume name (without its
    terminating NUL); [ip] and [port] only feed [connect], whose outcome the
    world decides. *)
Record rebuild_thread_arg_t : Type := mk_rebuild_args {
  fd : Z;
  zvol_name : list byte
}.

(** The two places the driver jumps back to. *)
Inductive dw_label : Type :=
| next_step
| read_loop.

Section Rebuild.
Context {W : Type} {SYS : Sys W} {WIRE : Wire}.
Context {store : Type} {BS : BlockStore (zvol_state_t store)}.
(** the tunable [zvol_rebuild_step_size] *)
Context (zvol_rebuild_step_size : Z).

(** The code from the [exit:] label to the end of the thread (lines
    493-528); [rc] and [zio_cmd] are the locals of those names.  The result keeps [rc] beside
    the final state. *)
Definition dw_exit (rc sfd : Z) (zio_cmd : option zvol_io_cmd_t)
    (st : dw_state W store) : outcome (Z * dw_state W store) :=
  let zinfo := dw_zinfo st in
  (* mutex_enter (&zinfo->zv->rebuild_mtx) *)
  let z := zv zinfo in
  let z :=
    if negb (rc =? 0) then
      set_rebuild_failed_cnt
        (uzfs_zvol_set_rebuild_status z ZVOL_REBUILDING_ERRORED)
        (rebuild_failed_cnt z + 1)
    else z in
  let z := set_rebuild_done_cnt z (rebuild_done_cnt z + 1) in
  let (zinfo, timer_cv) :=
    if rebuild_cnt z =? rebuild_done_cnt z then
      if negb (rebuild_failed_cnt z =? 0) then
        (set_zv zinfo (uzfs_zvol_set_rebuild_status z ZVOL_REBUILDING_FAILED),
         dw_timer_cv st)
      else
        (* Mark replica healthy now *)
        let z := uzfs_zvol_set_rebuild_status z ZVOL_REBUILDING_DONE in
        let z := uzfs_zvol_set_status z ZVOL_STATUS_HEALTHY in
        uzfs_update_ionum_interval (set_zv zinfo z) 0 (dw_timer_cv st)
    else (set_zv zinfo z, dw_timer_cv st) in
  (* mutex_exit *)
  match
    match zio_cmd with
    | Some c => zio_cmd_free c
    | None => Done tt
    end
  with
  | Panic => Panic
  | Done _ =>
      let w :=
        if negb (sfd =? -1) then sys_close (dw_world st) sfd
        else dw_world st in
      (* Parent thread have taken refcount, drop it now *)
      Done (rc, mk_dw_state w (uzfs_zinfo_drop_refcnt zinfo) timer_cv
                  (dw_sched st) (dw_offset st) (dw_hdr st))
  end.

Definition with_world (st : dw_state W store) (w : W) : dw_state W store :=
  mk_dw_state w (dw_zinfo st) (dw_timer_cv st) (dw_sched st) (dw_offset st)
              (dw_hdr st).
Definition with_hdr (st : dw_state W store) (h : zvol_io_hdr_t)
    : dw_state W store :=
  mk_dw_state (dw_world st) (dw_zinfo st) (dw_timer_cv st) (dw_sched st)
              (dw_offset st) h.
Definition with_offset (st : dw_state W store) (o : Z) : dw_state W store :=
  mk_dw_state (dw_world st) (dw_zinfo st) (dw_timer_cv st) (dw_sched st)
              o (dw_hdr st).
Definition with_worker (st : dw_state W store) (r : worker_t store)
    : dw_state W store :=
  mk_dw_state (dw_world st) (w_zinfo r) (dw_timer_cv st) (w_sched r)
              (dw_offset st) (dw_hdr st).

(** The body of the driver from [next_step:] on (lines 403-491).  [fuel]
    bounds the jumps back to a label, [io_fuel] the system calls of one
    socket transfer. *)
Fixpoint dw_run (io_fuel fuel : nat) (sfd checkpointed_ionum : Z)
    (l : dw_label) (st : dw_state W store)
    : option (outcome (Z * dw_state W store)) :=
  match fuel with
  | O => None
  | S fuel' =>
      let zvol_state := zv (dw_zinfo st) in
      let offset := dw_offset st in
      match l with
      | next_step =>
          if ZVOL_IS_REBUILDING_ERRORED zvol_state then
            Some (dw_exit (-1) sfd None st)
          else if ZVOL_VOLUME_SIZE zvol_state <=? offset then
            let h := set_opcode (dw_hdr st) ZVOL_OPCODE_REBUILD_COMPLETE in
            match uzfs_zvol_socket_write io_fuel (dw_world st) sfd
                    (hdr_to_bytes h) sizeof_hdr with
            | None => None
            | Some (rc, w) =>
                let st := with_hdr (with_world st w) h in
                if negb (rc =? 0) then
                  (* Socket rebuild_complete write failed, but, counting as
                     success with this replica *)
                  Some (dw_exit 0 sfd None st)
                else Some (dw_exit 0 sfd None st)
            end
          else
            let h := set_status zero_hdr ZVOL_OP_STATUS_OK in
            let h := set_version h REPLICA_VERSION in
            let h := set_opcode h ZVOL_OPCODE_REBUILD_STEP in
            let h := set_checkpointed_io_seq h checkpointed_ionum in
            let h := set_offset h offset in
            let h :=
              if ZVOL_VOLUME_SIZE zvol_state
                 <? u64 (offset + zvol_rebuild_step_size) then
                set_len h (u64 (ZVOL_VOLUME_SIZE zvol_state - offset))
              else set_len h zvol_rebuild_step_size in
            match uzfs_zvol_socket_write io_fuel (dw_world st) sfd
                    (hdr_to_bytes h) sizeof_hdr with
            | None => None
            | Some (rc, w) =>
                let st := with_hdr (with_world st w) h in
                if negb (rc =? 0) then Some (dw_exit rc sfd None st)
                else dw_run io_fuel fuel' sfd checkpointed_ionum read_loop st
            end
      | read_loop =>
          if ZVOL_IS_REBUILDING_ERRORED zvol_state then
            Some (dw_exit (-1) sfd None st)
          else
            match uzfs_zvol_socket_read io_fuel (dw_world st) sfd []
                    sizeof_hdr with
            | None => None
            | Some (rc, got, w) =>
                let h :=
                  hdr_of_bytes (store_bytes (hdr_to_bytes (dw_hdr st)) 0 got) in
                let st := with_hdr (with_world st w) h in
                if negb (rc =? 0) then Some (dw_exit rc sfd None st)
                else if negb (status_eqb (status h) ZVOL_OP_STATUS_OK) then
                  Some (dw_exit (-1) sfd None st)
                else if opcode_eqb (opcode h) ZVOL_OPCODE_REBUILD_STEP_DONE then
                  dw_run io_fuel fuel' sfd checkpointed_ionum next_step
                    (with_offset st (u64 (offset + zvol_rebuild_step_size)))
                else if negb (opcode_eqb (opcode h) ZVOL_OPCODE_READ
                              && flag_set h ZVOL_OP_FLAG_REBUILD) then
                  (* ASSERT ((hdr.opcode == ZVOL_OPCODE_READ) &&
                     (hdr.flags & ZVOL_OP_FLAG_REBUILD)) *)
                  Some Panic
                else
                  let h := set_opcode h ZVOL_OPCODE_WRITE in
                  let st := with_hdr st h in
                  let zio_cmd := zio_cmd_alloc h sfd in
                  match uzfs_zvol_socket_read io_fuel (dw_world st) sfd []
                          (len h) with
                  | None => None
                  | Some (rc, got, w) =>
                      let zio_cmd :=
                        set_buf zio_cmd
                          (match buf zio_cmd with
                           | Some b => Some (store_bytes b 0 got)
                           | None => None
                           end) in
                      let st := with_world st w in
                      if negb (rc =? 0) then
                        Some (dw_exit rc sfd (Some zio_cmd) st)
                      else
                        (* Take refcount for uzfs_zvol_worker to work on it *)
                        let zinfo := uzfs_zinfo_take_refcnt (dw_zinfo st) in
                        match uzfs_zvol_worker zinfo zio_cmd (dw_sched st) with
                        | None => None
                        | Some Panic => Some Panic
                        | Some (Done r) =>
                            let st := with_worker st r in
                            if negb (status_eqb (status (hdr (w_cmd r)))
                                                ZVOL_OP_STATUS_OK) then
                              Some (dw_exit (-1) sfd (Some (w_cmd r)) st)
                            else
                              match zio_cmd_free (w_cmd r) with
                              | Panic => Some Panic
                              | Done _ =>
                                  dw_run io_fuel fuel' sfd checkpointed_ionum
                                    read_loop st
                              end
                        end
                  end
            end
      end
  end.

(** [uzfs_zvol_rebuild_dw_replica] (lines 344-529); [zinfo] is
    [rebuild_args->zinfo]. *)
Definition uzfs_zvol_rebuild_dw_replica (io_fuel fuel : nat)
    (rebuild_args : rebuild_thread_arg_t) (w : W)
    (zinfo : zvol_info_t store) (timer_cv : nat) (s : schedule)
    : option (outcome (Z * dw_state W store)) :=
  let sfd := fd rebuild_args in
  let st := mk_dw_state w zinfo timer_cv s 0 zero_hdr in
  let (rc, w) := sys_setsockopt w sfd in
  let st := with_world st w in
  if negb (rc =? 0) then Some (dw_exit rc sfd None st)
  else
    let (rc, w) := sys_connect w sfd in
    let st := with_world st w in
    if negb (rc =? 0) then Some (dw_exit rc sfd None st)
    else
      let checkpointed_ionum :=
        uzfs_zvol_get_last_committed_io_no (zv zinfo) in
      let h := set_status zero_hdr ZVOL_OP_STATUS_OK in
      let h := set_version h REPLICA_VERSION in
      let h := set_opcode h ZVOL_OPCODE_HANDSHAKE in
      let h := set_len h (Z.of_nat (length (zvol_name rebuild_args)) + 1) in
      let st := with_hdr st h in
      match uzfs_zvol_socket_write io_fuel w sfd (hdr_to_bytes h) sizeof_hdr with
      | None => None
      | Some (rc, w) =>
          let st := with_world st w in
          if negb (rc =? 0) then Some (dw_exit rc sfd None st)
          else
            match uzfs_zvol_socket_write io_fuel w sfd
                    (zvol_name rebuild_args ++ [Byte.x00]) (len h) with
            | None => None
            | Some (rc, w) =>
                let st := with_world st w in
                if negb (rc =? 0) then Some (dw_exit rc sfd None st)
                else dw_run io_fuel fuel sfd checkpointed_ionum next_step st
            end
      end.

End Rebuild.

(** ** data_conn.c: the checkpoint timer *)

(** Modelled from the spec: [uzfs_zvol_get_status] of uzfs_rebuilding.h, the
    getter of the health that [uzfs_zvol_set_status] sets. *)
Definition uzfs_zvol_get_status {store} (z : zvol_state_t store)
    : zvol_status_t :=
  zv_status z.

(** [uzfs_zvol_store_last_committed_io_no (zv, io_num)] of the engine, which
    persists the checkpoint: the handle afterwards. *)
Class CheckpointStore (zvol : Type) : Type := {
  uzfs_zvol_store_last_committed_io_no : zvol -> Z -> zvol
}.

Definition set_io_seq (h : zvol_io_hdr_t) (n : Z) : zvol_io_hdr_t :=
  mk_hdr (version h) (opcode h) (flags h) (status h) n (checkpointed_io_seq h)
         (offset h) (len h).
Definition set_flags (h : zvol_io_hdr_t) (f : Z) : zvol_io_hdr_t :=
  mk_hdr (version h) (opcode h) f (status h) (io_seq h) (checkpointed_io_seq h)
         (offset h) (len h).

Section Timer.
Context {store : Type} {CS : CheckpointStore (zvol_state_t store)}.

Definition set_checkpointed_ionum (i : zvol_info_t store) (n : Z)
    : zvol_info_t store :=
  mk_zinfo (state i) (zv i) (refcnt i) (complete_queue i)
    (is_io_ack_sender_created i) (io_ack_waiting i) (io_ack_cond i)
    (running_ionum i) n (checkpointed_time i)
    (update_ionum_interval i) (read_req_received_cnt i)
    (write_req_received_cnt i) (sync_req_received_cnt i).
Definition set_checkpointed_time (i : zvol_info_t store) (t : Z)
    : zvol_info_t store :=
  mk_zinfo (state i) (zv i) (refcnt i) (complete_queue i)
    (is_io_ack_sender_created i) (io_ack_waiting i) (io_ack_cond i)
    (running_ionum i) (checkpointed_ionum i) t
    (update_ionum_interval i) (read_req_received_cnt i)
    (write_req_received_cnt i) (sync_req_received_cnt i).

(** The body of the [SLIST_FOREACH] of [uzfs_zvol_timer_thread] (lines
    548-568) for one volume: the record afterwards and [min_interval].
    [time_t] is a signed type, whose arithmetic does not wrap. *)
Definition timer_check_zvol (now : Z) (zinfo : zvol_info_t store)
    (min_interval : Z) : zvol_info_t store * Z :=
  match uzfs_zvol_get_status (zv zinfo) with
  | ZVOL_STATUS_HEALTHY =>
      let next_check := checkpointed_time zinfo + update_ionum_interval zinfo in
      let (zinfo, next_check) :=
        if next_check <=? now then
          let zinfo :=
            set_zv zinfo
              (uzfs_zvol_store_last_committed_io_no (zv zinfo)
                 (checkpointed_ionum zinfo)) in
          let zinfo := set_checkpointed_ionum zinfo (running_ionum zinfo) in
          let zinfo := set_checkpointed_time zinfo now in
          (zinfo, now + update_ionum_interval zinfo)
        else (zinfo, next_check) in
      (zinfo,
       if next_check - now <? min_interval then next_check - now
       else min_interval)
  | _ => (zinfo, min_interval)
  end.

(** The [SLIST_FOREACH] over [zvol_list]. *)
Fixpoint timer_foreach (now : Z) (zvol_list : list (zvol_info_t store))
    (min_interval : Z) : list (zvol_info_t store) * Z :=
  match zvol_list with
  | [] => ([], min_interval)
  | zinfo :: rest =>
      let (zinfo', min_interval) := timer_check_zvol now zinfo min_interval in
      let (rest', min_interval) := timer_foreach now rest min_interval in
      (zinfo' :: rest', min_interval)
  end.

(** One turn of the [while (1)] of [uzfs_zvol_timer_thread] (lines 543-570),
    with [now] what [time (NULL)] returns: the volume list afterwards and the
    number of seconds handed to [cv_timedwait]. *)
Definition timer_turn (now : Z) (zvol_list : list (zvol_info_t store))
    : list (zvol_info_t store) * Z :=
  (* we check intervals at least every 10mins *)
  timer_foreach now zvol_list 600.

(** [uzfs_zvol_timer_thread] (lines 531-578).  The thread never returns.
    [clock] has an entry for each of its first turns: what [time (NULL)]
    returns in the turn, and what the other threads make of the volume list
    while the timer waits after it.  The result is the list after these
    turns and the timeouts of the [cv_timedwait]s, in order. *)
Fixpoint uzfs_zvol_timer_thread
    (clock : list (Z * (list (zvol_info_t store) -> list (zvol_info_t store))))
    (zvol_list : list (zvol_info_t store)) (waits : list Z)
    : list (zvol_info_t store) * list Z :=
  match clock with
  | [] => (zvol_list, waits)
  | (now, others) :: clock' =>
      let (zvol_list, min_interval) := timer_turn now zvol_list in
      uzfs_zvol_timer_thread clock' (others zvol_list) (waits ++ [min_interval])
  end.

End Timer.

(** ** data_conn.c: purging a connection's completions *)

(** The first loop of [remove_pending_cmds_to_ack] (lines 608-617) on the
    queue [q]: the commands kept and the commands freed, both in queue
    order. *)
Fixpoint purge_queue (fd : Z) (q : list zvol_io_cmd_t)
    : outcome (list zvol_io_cmd_t * list zvol_io_cmd_t) :=
  match q with
  | [] => Done ([], [])
  | zio_cmd :: q' =>
      if conn zio_cmd =? fd then
        match zio_cmd_free zio_cmd with
        | Panic => Panic
        | Done _ =>
            match purge_queue fd q' with
            | Panic => Panic
            | Done (kept, freed) => Done (kept, zio_cmd :: freed)
            end
        end
      else
        match purge_queue fd q' with
        | Panic => Panic
        | Done (kept, freed) => Done (zio_cmd :: kept, freed)
        end
  end.

(** The second loop (lines 618-623).  [zinfo->zio_cmd_in_ack] belongs to the
    ack sender; [in_ack k] is what this thread finds in it at its [k]-th
    look.  The result is the number of [sleep (1)]s. *)
Fixpoint wait_in_ack (fuel : nat) (fd : Z)
    (in_ack : nat -> option zvol_io_cmd_t) (k : nat) : option nat :=
  match in_ack k with
  | Some zio_cmd =>
      if conn zio_cmd =? fd then
        match fuel with
        | O => None
        | S fuel' => wait_in_ack fuel' fd in_ack (S k)
        end
      else Some k
  | None => Some k
  end.

Record purged_t {store : Type} : Type := mk_purged {
  pg_zinfo : zvol_info_t store;
  (** the commands handed to [zio_cmd_free] *)
  pg_freed : list zvol_io_cmd_t;
  pg_sleeps : nat
}.
Arguments purged_t : clear implicits.
Arguments mk_purged {store}.

(** [remove_pending_cmds_to_ack] (lines 603-625) *)
Definition remove_pending_cmds_to_ack {store : Type} (fuel : nat) (fd : Z)
    (zinfo : zvol_info_t store) (in_ack : nat -> option zvol_io_cmd_t)
    : option (outcome (purged_t store)) :=
  match purge_queue fd (complete_queue zinfo) with
  | Panic => Some Panic
  | Done (kept, freed) =>
      match wait_in_ack fuel fd in_ack 0 with
      | None => None
      | Some sleeps =>
          Some (Done (mk_purged (set_complete_queue zinfo kept) freed sleeps))
      end
  end.

(** ** data_conn.c: the rebuild scanner *)

Section Scanner.
Context {store : Type} {BS : BlockStore (zvol_state_t store)} {WIRE : Wire}.

(** [uzfs_zvol_rebuild_scanner_callback] (lines 825-859).  [hdr0] is what
    the stack holds where the local [hdr] is placed (the code does not set
    [checkpointed_io_seq]); [zinfo] and [fd] are the fields of [warg].  The
    result is the return value, the volume record and the schedule. *)
Definition uzfs_zvol_rebuild_scanner_callback (hdr0 : zvol_io_hdr_t)
    (offset len : Z) (metadata : blk_metadata_t) (zinfo : zvol_info_t store)
    (fd : Z) (s : schedule)
    : option (outcome (Z * zvol_info_t store * schedule)) :=
  let hdr := set_version hdr0 REPLICA_VERSION in
  let hdr := set_opcode hdr ZVOL_OPCODE_READ in
  let hdr := set_io_seq hdr (blk_io_num metadata) in
  let hdr := set_offset hdr offset in
  let hdr := set_len hdr len in
  let hdr := set_flags hdr ZVOL_OP_FLAG_REBUILD in
  let hdr := set_status hdr ZVOL_OP_STATUS_OK in
  match state zinfo with
  | ZVOL_INFO_STATE_OFFLINE => Some (Done (-1, zinfo, s))
  | ZVOL_INFO_STATE_ONLINE =>
      let zio_cmd := zio_cmd_alloc hdr fd in
      (* Take refcount for uzfs_zvol_worker to work on it *)
      let zinfo := uzfs_zinfo_take_refcnt zinfo in
      match uzfs_zvol_worker zinfo zio_cmd s with
      | None => None
      | Some Panic => Some Panic
      | Some (Done r) => Some (Done (0, w_zinfo r, w_sched r))
      end
  end.

End Scanner.

(** [uzfs_get_io_diff (zv, low, func, lun_offset, lun_len, arg)] of
    uzfs_rebuilding.h: the engine walks the metadata of the range and calls
    [func] on the regions written after [low].  [A] is the state [func]
    works on (what [arg] points to and whatever else it changes); the result
    is the return value and that state. *)
Class DiffWalk (zvol : Type) : Type := {
  uzfs_get_io_diff :
    forall {A : Type},
      zvol -> blk_metadata_t -> (Z -> Z -> blk_metadata_t -> A -> Z * A) ->
      Z -> Z -> A -> Z * A
}.

(** What the scanner thread holds at [read_socket]: the world, its local
    [zinfo] (NULL before the handshake, then the volume record), the
    schedule of the other threads and the memory of its local [hdr]. *)
Record scan_state {W store : Type} : Type := mk_scan {
  sc_world : W;
  sc_zinfo : option (zvol_info_t store);
  sc_sched : schedule;
  sc_hdr : list byte
}.
Arguments scan_state : clear implicits.
Arguments mk_scan {W store}.

Section ScannerThread.
Context {W : Type} {SYS : Sys W} {WIRE : Wire}.
Context {store : Type} {BS : BlockStore (zvol_state_t store)}.
Context {DW : DiffWalk (zvol_state_t store)}.
(** [uzfs_zinfo_lookup] of zrepl_mgmt.c: the record of the volume of that
    name, as the lookup leaves it, or NULL. *)
Context (uzfs_zinfo_lookup : list byte -> option (zvol_info_t store)).
(** [zinfo->zio_cmd_in_ack] as the thread finds it, look after look. *)
Context (in_ack : nat -> option zvol_io_cmd_t).
(** what the stack holds where the callback's [hdr] is placed *)
Context (cb_hdr0 : zvol_io_hdr_t).

(** The process while [uzfs_get_io_diff] runs: the volume record and the
    schedule, unless a callback has not returned. *)
Definition walk_state : Type :=
  option (outcome (zvol_info_t store * schedule)).

(** [uzfs_zvol_rebuild_scanner_callback] as [uzfs_get_io_diff] calls it,
    with [warg.fd = fd]. *)
Definition scanner_callback (fd : Z) (offset len : Z)
    (metadata : blk_metadata_t) (a : walk_state) : Z * walk_state :=
  match a with
  | Some (Done (zinfo, s)) =>
      match uzfs_zvol_rebuild_scanner_callback cb_hdr0 offset len metadata
              zinfo fd s with
      | Some (Done (rc, zinfo', s')) => (rc, Some (Done (zinfo', s')))
      | Some Panic => (-1, Some Panic)
      | None => (-1, None)
      end
  | _ => (-1, a)
  end.

(** The code from the [exit:] label of the scanner to its end (lines
    975-986); [rc] is kept beside the final state. *)
Definition scanner_exit (ack_fuel : nat) (fd rc : Z) (st : scan_state W store)
    : option (outcome (Z * scan_state W store)) :=
  match sc_zinfo st with
  | Some zinfo =>
      match remove_pending_cmds_to_ack ack_fuel fd zinfo in_ack with
      | None => None
      | Some Panic => Some Panic
      | Some (Done p) =>
          let zinfo := uzfs_zinfo_drop_refcnt (pg_zinfo p) in
          Some (Done (rc, mk_scan (sys_close (sc_world st) fd) (Some zinfo)
                            (sc_sched st) (sc_hdr st)))
      end
  | None =>
      Some (Done (rc, mk_scan (sys_close (sc_world st) fd) None
                        (sc_sched st) (sc_hdr st)))
  end.

(** The [case ZVOL_OPCODE_REBUILD_STEP] of the scanner (lines 934-963) up
    to its jump: [rc], the volume record, the schedule and the local [hdr];
    the jump goes to [exit] when [rc] is not 0. *)
Definition scanner_rebuild_step (fd : Z) (hdr : zvol_io_hdr_t)
    (zinfo : zvol_info_t store) (s : schedule)
    : option (outcome (Z * zvol_info_t store * schedule * zvol_io_hdr_t)) :=
  let metadata := mk_blk_metadata (checkpointed_io_seq hdr) in
  let rebuild_req_offset := offset hdr in
  let rebuild_req_len := len hdr in
  let (rc, a) :=
    uzfs_get_io_diff (zv zinfo) metadata (scanner_callback fd)
      rebuild_req_offset rebuild_req_len (Some (Done (zinfo, s))) in
  match a with
  | None => None
  | Some Panic => Some Panic
  | Some (Done (zinfo, s)) =>
      if negb (rc =? 0) then Some (Done (rc, zinfo, s, hdr))
      else
        let hdr := set_status zero_hdr ZVOL_OP_STATUS_OK in
        let hdr := set_version hdr REPLICA_VERSION in
        let hdr := set_opcode hdr ZVOL_OPCODE_REBUILD_STEP_DONE in
        let zio_cmd := zio_cmd_alloc hdr fd in
        (* Take refcount for uzfs_zvol_worker to work on it *)
        let zinfo := uzfs_zinfo_take_refcnt zinfo in
        match uzfs_zvol_worker zinfo zio_cmd s with
        | None => None
        | Some Panic => Some Panic
        | Some (Done r) => Some (Done (rc, w_zinfo r, w_sched r, hdr))
        end
  end.

(** The scanner from [read_socket:] on (lines 886-973).  [fuel] bounds the
    jumps back to the label, [io_fuel] the system calls of one socket
    transfer, [ack_fuel] the looks at [zio_cmd_in_ack]. *)
Fixpoint scanner_run (io_fuel ack_fuel fuel : nat) (fd : Z)
    (st : scan_state W store) : option (outcome (Z * scan_state W store)) :=
  match fuel with
  | O => None
  | S fuel' =>
      match uzfs_zvol_read_header io_fuel (sc_world st) fd (sc_hdr st) with
      | None => None
      | Some (rc, mem, w) =>
          let st := mk_scan w (sc_zinfo st) (sc_sched st) mem in
          let hdr := hdr_of_bytes mem in
          if negb (rc =? 0)
             || match sc_zinfo st with
                | Some zinfo =>
                    match state zinfo with
                    | ZVOL_INFO_STATE_OFFLINE => true
                    | ZVOL_INFO_STATE_ONLINE => false
                    end
                | None => false
                end
          then scanner_exit ack_fuel fd rc st
          (* Handshake yet to happen *)
          else if negb (opcode_eqb (opcode hdr) ZVOL_OPCODE_HANDSHAKE)
                  && match sc_zinfo st with Some _ => false | None => true end
          then scanner_exit ack_fuel fd (-1) st
          else
            match opcode hdr with
            | ZVOL_OPCODE_HANDSHAKE =>
                match uzfs_zvol_socket_read io_fuel w fd [] (len hdr) with
                | None => None
                | Some (rc, name, w) =>
                    let st := mk_scan w (sc_zinfo st) (sc_sched st) mem in
                    if negb (rc =? 0) then scanner_exit ack_fuel fd rc st
                    else
                      match sc_zinfo st with
                      | Some _ =>
                          (* Handshake already happened *)
                          scanner_exit ack_fuel fd (-1) st
                      | None =>
                          match uzfs_zinfo_lookup name with
                          | None => scanner_exit ack_fuel fd (-1) st
                          | Some zinfo =>
                              scanner_run io_fuel ack_fuel fuel' fd
                                (mk_scan w (Some zinfo) (sc_sched st) mem)
                          end
                      end
                end
            | ZVOL_OPCODE_REBUILD_STEP =>
                match sc_zinfo st with
                | None =>
                    (* not reached: before the handshake the check above
                       has left; [zinfo->zv] on NULL ends the process *)
                    Some Panic
                | Some zinfo =>
                    match scanner_rebuild_step fd hdr zinfo (sc_sched st) with
                    | None => None
                    | Some Panic => Some Panic
                    | Some (Done (rc, zinfo, s, hdr)) =>
                        if negb (rc =? 0) then
                          scanner_exit ack_fuel fd rc
                            (mk_scan w (Some zinfo) s mem)
                        else
                          scanner_run io_fuel ack_fuel fuel' fd
                            (mk_scan w (Some zinfo) s (hdr_to_bytes hdr))
                    end
                end
            | ZVOL_OPCODE_REBUILD_COMPLETE => scanner_exit ack_fuel fd rc st
            | _ => scanner_exit ack_fuel fd rc st
            end
      end
  end.

(** [uzfs_zvol_rebuild_scanner] (lines 866-987); [hdr_mem0] is what the
    stack holds where the local [hdr] is placed. *)
Definition uzfs_zvol_rebuild_scanner (io_fuel ack_fuel fuel : nat) (fd : Z)
    (w : W) (hdr_mem0 : list byte) (s : schedule)
    : option (outcome (Z * scan_state W store)) :=
  let (rc, w) := sys_setsockopt w fd in
  let st := mk_scan w None s hdr_mem0 in
  if negb (rc =? 0) then scanner_exit ack_fuel fd rc st
  else scanner_run io_fuel ack_fuel fuel fd st.

End ScannerThread.

(** ** The WRITE payload as the sender builds it *)

(** A chunk: an io number with its data. *)
Definition chunk : Type := (Z * list byte)%type.

Definition chunk_len (c : chunk) : Z := Z.of_nat (length (snd c)).

(** Modelled from the spec: what a sender puts on the wire for a chunk
    ("WRITE payload format: concatenation of (sub_hdr{io_num: u64, len:
    u64}, data[len])"). *)
Definition encode_chunk (c : chunk) : list byte :=
  rw_hdr_to_bytes (mk_rw_hdr (fst c) (chunk_len c)) ++ snd c.

Definition encode_chunks (cs : list chunk) : list byte :=
  flat_map encode_chunk cs.

(** Both fields of the sub-header fit their 64 bits. *)
Definition chunk_wf (c : chunk) : Prop :=
  0 <= fst c < 2 ^ 64 /\ chunk_len c < 2 ^ 64.

(** What is left of a payload cut short inside a chunk: some bytes, but too
    few for a sub-header, or fewer data bytes than the sub-header announces. *)
Definition truncated (tail : list byte) : Prop :=
  tail <> []
  /\ (Z.of_nat (length tail) < sizeof_rw_hdr
      \/ Z.of_nat (length tail) - sizeof_rw_hdr < rw_len (rw_hdr_of_bytes tail)).

(** The volume offset after the chunks [cs] written from [off] on. *)
Fixpoint chunks_end (off : Z) (cs : list chunk) : Z :=
  match cs with
  | [] => off
  | c :: cs' => chunks_end (u64 (off + chunk_len c)) cs'
  end.

(** The successful block-store calls that write [cs] from [off] on. *)
Fixpoint chunk_calls (off : Z) (is_rebuild : bool) (cs : list chunk)
    : list write_call :=
  match cs with
  | [] => []
  | c :: cs' =>
      mk_write_call (fst c) off (chunk_len c) is_rebuild (snd c) 0
      :: chunk_calls (u64 (off + chunk_len c)) is_rebuild cs'
  end.

Section Chunks.
Context {store : Type} {BS : BlockStore (zvol_state_t store)}.

(** The block store after it has accepted the chunks [cs] one after the
    other; [None] when it refuses one of them. *)
Fixpoint apply_chunks (z : zvol_state_t store) (off : Z) (is_rebuild : bool)
    (cs : list chunk) : option (zvol_state_t store) :=
  match cs with
  | [] => Some z
  | c :: cs' =>
      let (rc, z') :=
        uzfs_write_data z (snd c) off (chunk_len c) (mk_blk_metadata (fst c))
                        is_rebuild in
      if rc =? 0 then apply_chunks z' (u64 (off + chunk_len c)) is_rebuild cs'
      else None
  end.

End Chunks.

(** ** Which commands the worker takes

    The worker's [switch] executes four opcodes and [zio_cmd_free] releases
    five; any other opcode stops at [VERIFY (!"Should be a valid opcode")]. *)
Definition worker_opcode (o : zvol_op_code_t) : bool :=
  match o with
  | ZVOL_OPCODE_READ | ZVOL_OPCODE_WRITE | ZVOL_OPCODE_SYNC
  | ZVOL_OPCODE_REBUILD_STEP_DONE => true
  | _ => false
  end.

Definition freeable_opcode (o : zvol_op_code_t) : bool :=
  match o with
  | ZVOL_OPCODE_READ | ZVOL_OPCODE_WRITE | ZVOL_OPCODE_OPEN
  | ZVOL_OPCODE_SYNC | ZVOL_OPCODE_REBUILD_STEP_DONE => true
  | _ => false
  end.

(** A WRITE that carries the REBUILD flag. *)
Definition is_rebuild_write (h : zvol_io_hdr_t) : bool :=
  flag_set h ZVOL_OP_FLAG_REBUILD && opcode_eqb (opcode h) ZVOL_OPCODE_WRITE.

(** The command has an opcode [uzfs_zvol_worker] can carry to one of its
    exits on this volume. *)
Definition valid_for_worker {store : Type} (zinfo : zvol_info_t store)
    (zio_cmd : zvol_io_cmd_t) : bool :=
  match state zinfo with
  | ZVOL_INFO_STATE_OFFLINE =>
      is_rebuild_write (hdr zio_cmd) || freeable_opcode (opcode (hdr zio_cmd))
  | ZVOL_INFO_STATE_ONLINE => worker_opcode (opcode (hdr zio_cmd))
  end.

(** ** Vocabulary of the statements *)

(** The field before and after an event. *)
Definition ev_before (e : ionum_event) : Z :=
  match e with
  | ev_others before _ => before
  | ev_cas before _ _ _ => before
  end.

Definition ev_after (e : ionum_event) : Z :=
  match e with
  | ev_others _ after => after
  | ev_cas _ _ _ after => after
  end.

(** [h] tells all that happened to one field that held [v] at first and
    holds [v'] at the end: each event meets the field as the one before it
    left it. *)
Fixpoint history (v : Z) (h : list ionum_event) (v' : Z) : Prop :=
  match h with
  | [] => v' = v
  | e :: h' => ev_before e = v /\ history (ev_after e) h' v'
  end.

(** The values the field holds along [h], the first one included. *)
Definition ionum_values (v : Z) (h : list ionum_event) : list Z :=
  v :: map ev_after h.

(** One CAS: either the field held the value compared with, and a strictly
    larger one has taken its place; or it held another value, and keeps
    it. *)
Definition cas_event_raises (e : ionum_event) : Prop :=
  match e with
  | ev_others _ _ => True
  | ev_cas before cmp newval after =>
      before = cmp /\ after = newval /\ before < after
      \/ before <> cmp /\ after = before
  end.

(** Every CAS of the log replaced a value by a strictly larger one, or
    nothing. *)
Definition cas_raises (cas : list ionum_event) : Prop :=
  Forall cas_event_raises cas.

(** No event of the log lowers the field. *)
Definition never_falls (h : list ionum_event) : Prop :=
  Forall (fun e => ev_before e <= ev_after e) h.

(** Every write of the list that the block store accepted carries an io
    number of at most [v]. *)
Definition applied_below (writes : list write_call) (v : Z) : Prop :=
  forall c, In c writes -> wc_rc c = 0 -> wc_io_num c <= v.

(** The [k]-th call of [write] that [uzfs_zvol_socket_write w fd p n] makes
    as long as no byte has been taken: the calls before it have left [p] and
    [n] as they were. *)
Definition nth_write {W : Type} {SYS : Sys W} (w : W) (fd : Z) (p : list byte)
    (n : Z) (k : nat) : io_ret * W :=
  write (Nat.iter k (fun w0 => snd (write w0 fd p n)) w) fd p n.

(** The largest io number among [v] and the writes of the list that the
    block store accepted. *)
Definition accepted_max (writes : list write_call) (v : Z) : Z :=
  fold_left (fun m c => if wc_rc c =? 0 then Z.max m (wc_io_num c) else m)
            writes v.

(** The opcodes whose commands carry a buffer. *)
Definition buffered_opcode (o : zvol_op_code_t) : bool :=
  match o with
  | ZVOL_OPCODE_READ | ZVOL_OPCODE_WRITE | ZVOL_OPCODE_OPEN => true
  | _ => false
  end.

(** The timer finds the volume healthy and its checkpoint due at [now]. *)
Definition checkpoint_due {store : Type} (now : Z) (z : zvol_info_t store)
    : bool :=
  match zv_status (zv z) with
  | ZVOL_STATUS_HEALTHY =>
      checkpointed_time z + update_ionum_interval z <=? now
  | _ => false
  end.

(** [uzfs_get_io_diff] changes the state of its callback by calling it, and
    in no other way: what every call keeps, the walk keeps. *)
Definition walks_by_callbacks {zvol : Type} (DW : DiffWalk zvol) : Prop :=
  forall (A : Type) (P : A -> Prop) z low
         (func : Z -> Z -> blk_metadata_t -> A -> Z * A) off n a,
    P a ->
    (forall o l m a0, P a0 -> P (snd (func o l m a0))) ->
    P (snd (uzfs_get_io_diff z low func off n a)).

(** A READ completion that the scanner's callback makes for [fd]. *)
Definition rebuild_read_for (fd : Z) (c : zvol_io_cmd_t) : Prop :=
  opcode (hdr c) = ZVOL_OPCODE_READ
  /\ flags (hdr c) = ZVOL_OP_FLAG_REBUILD
  /\ conn c = fd.

(** The command that closes a step: STEP_DONE with status OK, no buffer. *)
Definition step_done_cmd {WIRE : Wire} (fd : Z) : zvol_io_cmd_t :=
  mk_cmd (mk_hdr REPLICA_VERSION ZVOL_OPCODE_REBUILD_STEP_DONE 0
            ZVOL_OP_STATUS_OK 0 0 0 0) None 0 fd None.

(** ** Concrete environments for worked examples *)

(** Modelled from the spec: the wire header of section 6, "version: u16,
    opcode: u16, flags: u32, status: u32, io_seq: u64, checkpointed_io_seq:
    u64, offset: u64, len: u64", packed and little-endian, with the opcodes
    numbered in the order the spec lists them.  zrepl_prot.h, which fixes the
    real layout, is not among the sources; the theorems below hold for every
    [Wire], this one serves the examples.

    [zvol_op_code_t] has the opcodes of the spec and no others, so a number
    outside the list has to be read as one of them.  It is read as OPEN: the
    two places of data_conn.c that act on an opcode taken from the wire, the
    scanner (lines 895-899 and the [default:] of its switch) and the rebuild
    driver (the test for REBUILD_STEP_DONE and the [ASSERT] of lines
    463-470), treat OPEN as they treat a number they do not know. *)
Definition opcode_to_Z (o : zvol_op_code_t) : Z :=
  match o with
  | ZVOL_OPCODE_HANDSHAKE => 0
  | ZVOL_OPCODE_READ => 1
  | ZVOL_OPCODE_WRITE => 2
  | ZVOL_OPCODE_SYNC => 3
  | ZVOL_OPCODE_OPEN => 4
  | ZVOL_OPCODE_REBUILD_STEP => 5
  | ZVOL_OPCODE_REBUILD_STEP_DONE => 6
  | ZVOL_OPCODE_REBUILD_COMPLETE => 7
  end.

Definition opcode_of_Z (z : Z) : zvol_op_code_t :=
  match z with
  | 0 => ZVOL_OPCODE_HANDSHAKE
  | 1 => ZVOL_OPCODE_READ
  | 2 => ZVOL_OPCODE_WRITE
  | 3 => ZVOL_OPCODE_SYNC
  | 5 => ZVOL_OPCODE_REBUILD_STEP
  | 6 => ZVOL_OPCODE_REBUILD_STEP_DONE
  | 7 => ZVOL_OPCODE_REBUILD_COMPLETE
  | _ => ZVOL_OPCODE_OPEN
  end.

Definition status_to_Z (s : zvol_op_status_t) : Z :=
  match s with ZVOL_OP_STATUS_OK => 0 | ZVOL_OP_STATUS_FAILED => 1 end.

Definition status_of_Z (z : Z) : zvol_op_status_t :=
  match z with 0 => ZVOL_OP_STATUS_OK | _ => ZVOL_OP_STATUS_FAILED end.

(** The [n]-byte little-endian field at byte offset [off]. *)
Definition field (bs : list byte) (off n : nat) : Z :=
  le_combine (firstn n (skipn off bs)).

Definition spec_hdr_to_bytes (h : zvol_io_hdr_t) : list byte :=
  le_split 2 (version h) ++ le_split 2 (opcode_to_Z (opcode h))
  ++ le_split 4 (flags h) ++ le_split 4 (status_to_Z (status h))
  ++ le_split 8 (io_seq h) ++ le_split 8 (checkpointed_io_seq h)
  ++ le_split 8 (offset h) ++ le_split 8 (len h).

Definition spec_hdr_of_bytes (bs : list byte) : zvol_io_hdr_t :=
  mk_hdr (field bs 0 2) (opcode_of_Z (field bs 2 2)) (field bs 4 4)
         (status_of_Z (field bs 8 4)) (field bs 12 8) (field bs 20 8)
         (field bs 28 8) (field bs 36 8).

Definition spec_wire : Wire :=
  {| sizeof_hdr := 44;
     sizeof_version := 2;
     REPLICA_VERSION := 1;
     hdr_of_bytes := spec_hdr_of_bytes;
     hdr_to_bytes := spec_hdr_to_bytes |}.

(** A scripted socket.  [rd_script] and [wr_script] list what the next calls
    of [read] and [write] meet; after [rd_script] the peer has closed, after
    [wr_script] the socket takes everything ([wr_open = true]) or nothing.
    [sent] collects the bytes the socket took, [closed] the descriptors
    closed. *)
Record world : Type := mk_world {
  rd_script : list (sysret (list byte));
  wr_script : list (sysret Z);
  wr_open : bool;
  sockopt_rc : Z;
  connect_rc : Z;
  sent : list byte;
  closed : list Z
}.

Definition world_read (w : world) (fd nbytes : Z) : sysret (list byte) * world :=
  match rd_script w with
  | [] => (Ret [], w)
  | r :: rest =>
      (r, mk_world rest (wr_script w) (wr_open w) (sockopt_rc w) (connect_rc w)
                   (sent w) (closed w))
  end.

Definition world_took (w : world) (rest : list (sysret Z)) (bs : list byte)
    (n : Z) : world :=
  mk_world (rd_script w) rest (wr_open w) (sockopt_rc w) (connect_rc w)
           (sent w ++ firstn (Z.to_nat n) bs) (closed w).

Definition world_write (w : world) (fd : Z) (bs : list byte) (nbytes : Z)
    : sysret Z * world :=
  match wr_script w with
  | [] =>
      if wr_open w then (Ret nbytes, world_took w [] bs nbytes)
      else (Ret 0, w)
  | Ret n :: rest => (Ret n, world_took w rest bs n)
  | Errno e :: rest => (Errno e, world_took w rest bs 0)
  end.

Definition world_close (w : world) (fd : Z) : world :=
  mk_world (rd_script w) (wr_script w) (wr_open w) (sockopt_rc w)
           (connect_rc w) (sent w) (closed w ++ [fd]).

Definition script_sys : Sys world :=
  {| sys_read := world_read;
     sys_write := world_write;
     sys_setsockopt := fun w _ => (sockopt_rc w, w);
     sys_connect := fun w _ => (connect_rc w, w);
     sys_close := world_close |}.

(** A block store that keeps the list of accepted writes (offset, bytes,
    io number), newest last.  A write that runs past the end of the volume
    fails with [EIO]; reads return zeroes. *)
Definition mem_store : Type := list (Z * list byte * Z).

Definition EIO : Z := 5.

Definition mem_write (z : zvol_state_t mem_store) (bs : list byte)
    (off n : Z) (md : blk_metadata_t) (is_rebuild : bool)
    : Z * zvol_state_t mem_store :=
  if zv_volsize z <? off + n then (EIO, z)
  else
    (0, mk_zv (zv_objset z ++ [(off, bs, blk_io_num md)]) (zv_volsize z)
              (zv_status z) (zv_rebuild_status z) (rebuild_cnt z)
              (rebuild_done_cnt z) (rebuild_failed_cnt z)).

Definition mem_read (z : zvol_state_t mem_store) (off n : Z) (want_md : bool)
    : Z * list byte * option metadata_desc_t :=
  if zv_volsize z <? off + n then (EIO, [], None)
  else (0, repeat Byte.x00 (Z.to_nat n),
        if want_md then Some [(mk_blk_metadata 0, n)] else None).

Definition mem_blockstore : BlockStore (zvol_state_t mem_store) :=
  {| uzfs_read_data := mem_read;
     uzfs_write_data := mem_write;
     uzfs_flush_data := fun z => z;
     uzfs_zvol_get_last_committed_io_no := fun _ => 0 |}.

(** A healthy, online volume of 1 MiB with an ack sender attached. *)
Definition zv0 : zvol_state_t mem_store :=
  mk_zv [] 1048576 ZVOL_STATUS_HEALTHY ZVOL_REBUILDING_DONE 0 0 0.

Definition zinfo0 : zvol_info_t mem_store :=
  mk_zinfo ZVOL_INFO_STATE_ONLINE zv0 1 [] true false 0 0 0 0 6000 0 0 0.

Definition zinfo_offline : zvol_info_t mem_store :=
  mk_zinfo ZVOL_INFO_STATE_OFFLINE zv0 1 [] true false 0 0 0 0 6000 0 0 0.

(** Commands and sockets of the worked examples. *)
Definition hdr_sync : zvol_io_hdr_t :=
  mk_hdr 1 ZVOL_OPCODE_SYNC 0 ZVOL_OP_STATUS_OK 1 0 0 0.

Definition cmd_sync : zvol_io_cmd_t := zio_cmd_alloc hdr_sync 9.

(** Two chunks: io number 7 with four bytes, io number 3 with two. *)
Definition two_chunks : list chunk :=
  [(7, [Byte.x01; Byte.x02; Byte.x03; Byte.x04]); (3, [Byte.x05; Byte.x06])].

Definition cmd_write : zvol_io_cmd_t :=
  set_buf (zio_cmd_alloc
             (mk_hdr 1 ZVOL_OPCODE_WRITE 0 ZVOL_OP_STATUS_OK 2 0 4096 38) 9)
          (Some (encode_chunks two_chunks)).

Definition cmd_rebuild_write : zvol_io_cmd_t :=
  set_buf (zio_cmd_alloc
             (mk_hdr 1 ZVOL_OPCODE_WRITE ZVOL_OP_FLAG_REBUILD ZVOL_OP_STATUS_OK
                     2 0 4096 38) 9)
          (Some (encode_chunks two_chunks)).

(** One whole chunk, then the first ten bytes of a second sub-header. *)
Definition one_chunk : list chunk :=
  [(7, [Byte.x01; Byte.x02; Byte.x03; Byte.x04])].

Definition cut_tail : list byte :=
  firstn 10 (rw_hdr_to_bytes (mk_rw_hdr 9 4)).

Definition cmd_truncated : zvol_io_cmd_t :=
  set_buf (zio_cmd_alloc
             (mk_hdr 1 ZVOL_OPCODE_WRITE 0 ZVOL_OP_STATUS_OK 2 0 4096 30) 9)
          (Some (encode_chunks one_chunk ++ cut_tail)).

Definition hdr_empty_write : zvol_io_hdr_t :=
  mk_hdr 1 ZVOL_OPCODE_WRITE 0 ZVOL_OP_STATUS_OK 3 0 8192 0.

(** Another connection's worker raises [running_ionum] by five in between. *)
Definition one_other_thread : schedule := [fun x : Z => x + 5].

(** Another connection's worker is quiet until this thread has loaded the
    field, and raises it to 100 before this thread's CAS. *)
Definition overtaking_thread : schedule :=
  [fun x : Z => x; fun x : Z => Z.max x 100; fun x : Z => x].

(** A socket that takes no byte, ever. *)
Definition stuck_world : world := mk_world [] [] false 0 0 [] [].

(** A socket that takes everything. *)
Definition open_world : world := mk_world [] [] true 0 0 [] [].

(** A peer that sends version 0xffff and then 42 more bytes. *)
Definition bad_version_world : world :=
  mk_world [Ret [Byte.xff; Byte.xff]; Ret (repeat Byte.x2a 42)] [] true 0 0 [] [].

(** A peer that has gone: the next [write] fails with [EPIPE]. *)
Definition broken_pipe_world : world :=
  mk_world [] [Errno 32] true 0 0 [] [].

(** A volume of 1 MiB in the middle of its only rebuild. *)
Definition zinfo_rebuilding : zvol_info_t mem_store :=
  mk_zinfo ZVOL_INFO_STATE_ONLINE
    (mk_zv [] 1048576 ZVOL_STATUS_DEGRADED ZVOL_REBUILDING_IN_PROGRESS 1 0 0)
    2 [] true false 0 0 0 0 6000 0 0 0.

(** The driver at [next_step] with the whole volume done and the peer gone. *)
Definition dw_at_end : dw_state world mem_store :=
  mk_dw_state broken_pipe_world zinfo_rebuilding 0 [] 1048576
    (set_opcode (set_version zero_hdr 1) ZVOL_OPCODE_REBUILD_STEP_DONE).

(** A volume whose checkpoint interval is 0. *)
Definition zinfo_interval_0 : zvol_info_t mem_store :=
  mk_zinfo ZVOL_INFO_STATE_ONLINE zv0 1 [] true false 0 0 0 0 0 0 0 0.

(** A whole rebuild of one step: the peer answers the step request with one
    READ completion of 20 bytes and a STEP_DONE, then goes away, so that the
    fourth [write], the REBUILD_COMPLETE header, fails with [EPIPE]. *)
Definition hdr_rebuild_read : zvol_io_hdr_t :=
  mk_hdr 1 ZVOL_OPCODE_READ ZVOL_OP_FLAG_REBUILD ZVOL_OP_STATUS_OK 7 0 4096 20.

Definition hdr_step_done : zvol_io_hdr_t :=
  mk_hdr 1 ZVOL_OPCODE_REBUILD_STEP_DONE 0 ZVOL_OP_STATUS_OK 0 0 0 0.

Definition rebuild_world : world :=
  mk_world [Ret (spec_hdr_to_bytes hdr_rebuild_read);
            Ret (encode_chunks one_chunk);
            Ret (spec_hdr_to_bytes hdr_step_done)]
           [Ret 44; Ret 5; Ret 44; Errno 32] true 0 0 [] [].

Definition rebuild_args_vol1 : rebuild_thread_arg_t :=
  mk_rebuild_args 5 [Byte.x76; Byte.x6f; Byte.x6c; Byte.x31].

(** A peer that sends one byte, is interrupted, and sends two more; its
    socket takes a byte, is interrupted, takes nothing, takes a byte, and
    then everything. *)
Definition trickle_world : world :=
  mk_world [Ret [Byte.x01]; Errno EINTR; Ret [Byte.x02; Byte.x03]]
           [Ret 1; Errno EINTR; Ret 0; Ret 1] true 0 0 [] [].

(** Scripted sockets that take at most a byte with each [write]. *)
Definition byte_at_a_time (w : world) : Prop :=
  Forall (fun r : sysret Z =>
            match r with Ret n => 0 <= n <= 1 | Errno _ => True end)
         (wr_script w)
  /\ wr_open w = true.

(** A WRITE of three chunks that starts four bytes before the end of the
    volume: the second chunk runs past the end. *)
Definition cmd_past_end : zvol_io_cmd_t :=
  set_buf (zio_cmd_alloc
             (mk_hdr 1 ZVOL_OPCODE_WRITE 0 ZVOL_OP_STATUS_OK 2 0 1048572 55) 9)
          (Some (encode_chunks one_chunk
                 ++ encode_chunk (3, [Byte.x05; Byte.x06])
                 ++ encode_chunk (9, [Byte.x07]))).

(** A READ of four bytes that asks for the metadata. *)
Definition cmd_read_md : zvol_io_cmd_t :=
  zio_cmd_alloc
    (mk_hdr 1 ZVOL_OPCODE_READ ZVOL_OP_FLAG_READ_METADATA ZVOL_OP_STATUS_OK
            4 0 0 4) 9.

(** A socket whose [connect] fails. *)
Definition no_route_world : world := mk_world [] [] true 0 (-1) [] [].

(** The second of two rebuilds, after the first has failed. *)
Definition zinfo_errored : zvol_info_t mem_store :=
  mk_zinfo ZVOL_INFO_STATE_ONLINE
    (mk_zv [] 1048576 ZVOL_STATUS_DEGRADED ZVOL_REBUILDING_ERRORED 2 1 1)
    2 [] true false 0 0 0 0 6000 0 0 0.

Definition dw_errored : dw_state world mem_store :=
  mk_dw_state open_world zinfo_errored 0 [] 0 zero_hdr.

(** An engine that keeps the list of the checkpoints it was asked to
    persist. *)
Definition ckpt_log : Type := list Z.

Definition ckpt_log_store : CheckpointStore (zvol_state_t ckpt_log) :=
  {| uzfs_zvol_store_last_committed_io_no :=
       fun z n =>
         mk_zv (zv_objset z ++ [n]) (zv_volsize z) (zv_status z)
               (zv_rebuild_status z) (rebuild_cnt z) (rebuild_done_cnt z)
               (rebuild_failed_cnt z) |}.

(** Three volumes: healthy and last checkpointed at 100, degraded, healthy
    and last checkpointed at 190; intervals of 30, 30 and 45 seconds. *)
Definition timer_vols : list (zvol_info_t ckpt_log) :=
  [mk_zinfo ZVOL_INFO_STATE_ONLINE
     (mk_zv [] 1048576 ZVOL_STATUS_HEALTHY ZVOL_REBUILDING_DONE 0 0 0)
     1 [] true false 0 12 5 100 30 0 0 0;
   mk_zinfo ZVOL_INFO_STATE_ONLINE
     (mk_zv [] 1048576 ZVOL_STATUS_DEGRADED ZVOL_REBUILDING_INIT 0 0 0)
     1 [] true false 0 8 2 100 30 0 0 0;
   mk_zinfo ZVOL_INFO_STATE_ONLINE
     (mk_zv [] 1048576 ZVOL_STATUS_HEALTHY ZVOL_REBUILDING_DONE 0 0 0)
     1 [] true false 0 40 33 190 45 0 0 0].

(** A queue with completions of the connections 9, 5 and 9, and an ack
    sender that is found on a command of connection 9 twice. *)
Definition zinfo_queued : zvol_info_t mem_store :=
  mk_zinfo ZVOL_INFO_STATE_ONLINE zv0 1
    [zio_cmd_alloc hdr_sync 9; zio_cmd_alloc hdr_sync 5;
     zio_cmd_alloc hdr_rebuild_read 9]
    true false 0 0 0 0 6000 0 0 0.

Definition ack_busy_twice (k : nat) : option zvol_io_cmd_t :=
  if (k <? 2)%nat then Some (zio_cmd_alloc hdr_sync 9) else None.

Definition ack_idle (k : nat) : option zvol_io_cmd_t := None.

(** The metadata walk of the list store: the accepted writes of the range
    with an io number above [low], oldest first; it stops at the first call
    that does not return 0. *)
Definition mem_diff_regions (z : zvol_state_t mem_store) (low : blk_metadata_t)
    (off n : Z) : list (Z * Z * blk_metadata_t) :=
  map (fun e : Z * list byte * Z =>
         (fst (fst e), Z.of_nat (length (snd (fst e))), mk_blk_metadata (snd e)))
      (filter (fun e : Z * list byte * Z =>
                 (blk_io_num low <? snd e) && (off <=? fst (fst e))
                 && (fst (fst e) <? off + n))
              (zv_objset z)).

Fixpoint walk_regions {A : Type}
    (func : Z -> Z -> blk_metadata_t -> A -> Z * A)
    (regions : list (Z * Z * blk_metadata_t)) (a : A) : Z * A :=
  match regions with
  | [] => (0, a)
  | r :: rest =>
      let (rc, a') := func (fst (fst r)) (snd (fst r)) (snd r) a in
      if rc =? 0 then walk_regions func rest a' else (rc, a')
  end.

Definition mem_diffwalk : DiffWalk (zvol_state_t mem_store) :=
  {| uzfs_get_io_diff :=
       fun A z low func off n a =>
         walk_regions func (mem_diff_regions z low off n) a |}.

(** A healthy volume with two blocks, written with the io numbers 3 and 9,
    known to the registry under every name of five bytes. *)
Definition zinfo_served : zvol_info_t mem_store :=
  mk_zinfo ZVOL_INFO_STATE_ONLINE
    (mk_zv [(0, [Byte.x01; Byte.x02], 3); (4096, [Byte.x03], 9)] 1048576
           ZVOL_STATUS_HEALTHY ZVOL_REBUILDING_DONE 0 0 0)
    2 [] true false 0 9 0 0 6000 0 0 0.

Definition registry_vol1 (name : list byte) : option (zvol_info_t mem_store) :=
  if (length name =? 5)%nat then Some zinfo_served else None.

Definition hdr_handshake : zvol_io_hdr_t :=
  mk_hdr 1 ZVOL_OPCODE_HANDSHAKE 0 ZVOL_OP_STATUS_OK 0 0 0 5.

(** A step over the whole volume from checkpoint 3. *)
Definition hdr_step : zvol_io_hdr_t :=
  mk_hdr 1 ZVOL_OPCODE_REBUILD_STEP 0 ZVOL_OP_STATUS_OK 0 3 0 1048576.

Definition hdr_complete : zvol_io_hdr_t :=
  mk_hdr 1 ZVOL_OPCODE_REBUILD_COMPLETE 0 ZVOL_OP_STATUS_OK 0 0 0 0.

(** A header as the peer's two writes deliver it: version, then the rest. *)
Definition frames (h : zvol_io_hdr_t) : list (sysret (list byte)) :=
  [Ret (firstn 2 (spec_hdr_to_bytes h)); Ret (skipn 2 (spec_hdr_to_bytes h))].

(** A whole rebuild session as the scanner sees it: handshake for "vol1",
    one step, REBUILD_COMPLETE. *)
Definition scan_world : world :=
  mk_world (frames hdr_handshake
            ++ [Ret (zvol_name rebuild_args_vol1 ++ [Byte.x00])]
            ++ frames hdr_step ++ frames hdr_complete)
           [] true 0 0 [] [].

(** A peer that starts with a step request. *)
Definition rude_world : world :=
  mk_world (frames hdr_step) [] true 0 0 [] [].

(** A header of this version with the opcode number 99, which is no opcode. *)
Definition hdr_bytes_opcode_99 : list byte :=
  le_split 2 1 ++ le_split 2 99 ++ repeat Byte.x00 40.

(** A peer that starts with that header. *)
Definition stray_world : world :=
  mk_world [Ret (firstn 2 hdr_bytes_opcode_99);
            Ret (skipn 2 hdr_bytes_opcode_99)] [] true 0 0 [] [].

(** * Proofs *)

(** ** The socket loops *)

Section SocketLoops.
Context {W : Type} {SYS : Sys W}.

Lemma u64_small z : 0 <= z < 2 ^ 64 -> u64 z = z.
Proof. intros H. unfold u64. apply Z.mod_small. exact H. Qed.

Lemma read_count w fd n :
  0 <= n ->
  (count (fst (read w fd n)) = -1 /\ data (fst (read w fd n)) = [])
  \/ (0 <= count (fst (read w fd n)) <= n
      /\ Z.of_nat (length (data (fst (read w fd n)))) = count (fst (read w fd n))).
Proof.
  intros Hn. unfold read. destruct (sys_read w fd n) as [[bs | e] w']; cbn.
  - right. split; [|reflexivity].
    rewrite length_firstn. lia.
  - left. split; reflexivity.
Qed.

Lemma write_count w fd p n :
  0 <= n ->
  count (fst (write w fd p n)) = -1 \/ 0 <= count (fst (write w fd p n)) <= n.
Proof.
  intros Hn. unfold write.
  destruct (sys_write w fd p n) as [[k | e] w']; cbn; lia.
Qed.

Lemma nth_write_shift w fd p n k :
  nth_write (snd (write w fd p n)) fd p n k = nth_write w fd p n (S k).
Proof.
  unfold nth_write. f_equal. symmetry. apply Nat.iter_succ_r.
Qed.

Lemma socket_write_rc fuel : forall w fd p n rc w',
  uzfs_zvol_socket_write fuel w fd p n = Some (rc, w') -> rc = 0 \/ rc = -1.
Proof.
  induction fuel as [|fuel IH]; intros w fd p n rc w' H; cbn in H.
  - destruct (n =? 0); [|discriminate]. inversion H; auto.
  - destruct (n =? 0); [inversion H; auto|].
    destruct (write w fd p n) as [r w1].
    destruct (count r <? 0).
    + destruct (errno r =? EINTR); [eauto|]. inversion H; auto.
    + eauto.
Qed.

Lemma socket_write_failure fuel : forall w fd p n w',
  uzfs_zvol_socket_write fuel w fd p n = Some (-1, w') ->
  exists w0 p0 n0,
    count (fst (write w0 fd p0 n0)) < 0
    /\ errno (fst (write w0 fd p0 n0)) <> EINTR
    /\ snd (write w0 fd p0 n0) = w'.
Proof.
  induction fuel as [|fuel IH]; intros w fd p n w' H; cbn in H.
  - destruct (n =? 0); discriminate.
  - destruct (n =? 0); [discriminate|].
    destruct (write w fd p n) as [r w1] eqn:E.
    destruct (count r <? 0) eqn:Ec.
    + destruct (errno r =? EINTR) eqn:Ee; [eauto|].
      inversion H; subst w1. exists w, p, n. rewrite E; cbn.
      apply Z.ltb_lt in Ec. apply Z.eqb_neq in Ee. auto.
    + eauto.
Qed.

Lemma socket_write_stuck w fd p n :
  0 < n < 2 ^ 64 ->
  (forall k, count (fst (nth_write w fd p n k)) = 0) ->
  forall fuel, uzfs_zvol_socket_write fuel w fd p n = None.
Proof.
  intros Hn Hz fuel. revert w Hz.
  induction fuel as [|fuel IH]; intros w Hz; cbn.
  - destruct (n =? 0) eqn:E; [apply Z.eqb_eq in E; lia | reflexivity].
  - destruct (n =? 0) eqn:E; [apply Z.eqb_eq in E; lia |].
    pose proof (Hz 0%nat) as H0. unfold nth_write in H0; cbn in H0.
    destruct (write w fd p n) as [r w1] eqn:Ew. cbn in H0. rewrite H0.
    cbn. rewrite Z.sub_0_r, u64_small by lia.
    apply IH. intros k.
    replace w1 with (snd (write w fd p n)) by (rewrite Ew; reflexivity).
    rewrite nth_write_shift. apply Hz.
Qed.

Lemma socket_write_progress fuel : forall w fd p n w',
  0 < n < 2 ^ 64 ->
  uzfs_zvol_socket_write fuel w fd p n = Some (0, w') ->
  exists k, (k < fuel)%nat /\ 0 < count (fst (nth_write w fd p n k)).
Proof.
  induction fuel as [|fuel IH]; intros w fd p n w' Hn H; cbn in H.
  - destruct (n =? 0) eqn:E; [apply Z.eqb_eq in E; lia | discriminate].
  - destruct (n =? 0) eqn:E; [apply Z.eqb_eq in E; lia |].
    destruct (write w fd p n) as [r w1] eqn:Ew.
    assert (Hw1 : w1 = snd (write w fd p n)) by (rewrite Ew; reflexivity).
    destruct (count r <? 0) eqn:Ec.
    + destruct (errno r =? EINTR); [|discriminate].
      destruct (IH _ _ _ _ _ Hn H) as [k [Hk Hc]].
      exists (S k). split; [lia|]. rewrite <- nth_write_shift, <- Hw1. exact Hc.
    + apply Z.ltb_ge in Ec.
      destruct (Z.eq_dec (count r) 0) as [Hz | Hnz].
      * rewrite Hz in H. cbn in H. rewrite Z.sub_0_r, u64_small in H by lia.
        destruct (IH _ _ _ _ _ Hn H) as [k [Hk Hc]].
        exists (S k). split; [lia|]. rewrite <- nth_write_shift, <- Hw1. exact Hc.
      * exists 0%nat. split; [lia|]. unfold nth_write; cbn. rewrite Ew; cbn. lia.
Qed.

Lemma socket_write_completes (P : W -> Prop) fd :
  (forall w p n, P w -> 0 < n ->
     0 < count (fst (write w fd p n)) /\ P (snd (write w fd p n))) ->
  forall fuel w p n,
    P w -> 0 <= n < 2 ^ 64 -> n <= Z.of_nat fuel ->
    exists w', uzfs_zvol_socket_write fuel w fd p n = Some (0, w') /\ P w'.
Proof.
  intros Hstep. induction fuel as [|fuel IH]; intros w p n HP Hn Hf; cbn.
  - assert (n = 0) by lia. subst n. cbn. eauto.
  - destruct (n =? 0) eqn:E; [eauto|]. apply Z.eqb_neq in E.
    destruct (Hstep w p n HP ltac:(lia)) as [Hc HP'].
    pose proof (write_count w fd p n ltac:(lia)) as Hr.
    destruct (write w fd p n) as [r w1]. cbn in *.
    destruct (count r <? 0) eqn:Ec; [apply Z.ltb_lt in Ec; lia|].
    assert (0 <= n - count r < 2 ^ 64) by lia.
    rewrite u64_small by lia.
    apply IH; [exact HP' | lia | lia].
Qed.

(** A zero-byte [read] ends [uzfs_zvol_socket_read] with -1 ... *)
Lemma socket_read_zero_is_close fuel w fd got n :
  n <> 0 -> count (fst (read w fd n)) = 0 ->
  uzfs_zvol_socket_read (S fuel) w fd got n = Some (-1, got, snd (read w fd n)).
Proof.
  intros Hn Hc. cbn. apply Z.eqb_neq in Hn. rewrite Hn.
  destruct (read w fd n) as [r w1]. cbn in *. rewrite Hc. reflexivity.
Qed.

(** ... while a zero-byte [write] makes [uzfs_zvol_socket_write] call again. *)
Lemma socket_write_zero_retries fuel w fd p n :
  0 < n < 2 ^ 64 -> count (fst (write w fd p n)) = 0 ->
  uzfs_zvol_socket_write (S fuel) w fd p n
  = uzfs_zvol_socket_write fuel (snd (write w fd p n)) fd p n.
Proof.
  intros Hn Hc. cbn. destruct (n =? 0) eqn:E; [apply Z.eqb_eq in E; lia|].
  destruct (write w fd p n) as [r w1]. cbn in *. rewrite Hc. cbn.
  rewrite Z.sub_0_r, u64_small by lia. reflexivity.
Qed.

(** C9.  [uzfs_zvol_socket_write] does not take a zero-byte transfer for a
    closed peer, as [uzfs_zvol_socket_read] does.  For every world, socket and
    buffer:
    - it returns only 0 or -1, and -1 only out of a [write] that failed with
      an [errno] other than [EINTR];
    - after a [write] of zero bytes it calls [write] again with the same
      buffer, where a [read] of zero bytes ends [uzfs_zvol_socket_read]
      with -1;
    - it returns 0 only if one of its calls took at least one byte;
    - if every call takes zero bytes it never returns, whatever the fuel;
    - if every call takes at least one byte it returns 0 within [n] calls. *)
Theorem socket_write_never_sees_close (w : W) (fd : Z) (p : list byte) (n : Z) :
  (forall fuel rc w',
     uzfs_zvol_socket_write fuel w fd p n = Some (rc, w') ->
     rc = 0
     \/ (rc = -1
         /\ exists w0 p0 n0,
              count (fst (write w0 fd p0 n0)) < 0
              /\ errno (fst (write w0 fd p0 n0)) <> EINTR
              /\ snd (write w0 fd p0 n0) = w'))
  /\ (0 < n < 2 ^ 64 ->
      count (fst (write w fd p n)) = 0 ->
      forall fuel,
        uzfs_zvol_socket_write (S fuel) w fd p n
        = uzfs_zvol_socket_write fuel (snd (write w fd p n)) fd p n)
  /\ (n <> 0 ->
      count (fst (read w fd n)) = 0 ->
      forall fuel got,
        uzfs_zvol_socket_read (S fuel) w fd got n
        = Some (-1, got, snd (read w fd n)))
  /\ (0 < n < 2 ^ 64 ->
      forall fuel w',
        uzfs_zvol_socket_write fuel w fd p n = Some (0, w') ->
        exists k, (k < fuel)%nat /\ 0 < count (fst (nth_write w fd p n k)))
  /\ (0 < n < 2 ^ 64 ->
      (forall k, count (fst (nth_write w fd p n k)) = 0) ->
      forall fuel, uzfs_zvol_socket_write fuel w fd p n = None)
  /\ (forall P : W -> Prop,
        (forall w0 p0 n0, P w0 -> 0 < n0 ->
           0 < count (fst (write w0 fd p0 n0)) /\ P (snd (write w0 fd p0 n0))) ->
        P w -> 0 <= n < 2 ^ 64 ->
        exists w', uzfs_zvol_socket_write (Z.to_nat n) w fd p n = Some (0, w')).
Proof.
  split; [|split; [|split; [|split; [|split]]]].
  - intros fuel rc w' H.
    destruct (socket_write_rc _ _ _ _ _ _ _ H) as [-> | ->]; [left; reflexivity|].
    right. split; [reflexivity|]. eapply socket_write_failure; exact H.
  - intros Hn Hc fuel. apply socket_write_zero_retries; assumption.
  - intros Hn Hc fuel got. apply socket_read_zero_is_close; assumption.
  - intros Hn fuel w' H. eapply socket_write_progress; eassumption.
  - intros Hn Hz fuel. apply socket_write_stuck; assumption.
  - intros P Hstep HP Hn.
    destruct (socket_write_completes P fd Hstep (Z.to_nat n) w p n HP Hn)
      as [w' [H _]]; [lia|].
    exists w'. exact H.
Qed.

End SocketLoops.

Ltac break_hyps :=
  repeat match goal with
         | H : _ /\ _ |- _ => destruct H
         | H : _ \/ _ |- _ => destruct H
         | H : exists _, _ |- _ => destruct H
         end.

(** ** Reading a header *)

Section HeaderRead.
Context {W : Type} {SYS : Sys W}.

Lemma socket_read_rc fuel : forall w fd got n rc got' w',
  uzfs_zvol_socket_read fuel w fd got n = Some (rc, got', w') -> rc = 0 \/ rc = -1.
Proof.
  induction fuel as [|fuel IH]; intros w fd got n rc got' w' H; cbn in H.
  - destruct (n =? 0); [|discriminate]. inversion H; auto.
  - destruct (n =? 0); [inversion H; auto|].
    destruct (read w fd n) as [r w1].
    destruct (count r <? 0).
    + destruct (errno r =? EINTR); [eauto|]. inversion H; auto.
    + destruct (count r =? 0); [inversion H; auto | eauto].
Qed.

Lemma socket_read_length fuel : forall w fd got n got' w',
  0 <= n < 2 ^ 64 ->
  uzfs_zvol_socket_read fuel w fd got n = Some (0, got', w') ->
  Z.of_nat (length got') = Z.of_nat (length got) + n.
Proof.
  induction fuel as [|fuel IH]; intros w fd got n got' w' Hn H; cbn in H.
  - destruct (n =? 0) eqn:E; [|discriminate]. apply Z.eqb_eq in E.
    inversion H; subst. lia.
  - destruct (n =? 0) eqn:E.
    { apply Z.eqb_eq in E. inversion H; subst. lia. }
    pose proof (read_count w fd n ltac:(lia)) as Hr.
    destruct (read w fd n) as [r w1]. cbn in Hr.
    destruct (count r <? 0) eqn:Ec.
    + destruct (errno r =? EINTR); [eauto | discriminate].
    + apply Z.ltb_ge in Ec.
      destruct (count r =? 0) eqn:Ez; [discriminate|].
      destruct Hr as [[Hr _] | [Hr Hl]]; [lia|].
      rewrite u64_small in H by lia.
      apply IH in H; [|lia]. rewrite length_app in H. lia.
Qed.

Context {WIRE : Wire}.

(** C5.  [uzfs_zvol_read_header] begins with a read of [sizeof_version]
    bytes, the version field alone.  When it returns [rc]:
    - [rc > 0] exactly when that read succeeded and the version is not
      [REPLICA_VERSION]; the world is then the one this first read left, so
      no further byte has been read, and exactly the version's bytes have
      been stored;
    - [rc < 0] exactly when a socket read failed: the read of the version,
      or, the version being valid, the read of the rest of the header;
    - [rc = 0] exactly when both reads succeeded and the version is valid;
      the bytes stored then make up a full header.
    It returns whenever the socket reads it makes return. *)
Theorem read_header_codes fuel w fd hdr0 :
  0 <= sizeof_version <= sizeof_hdr -> sizeof_hdr < 2 ^ 64 ->
  match uzfs_zvol_read_header fuel w fd hdr0 with
  | None =>
      uzfs_zvol_socket_read fuel w fd [] sizeof_version = None
      \/ exists vb w1,
           uzfs_zvol_socket_read fuel w fd [] sizeof_version = Some (0, vb, w1)
           /\ version (hdr_of_bytes (store_bytes hdr0 0 vb)) = REPLICA_VERSION
           /\ uzfs_zvol_socket_read fuel w1 fd []
                (u64 (sizeof_hdr - sizeof_version)) = None
  | Some (rc, mem, w') =>
      exists rc1 vb w1,
        uzfs_zvol_socket_read fuel w fd [] sizeof_version = Some (rc1, vb, w1)
        /\ (0 < rc <->
            rc1 = 0
            /\ version (hdr_of_bytes (store_bytes hdr0 0 vb)) <> REPLICA_VERSION)
        /\ (0 < rc ->
            w' = w1 /\ mem = store_bytes hdr0 0 vb
            /\ Z.of_nat (length vb) = sizeof_version)
        /\ (rc < 0 <->
            rc1 <> 0
            \/ (rc1 = 0
                /\ version (hdr_of_bytes (store_bytes hdr0 0 vb)) = REPLICA_VERSION
                /\ exists rc2 rest w2,
                     uzfs_zvol_socket_read fuel w1 fd []
                       (u64 (sizeof_hdr - sizeof_version)) = Some (rc2, rest, w2)
                     /\ rc2 <> 0))
        /\ (rc = 0 <->
            rc1 = 0
            /\ version (hdr_of_bytes (store_bytes hdr0 0 vb)) = REPLICA_VERSION
            /\ exists rest,
                 uzfs_zvol_socket_read fuel w1 fd []
                   (u64 (sizeof_hdr - sizeof_version)) = Some (0, rest, w')
                 /\ mem = store_bytes (store_bytes hdr0 0 vb)
                            (Z.to_nat sizeof_version) rest
                 /\ Z.of_nat (length (vb ++ rest)) = sizeof_hdr)
  end.
Proof.
  intros Hv Hh. unfold uzfs_zvol_read_header.
  destruct (uzfs_zvol_socket_read fuel w fd [] sizeof_version)
    as [[[rc1 vb] w1]|] eqn:E1; [|left; reflexivity].
  pose proof (socket_read_rc _ _ _ _ _ _ _ _ E1) as Hrc1.
  destruct (rc1 =? 0) eqn:Erc1; cbn [negb].
  2:{ apply Z.eqb_neq in Erc1. exists rc1, vb, w1. split; [reflexivity|].
      repeat split; intros; break_hyps; try lia; auto. }
  apply Z.eqb_eq in Erc1. subst rc1.
  assert (Hlen : Z.of_nat (length vb) = sizeof_version).
  { apply socket_read_length in E1; [cbn in E1; lia | lia]. }
  destruct (version (hdr_of_bytes (store_bytes hdr0 0 vb)) =? REPLICA_VERSION)
    eqn:Ev; cbn [negb].
  2:{ apply Z.eqb_neq in Ev. exists 0, vb, w1. split; [reflexivity|].
      repeat split; intros; break_hyps; try lia; try congruence; auto. }
  apply Z.eqb_eq in Ev.
  destruct (uzfs_zvol_socket_read fuel w1 fd [] (u64 (sizeof_hdr - sizeof_version)))
    as [[[rc2 rest] w2]|] eqn:E2.
  2:{ right. exists vb, w1. auto. }
  pose proof (socket_read_rc _ _ _ _ _ _ _ _ E2) as Hrc2.
  destruct (rc2 =? 0) eqn:Erc2; cbn [negb].
  - apply Z.eqb_eq in Erc2. subst rc2.
    exists 0, vb, w1. split; [reflexivity|].
    assert (Hl2 : Z.of_nat (length rest) = sizeof_hdr - sizeof_version).
    { rewrite u64_small in E2 by lia.
      apply socket_read_length in E2; [cbn in E2; lia | lia]. }
    repeat split; intros; break_hyps; try lia; try congruence; auto.
    exists rest. split; [assumption|]. split; [reflexivity|].
    rewrite length_app. lia.
  - apply Z.eqb_neq in Erc2.
    exists 0, vb, w1. split; [reflexivity|].
    repeat split; intros; break_hyps; try lia; try congruence; auto.
    right. repeat split; auto. exists rc2, rest, w2. auto.
Qed.

End HeaderRead.

(** ** The CAS loop on [running_ionum] *)

Lemma others_run_keeps s cell :
  never_lowers s ->
  cell <= fst (others_run s cell) /\ never_lowers (snd (others_run s cell)).
Proof.
  intros Hs. destruct s as [|f s]; cbn.
  - split; [lia | exact Hs].
  - inversion Hs; subst. split; auto.
Qed.

Lemma others_run_length s cell :
  (length (snd (others_run s cell)) <= length s)%nat.
Proof. destruct s; cbn; lia. Qed.

Lemma ionum_cas_loop_done fuel s cell local io cas :
  io <= local ->
  ionum_cas_loop fuel s cell local io cas = Some (cell, s, cas).
Proof.
  intros H. destruct fuel; cbn;
    (destruct (local <? io) eqn:E; [apply Z.ltb_lt in E; lia | reflexivity]).
Qed.

Lemma ionum_cas_loop_terminates fuel : forall s cell local io cas,
  (length s + (if (cell =? local)%Z then 1 else 2) <= fuel)%nat ->
  exists r, ionum_cas_loop fuel s cell local io cas = Some r.
Proof.
  induction fuel as [|fuel IH]; intros s cell local io cas Hf.
  - destruct (cell =? local); lia.
  - cbn. destruct (local <? io) eqn:Elt; [|eauto].
    apply Z.ltb_lt in Elt.
    destruct s as [|f s].
    + cbn. unfold atomic_cas_64.
      destruct (cell =? local) eqn:Ec.
      * rewrite ionum_cas_loop_done by lia. eauto.
      * apply IH. cbn. rewrite Z.eqb_refl. cbn in Hf. lia.
    + cbn [others_run].
      pose proof (others_run_length s (atomic_cas_64 (f cell) local io)) as Hl.
      destruct (others_run s (atomic_cas_64 (f cell) local io)) as [c3 s2].
      cbn in Hl. apply IH. rewrite Z.eqb_refl. cbn in Hf.
      destruct (cell =? local); lia.
Qed.

Lemma history_app h1 : forall v v1 h2 v2,
  history v h1 v1 -> history v1 h2 v2 -> history v (h1 ++ h2) v2.
Proof.
  induction h1 as [|e h1 IH]; intros v v1 h2 v2 H1 H2; cbn in *.
  - subst v1. exact H2.
  - destruct H1 as [Hb H1]. split; [exact Hb | eauto].
Qed.

Lemma others_log_history s cell :
  history cell (others_log s cell) (fst (others_run s cell)).
Proof. destruct s; cbn; auto. Qed.

Lemma others_log_cas s cell : cas_raises (others_log s cell).
Proof. destruct s; repeat constructor. Qed.

Lemma others_log_never_falls s cell :
  never_lowers s -> never_falls (others_log s cell).
Proof.
  intros Hs. destruct s as [|f s]; [constructor|].
  inversion Hs; subst. repeat constructor. cbn. auto.
Qed.

(** What one [atomic_cas_64] of the loop does to the field. *)
Lemma atomic_cas_64_raises cell local io :
  local < io ->
  cas_event_raises (ev_cas cell local io (atomic_cas_64 cell local io))
  /\ cell <= atomic_cas_64 cell local io.
Proof.
  intros H. unfold atomic_cas_64. cbn.
  destruct (cell =? local) eqn:E.
  - apply Z.eqb_eq in E. split; [left|]; lia.
  - apply Z.eqb_neq in E. split; [right; split; [exact E | reflexivity] | lia].
Qed.

(** A history without a falling step: the values never go down. *)
Lemma history_sorted h : forall v v',
  history v h v' -> never_falls h ->
  StronglySorted Z.le (ionum_values v h) /\ v <= v'.
Proof.
  unfold ionum_values.
  induction h as [|e h IH]; intros v v' H Hf; cbn in *.
  - subst v'. split; [repeat constructor | lia].
  - destruct H as [Hb H]. inversion Hf as [|e' h' He Hf']; subst.
    destruct (IH _ _ H Hf') as [Hs Hle].
    split; [|lia].
    constructor; [exact Hs|].
    constructor; [exact He|].
    inversion Hs as [|a l Hs' Hall]; subst.
    eapply Forall_impl; [|exact Hall]. cbn. intros; lia.
Qed.

Lemma ionum_cas_loop_spec fuel : forall s cell io cas cell' s' cas',
  ionum_cas_loop fuel s cell cell io cas = Some (cell', s', cas') ->
  io <= cell'
  /\ (never_lowers s -> cell <= cell' /\ never_lowers s')
  /\ exists h,
       cas' = cas ++ h
       /\ history cell h cell'
       /\ cas_raises h
       /\ (never_lowers s -> never_falls h).
Proof.
  induction fuel as [|fuel IH]; intros s cell io cas cell' s' cas' H; cbn in H.
  - destruct (cell <? io) eqn:E; [discriminate|]. apply Z.ltb_ge in E.
    inversion H; subst. split; [lia|]. split; [intros; split; [lia|auto]|].
    exists []. rewrite app_nil_r. repeat split; constructor.
  - destruct (cell <? io) eqn:E.
    2:{ apply Z.ltb_ge in E. inversion H; subst.
        split; [lia|]. split; [intros; split; [lia|auto]|].
        exists []. rewrite app_nil_r. repeat split; constructor. }
    apply Z.ltb_lt in E.
    pose proof (others_run_keeps s cell) as K1.
    pose proof (others_log_history s cell) as G1.
    pose proof (others_log_never_falls s cell) as F1.
    pose proof (others_log_cas s cell) as R1.
    set (l1 := others_log s cell) in *.
    destruct (others_run s cell) as [c1 s1]. cbn in K1, G1.
    destruct (atomic_cas_64_raises c1 cell io E) as [Rc Fc].
    set (c2 := atomic_cas_64 c1 cell io) in *.
    pose proof (others_run_keeps s1 c2) as K2.
    pose proof (others_log_history s1 c2) as G2.
    pose proof (others_log_never_falls s1 c2) as F2.
    pose proof (others_log_cas s1 c2) as R2.
    set (l2 := others_log s1 c2) in *.
    destruct (others_run s1 c2) as [c3 s2]. cbn in K2, G2.
    apply IH in H. destruct H as [H1 [H3 [h [Hh [Hhist [Hr Hnf]]]]]].
    split; [exact H1|]. split.
    + intros Hs. destruct (K1 Hs) as [Ha Hb]. destruct (K2 Hb) as [Hc Hd].
      destruct (H3 Hd) as [He Hf]. split; [lia | exact Hf].
    + exists (l1 ++ [ev_cas c1 cell io c2] ++ l2 ++ h).
      split; [rewrite Hh, <- !app_assoc; reflexivity|].
      split.
      { eapply history_app; [exact G1|].
        cbn [app history ev_before ev_after]. split; [reflexivity|].
        eapply history_app; [exact G2 | exact Hhist]. }
      split.
      { unfold cas_raises in *. rewrite !Forall_app. repeat split; auto. }
      intros Hs. destruct (K1 Hs) as [_ Hb]. destruct (K2 Hb) as [_ Hd].
      unfold never_falls in *. rewrite !Forall_app.
      repeat split; auto; repeat constructor; exact Fc.
Qed.

(** With the other threads quiet the loop is a plain maximum. *)
Lemma ionum_cas_loop_alone fuel cell io cas :
  exists cas',
    ionum_cas_loop (S fuel) [] cell cell io cas = Some (Z.max cell io, [], cas').
Proof.
  cbn. destruct (cell <? io) eqn:E.
  - apply Z.ltb_lt in E. unfold atomic_cas_64. rewrite Z.eqb_refl.
    rewrite ionum_cas_loop_done by lia.
    replace (Z.max cell io) with io by lia. eauto.
  - apply Z.ltb_ge in E. replace (Z.max cell io) with cell by lia. eauto.
Qed.

(** ** The payload loop *)

Section SubmitLoop.
Context {store : Type} {BS : BlockStore (zvol_state_t store)}.

Lemma rw_len_nonneg datap : 0 <= rw_len (rw_hdr_of_bytes datap).
Proof. cbn. apply le_combine_bound. Qed.

Lemma submit_loop_terminates fuel :
  forall (zinfo : zvol_info_t store) s rb datap off remain writes cas,
  remain <= Z.of_nat fuel ->
  exists r, submit_loop fuel zinfo s rb datap off remain writes cas = Some r.
Proof.
  induction fuel as [|fuel IH]; intros zinfo s rb datap off remain writes cas Hf.
  - cbn. destruct (0 <? remain) eqn:E; [apply Z.ltb_lt in E; lia | eauto].
  - cbn [submit_loop]. destruct (0 <? remain) eqn:E; [|eauto].
    destruct (remain <? sizeof_rw_hdr) eqn:E1; [eauto|].
    apply Z.ltb_ge in E1. unfold sizeof_rw_hdr in E1.
    destruct (remain - sizeof_rw_hdr <? rw_len (rw_hdr_of_bytes datap)) eqn:E2;
      [eauto|].
    destruct (uzfs_write_data _ _ _ _ _ _) as [rc zv'].
    destruct (rc =? 0); cbn [negb]; [|eauto].
    destruct (others_run s _) as [c0 s0].
    edestruct (ionum_cas_loop_terminates (S (S (length s0))) s0 c0 c0
                 (io_num (rw_hdr_of_bytes datap))) as [[[c1 s1] cas1] Hl].
    { rewrite Z.eqb_refl. lia. }
    rewrite Hl. apply IH.
    pose proof (rw_len_nonneg datap). unfold sizeof_rw_hdr. lia.
Qed.

Lemma uzfs_submit_writes_total (zinfo : zvol_info_t store) zio_cmd s :
  exists r, uzfs_submit_writes zinfo zio_cmd s = Some r.
Proof.
  unfold uzfs_submit_writes. apply submit_loop_terminates. lia.
Qed.

Lemma applied_below_snoc writes c v v' :
  applied_below writes v -> v <= v' -> (wc_rc c = 0 -> wc_io_num c <= v') ->
  applied_below (writes ++ [c]) v'.
Proof.
  intros H Hv Hc c' Hin Hrc. apply in_app_or in Hin.
  destruct Hin as [Hin | [<- | []]]; [|auto].
  specialize (H c' Hin Hrc). lia.
Qed.

Lemma submit_loop_ionum fuel :
  forall (zinfo : zvol_info_t store) s rb datap off remain writes cas r,
  submit_loop fuel zinfo s rb datap off remain writes cas = Some r ->
  never_lowers s ->
  applied_below writes (running_ionum zinfo) ->
  applied_below (sub_writes r) (running_ionum (sub_zinfo r))
  /\ running_ionum zinfo <= running_ionum (sub_zinfo r)
  /\ never_lowers (sub_sched r).
Proof.
  induction fuel as [|fuel IH];
    intros zinfo s rb datap off remain writes cas r H Hs Hw.
  - cbn in H. destruct (0 <? remain); [discriminate|].
    inversion H; subst; cbn. repeat split; auto; lia.
  - cbn [submit_loop] in H.
    destruct (0 <? remain).
    2:{ inversion H; subst; cbn. repeat split; auto; lia. }
    destruct (remain <? sizeof_rw_hdr).
    { inversion H; subst; cbn. repeat split; auto; lia. }
    destruct (remain - sizeof_rw_hdr <? rw_len (rw_hdr_of_bytes datap)).
    { inversion H; subst; cbn. repeat split; auto; lia. }
    destruct (uzfs_write_data _ _ _ _ _ _) as [rc zv'].
    destruct (rc =? 0) eqn:Erc; cbn [negb] in H.
    2:{ apply Z.eqb_neq in Erc. inversion H; subst; cbn.
        repeat split; auto; try lia.
        eapply applied_below_snoc; [exact Hw | lia | cbn; intros; lia]. }
    apply Z.eqb_eq in Erc. subst rc.
    pose proof (others_run_keeps s (running_ionum (set_zv zinfo zv')) Hs) as K0.
    destruct (others_run s _) as [c0 s0]. cbn in K0. destruct K0 as [K0 K0'].
    destruct (ionum_cas_loop _ s0 c0 c0 _ _) as [[[c1 s1] cas1]|] eqn:El;
      [|discriminate].
    apply ionum_cas_loop_spec in El. destruct El as [L1 [L3 _]].
    destruct (L3 K0') as [L4 L5].
    apply IH in H; [| exact L5 |].
    + cbn in H. destruct H as [H1 [H2 H4]].
      repeat split; auto. lia.
    + eapply applied_below_snoc; [exact Hw | cbn; lia | intros _; exact L1].
Qed.

(** The log of a run is the whole history of the field, and this thread's
    part in it is CASes that raise. *)
Lemma submit_loop_history fuel :
  forall (zinfo : zvol_info_t store) s rb datap off remain writes cas r,
  submit_loop fuel zinfo s rb datap off remain writes cas = Some r ->
  exists h,
    sub_cas r = cas ++ h
    /\ history (running_ionum zinfo) h (running_ionum (sub_zinfo r))
    /\ cas_raises h
    /\ (never_lowers s -> never_falls h).
Proof.
  assert (Hnil : forall (zi : zvol_info_t store) s0 cas0,
            exists h, cas0 = cas0 ++ h
                      /\ history (running_ionum zi) h (running_ionum zi)
                      /\ cas_raises h /\ (never_lowers s0 -> never_falls h)).
  { intros zi s0 cas0. exists []. rewrite app_nil_r.
    repeat split; constructor. }
  induction fuel as [|fuel IH];
    intros zinfo s rb datap off remain writes cas r H.
  - cbn in H. destruct (0 <? remain); [discriminate|].
    inversion H; subst; cbn. apply Hnil.
  - cbn [submit_loop] in H.
    destruct (0 <? remain).
    2:{ inversion H; subst; cbn. apply Hnil. }
    destruct (remain <? sizeof_rw_hdr).
    { inversion H; subst; cbn. apply Hnil. }
    destruct (remain - sizeof_rw_hdr <? rw_len (rw_hdr_of_bytes datap)).
    { inversion H; subst; cbn. apply Hnil. }
    destruct (uzfs_write_data _ _ _ _ _ _) as [rc zv'].
    destruct (rc =? 0); cbn [negb] in H.
    2:{ inversion H; subst; cbn. apply (Hnil zinfo). }
    replace (running_ionum (set_zv zinfo zv')) with (running_ionum zinfo) in H
      by reflexivity.
    pose proof (others_run_keeps s (running_ionum zinfo)) as K0.
    pose proof (others_log_history s (running_ionum zinfo)) as G0.
    pose proof (others_log_never_falls s (running_ionum zinfo)) as F0.
    pose proof (others_log_cas s (running_ionum zinfo)) as R0.
    set (l0 := others_log s (running_ionum zinfo)) in *.
    destruct (others_run s (running_ionum zinfo)) as [c0 s0]. cbn in K0, G0.
    destruct (ionum_cas_loop _ s0 c0 c0 _ _) as [[[c1 s1] cas1]|] eqn:El;
      [|discriminate].
    apply ionum_cas_loop_spec in El.
    destruct El as [_ [L3 [h1 [Hh1 [Hist1 [Hr1 Hnf1]]]]]].
    apply IH in H. destruct H as [h2 [Hh2 [Hist2 [Hr2 Hnf2]]]].
    cbn in Hist2.
    exists (l0 ++ h1 ++ h2).
    split; [rewrite Hh2, Hh1, <- !app_assoc; reflexivity|].
    split.
    { eapply history_app; [exact G0|].
      eapply history_app; [exact Hist1 | exact Hist2]. }
    split.
    { unfold cas_raises in *. rewrite !Forall_app. auto. }
    intros Hs. destruct (K0 Hs) as [_ Hb]. destruct (L3 Hb) as [_ Hd].
    unfold never_falls in *. rewrite !Forall_app. auto.
Qed.

End SubmitLoop.

(** ** Payloads made of whole chunks *)

Lemma firstn_exact {A} (n : nat) (l1 l2 : list A) :
  length l1 = n -> firstn n (l1 ++ l2) = l1.
Proof.
  intros <-. rewrite firstn_app, Nat.sub_diag, firstn_all. cbn.
  apply app_nil_r.
Qed.

Lemma skipn_exact {A} (n : nat) (l1 l2 : list A) :
  length l1 = n -> skipn n (l1 ++ l2) = l2.
Proof.
  intros <-. rewrite skipn_app, Nat.sub_diag, skipn_all. reflexivity.
Qed.

Lemma le_combine_split_8 z : 0 <= z < 2 ^ 64 -> le_combine (le_split 8 z) = z.
Proof.
  intros H. rewrite le_combine_split. apply Z.mod_small.
  change (2 ^ (Z.of_nat 8 * 8)) with (2 ^ 64). exact H.
Qed.

Lemma rw_hdr_roundtrip io l rest :
  0 <= io < 2 ^ 64 -> 0 <= l < 2 ^ 64 ->
  rw_hdr_of_bytes (rw_hdr_to_bytes (mk_rw_hdr io l) ++ rest) = mk_rw_hdr io l.
Proof.
  intros Hio Hl. unfold rw_hdr_of_bytes, rw_hdr_to_bytes.
  cbn [io_num rw_len]. rewrite <- app_assoc.
  rewrite (firstn_exact 8) by apply length_le_split.
  rewrite (skipn_exact 8) by apply length_le_split.
  rewrite (firstn_exact 8) by apply length_le_split.
  rewrite !le_combine_split_8 by assumption. reflexivity.
Qed.

Lemma length_rw_hdr_to_bytes h : length (rw_hdr_to_bytes h) = 16%nat.
Proof. unfold rw_hdr_to_bytes. rewrite length_app, !length_le_split. reflexivity. Qed.

Lemma length_encode_chunk c :
  Z.of_nat (length (encode_chunk c)) = sizeof_rw_hdr + chunk_len c.
Proof.
  unfold encode_chunk, chunk_len, sizeof_rw_hdr.
  rewrite length_app, length_rw_hdr_to_bytes. lia.
Qed.

Section Payload.
Context {store : Type} {BS : BlockStore (zvol_state_t store)}.

Lemma zinfo_same (zinfo : zvol_info_t store) :
  set_running_ionum (set_zv zinfo (zv zinfo)) (running_ionum zinfo) = zinfo.
Proof. destruct zinfo; reflexivity. Qed.

Lemma submit_loop_chunks :
  forall cs fuel (zinfo : zvol_info_t store) s rb tail off writes cas z',
  Forall chunk_wf cs ->
  Z.of_nat (length (encode_chunks cs ++ tail)) <= Z.of_nat fuel ->
  apply_chunks (zv zinfo) off rb cs = Some z' ->
  exists fuel' cell s' cas',
    submit_loop fuel zinfo s rb (encode_chunks cs ++ tail) off
      (Z.of_nat (length (encode_chunks cs ++ tail))) writes cas
    = submit_loop fuel' (set_running_ionum (set_zv zinfo z') cell) s' rb tail
        (chunks_end off cs) (Z.of_nat (length tail))
        (writes ++ chunk_calls off rb cs) cas'
    /\ Z.of_nat (length tail) <= Z.of_nat fuel'.
Proof.
  induction cs as [|c cs IH];
    intros fuel zinfo s rb tail off writes cas z' Hwf Hf Ha.
  - cbn in *. inversion Ha; subst z'.
    exists fuel, (running_ionum zinfo), s, cas.
    rewrite zinfo_same, app_nil_r. auto.
  - inversion Hwf as [|? ? [Hio Hlen] Hwf']; subst.
    cbn [encode_chunks flat_map] in *. rewrite <- app_assoc in *.
    fold (encode_chunks cs) in *.
    set (rest := encode_chunks cs ++ tail) in *.
    assert (Hl : Z.of_nat (length (encode_chunk c ++ rest))
                 = sizeof_rw_hdr + chunk_len c + Z.of_nat (length rest)).
    { rewrite length_app, Nat2Z.inj_add, length_encode_chunk. reflexivity. }
    assert (Hcl : 0 <= chunk_len c) by (unfold chunk_len; lia).
    rewrite Hl in *. unfold sizeof_rw_hdr in Hf.
    destruct fuel as [|fuel]; [lia|].
    cbn [submit_loop].
    destruct (0 <? sizeof_rw_hdr + chunk_len c + Z.of_nat (length rest)) eqn:E0.
    2:{ apply Z.ltb_ge in E0. unfold sizeof_rw_hdr in E0. lia. }
    destruct (sizeof_rw_hdr + chunk_len c + Z.of_nat (length rest) <? sizeof_rw_hdr)
      eqn:E1.
    { apply Z.ltb_lt in E1. lia. }
    assert (Hh : rw_hdr_of_bytes (encode_chunk c ++ rest)
                 = mk_rw_hdr (fst c) (chunk_len c)).
    { unfold encode_chunk. rewrite <- app_assoc.
      apply rw_hdr_roundtrip; lia. }
    assert (Hsk : skipn (Z.to_nat sizeof_rw_hdr) (encode_chunk c ++ rest)
                  = snd c ++ rest).
    { unfold encode_chunk. rewrite <- app_assoc.
      apply skipn_exact. rewrite length_rw_hdr_to_bytes. reflexivity. }
    rewrite !Hh, !Hsk. cbn [io_num rw_len].
    destruct (sizeof_rw_hdr + chunk_len c + Z.of_nat (length rest) - sizeof_rw_hdr
              <? chunk_len c) eqn:E2.
    { apply Z.ltb_lt in E2. lia. }
    rewrite !(firstn_exact (Z.to_nat (chunk_len c)))
      by (unfold chunk_len; lia).
    rewrite !(skipn_exact (Z.to_nat (chunk_len c)))
      by (unfold chunk_len; lia).
    cbn [apply_chunks] in Ha.
    destruct (uzfs_write_data (zv zinfo) (snd c) off (chunk_len c)
                (mk_blk_metadata (fst c)) rb) as [rc z1].
    destruct (rc =? 0) eqn:Erc; [|discriminate]. cbn [negb].
    apply Z.eqb_eq in Erc. subst rc.
    destruct (others_run s (running_ionum (set_zv zinfo z1))) as [c0 s0].
    edestruct (ionum_cas_loop_terminates (S (S (length s0))) s0 c0 c0 (fst c))
      as [[[c1 s1] cas1] Hloop].
    { rewrite Z.eqb_refl. lia. }
    rewrite Hloop.
    replace (sizeof_rw_hdr + chunk_len c + Z.of_nat (length rest)
             - sizeof_rw_hdr - chunk_len c)
      with (Z.of_nat (length rest)) by lia.
    edestruct (IH fuel (set_running_ionum (set_zv zinfo z1) c1) s1 rb tail
                 (u64 (off + chunk_len c))
                 (writes ++ [mk_write_call (fst c) off (chunk_len c) rb (snd c) 0])
                 cas1 z' Hwf') as [fuel' [cell [s' [cas' [Heq Hle]]]]].
    { fold rest. lia. }
    { exact Ha. }
    fold rest in Heq. rewrite Heq.
    exists fuel', cell, s', cas'. split; [|exact Hle].
    cbn [chunks_end chunk_calls]. rewrite <- app_assoc. reflexivity.
Qed.

Lemma submit_loop_truncated fuel (zinfo : zvol_info_t store) s rb tail off
    writes cas :
  truncated tail -> Z.of_nat (length tail) <= Z.of_nat fuel ->
  submit_loop fuel zinfo s rb tail off (Z.of_nat (length tail)) writes cas
  = Some (mk_submit (-1) zinfo s writes cas).
Proof.
  intros [Hne Ht] Hf.
  assert (0 < Z.of_nat (length tail)) by (destruct tail; [congruence | cbn; lia]).
  destruct fuel as [|fuel]; [lia|].
  cbn [submit_loop].
  destruct (0 <? Z.of_nat (length tail)) eqn:E0; [|apply Z.ltb_ge in E0; lia].
  destruct (Z.of_nat (length tail) <? sizeof_rw_hdr) eqn:E1; [reflexivity|].
  apply Z.ltb_ge in E1.
  destruct (Z.of_nat (length tail) - sizeof_rw_hdr <? rw_len (rw_hdr_of_bytes tail))
    eqn:E2; [reflexivity|].
  apply Z.ltb_ge in E2. lia.
Qed.

Lemma submit_loop_end fuel (zinfo : zvol_info_t store) s rb off writes cas :
  submit_loop fuel zinfo s rb [] off 0 writes cas
  = Some (mk_submit 0 zinfo s writes cas).
Proof. destruct fuel; reflexivity. Qed.

End Payload.

(** ** Runs of the worker *)

Lemma opcode_eqb_eq a b : opcode_eqb a b = true <-> a = b.
Proof. destruct a, b; cbn; split; intros H; congruence. Qed.

Lemma zio_cmd_free_ok c :
  freeable_opcode (opcode (hdr c)) = true -> zio_cmd_free c = Done tt.
Proof. unfold zio_cmd_free. destruct (opcode (hdr c)); cbn; congruence. Qed.

Lemma zio_cmd_free_panics c :
  freeable_opcode (opcode (hdr c)) = false -> zio_cmd_free c = Panic.
Proof. unfold zio_cmd_free. destruct (opcode (hdr c)); cbn; congruence. Qed.

Lemma worker_opcode_freeable o : worker_opcode o = true -> freeable_opcode o = true.
Proof. destruct o; cbn; congruence. Qed.

Section WorkerRuns.
Context {store : Type} {BS : BlockStore (zvol_state_t store)}.

(** [uzfs_submit_writes] touches two fields of the volume record only: the
    block-store handle and [running_ionum]. *)
Lemma submit_loop_frame fuel :
  forall (zinfo : zvol_info_t store) s rb datap off remain writes cas r,
  submit_loop fuel zinfo s rb datap off remain writes cas = Some r ->
  sub_zinfo r
  = set_running_ionum (set_zv zinfo (zv (sub_zinfo r)))
                      (running_ionum (sub_zinfo r)).
Proof.
  induction fuel as [|fuel IH];
    intros zinfo s rb datap off remain writes cas r H.
  - cbn in H. destruct (0 <? remain); [discriminate|].
    inversion H; subst; cbn. symmetry. apply zinfo_same.
  - cbn [submit_loop] in H.
    destruct (0 <? remain).
    2:{ inversion H; subst; cbn. symmetry. apply zinfo_same. }
    destruct (remain <? sizeof_rw_hdr).
    { inversion H; subst; cbn. symmetry. apply zinfo_same. }
    destruct (remain - sizeof_rw_hdr <? rw_len (rw_hdr_of_bytes datap)).
    { inversion H; subst; cbn. symmetry. apply zinfo_same. }
    destruct (uzfs_write_data _ _ _ _ _ _) as [rc zv'].
    destruct (rc =? 0); cbn [negb] in H.
    2:{ inversion H; subst; cbn. reflexivity. }
    destruct (others_run s _) as [c0 s0].
    destruct (ionum_cas_loop _ s0 c0 c0 _ _) as [[[c1 s1] cas1]|];
      [|discriminate].
    apply IH in H. rewrite H. reflexivity.
Qed.

Lemma uzfs_submit_writes_frame (zinfo : zvol_info_t store) zio_cmd s r :
  uzfs_submit_writes zinfo zio_cmd s = Some r ->
  sub_zinfo r
  = set_running_ionum (set_zv zinfo (zv (sub_zinfo r)))
                      (running_ionum (sub_zinfo r)).
Proof. apply submit_loop_frame. Qed.

Lemma worker_exec_returns (zinfo : zvol_info_t store) zio_cmd want_md s :
  worker_opcode (opcode (hdr zio_cmd)) = true ->
  exists rc r,
    worker_exec zinfo zio_cmd want_md s = Some (Done (rc, r))
    /\ refcnt (w_zinfo r) = refcnt zinfo
    /\ state (w_zinfo r) = state zinfo
    /\ complete_queue (w_zinfo r) = complete_queue zinfo
    /\ is_io_ack_sender_created (w_zinfo r) = is_io_ack_sender_created zinfo
    /\ hdr (w_cmd r) = hdr zio_cmd.
Proof.
  intros Hop. unfold worker_exec.
  destruct (opcode (hdr zio_cmd)) eqn:Eop; try discriminate.
  - destruct (uzfs_read_data _ _ _ _) as [[rc bytes] md].
    eexists _, _. split; [reflexivity|]. cbn.
    destruct want_md; cbn; auto.
  - destruct (uzfs_submit_writes_total zinfo zio_cmd s) as [r Hr].
    rewrite Hr. eexists _, _. split; [reflexivity|]. cbn.
    rewrite (uzfs_submit_writes_frame _ _ _ _ Hr). cbn. auto.
  - eexists _, _. split; [reflexivity|]. cbn. auto.
  - eexists _, _. split; [reflexivity|]. cbn. auto.
Qed.

(** What every returning run of the worker leaves behind. *)
Record worker_post (zinfo : zvol_info_t store) (zio_cmd : zvol_io_cmd_t)
    (r : worker_t store) : Prop := mk_worker_post {
  post_refcnt : refcnt (w_zinfo r) = refcnt zinfo - 1;
  post_opcode : opcode (hdr (w_cmd r)) = opcode (hdr zio_cmd);
  post_flags : flags (hdr (w_cmd r)) = flags (hdr zio_cmd);
  post_offline :
    state zinfo = ZVOL_INFO_STATE_OFFLINE ->
    status (hdr (w_cmd r)) = ZVOL_OP_STATUS_FAILED
    /\ len (hdr (w_cmd r)) = 0
    /\ zv (w_zinfo r) = zv zinfo
    /\ w_writes r = []
    /\ complete_queue (w_zinfo r) = complete_queue zinfo
    /\ w_freed r = negb (is_rebuild_write (hdr zio_cmd));
  post_rebuild_write :
    is_rebuild_write (hdr zio_cmd) = true ->
    complete_queue (w_zinfo r) = complete_queue zinfo /\ w_freed r = false;
  post_queue :
    complete_queue (w_zinfo r) = complete_queue zinfo
    \/ (complete_queue (w_zinfo r) = complete_queue zinfo ++ [w_cmd r]
        /\ w_freed r = false
        /\ is_rebuild_write (hdr (w_cmd r)) = false)
}.

Lemma worker_returns (zinfo : zvol_info_t store) zio_cmd s :
  valid_for_worker zinfo zio_cmd = true ->
  exists r,
    uzfs_zvol_worker zinfo zio_cmd s = Some (Done r) /\ worker_post zinfo zio_cmd r.
Proof.
  unfold valid_for_worker, uzfs_zvol_worker. intros Hv.
  fold (is_rebuild_write (hdr zio_cmd)).
  destruct (state zinfo) eqn:Est.
  - (* online *)
    set (want_md := negb _).
    set (c1 := if want_md then zio_cmd else set_metadata_desc zio_cmd None).
    assert (Hh : hdr c1 = hdr zio_cmd) by (unfold c1; destruct want_md; reflexivity).
    destruct (worker_exec_returns zinfo c1 want_md s) as
      [rc [r [He [Hr [Hs [Hq [Ha Hc]]]]]]].
    { rewrite Hh. exact Hv. }
    rewrite He. rewrite Hc, Hh in *.
    set (c2 := if negb (rc =? 0) then _ else _).
    assert (Hh2 : opcode (hdr c2) = opcode (hdr zio_cmd)
                  /\ flags (hdr c2) = flags (hdr zio_cmd)).
    { unfold c2. destruct (negb (rc =? 0)); cbn; auto. }
    destruct Hh2 as [Ho2 Hf2].
    assert (Hrw : is_rebuild_write (hdr c2) = is_rebuild_write (hdr zio_cmd)).
    { unfold is_rebuild_write, flag_set. rewrite Ho2, Hf2. reflexivity. }
    rewrite Ho2. fold (is_rebuild_write (hdr zio_cmd)).
    destruct (is_rebuild_write (hdr zio_cmd)) eqn:Erw.
    + eexists. split; [reflexivity|].
      constructor; cbn; auto; try lia; try congruence.
    + rewrite Ha. destruct (is_io_ack_sender_created zinfo) eqn:Eack; cbn [negb].
      * destruct (io_ack_waiting (set_complete_queue _ _));
          (eexists; split; [reflexivity|]);
          constructor; cbn; auto; try lia; try congruence;
          right; rewrite Hq; auto.
      * rewrite zio_cmd_free_ok
          by (rewrite Ho2; apply worker_opcode_freeable; exact Hv).
        eexists. split; [reflexivity|].
        constructor; cbn; auto; try lia; try congruence.
  - (* offline *)
    destruct (is_rebuild_write (hdr zio_cmd)) eqn:Erw; cbn [negb].
    + eexists. split; [reflexivity|].
      constructor; cbn; auto; try lia; try congruence.
      intros _. repeat split; auto. rewrite Erw. reflexivity.
    + cbn in Hv. rewrite zio_cmd_free_ok by (cbn; exact Hv).
      eexists. split; [reflexivity|].
      constructor; cbn; auto; try lia; try congruence.
      intros _. repeat split; auto. rewrite Erw. reflexivity.
Qed.

End WorkerRuns.

Lemma is_rebuild_write_iff h :
  is_rebuild_write h = true
  <-> opcode h = ZVOL_OPCODE_WRITE /\ Z.land (flags h) ZVOL_OP_FLAG_REBUILD <> 0.
Proof.
  unfold is_rebuild_write, flag_set.
  rewrite andb_true_iff, negb_true_iff, Z.eqb_neq, opcode_eqb_eq. tauto.
Qed.

Section WorkerClaims.
Context {store : Type} {BS : BlockStore (zvol_state_t store)}.

Lemma worker_panics (zinfo : zvol_info_t store) zio_cmd s :
  valid_for_worker zinfo zio_cmd = false ->
  uzfs_zvol_worker zinfo zio_cmd s = Some Panic.
Proof.
  unfold valid_for_worker, uzfs_zvol_worker. intros Hv.
  fold (is_rebuild_write (hdr zio_cmd)).
  destruct (state zinfo).
  - unfold worker_exec.
    assert (Hh : forall b, hdr (if b : bool then zio_cmd
                                else set_metadata_desc zio_cmd None)
                           = hdr zio_cmd) by (intros []; reflexivity).
    rewrite Hh. destruct (opcode (hdr zio_cmd)); try discriminate; reflexivity.
  - apply orb_false_iff in Hv. destruct Hv as [Hrw Hfree].
    rewrite Hrw. cbn [negb]. rewrite zio_cmd_free_panics by exact Hfree.
    reflexivity.
Qed.

Lemma worker_total (zinfo : zvol_info_t store) zio_cmd s :
  exists o, uzfs_zvol_worker zinfo zio_cmd s = Some o.
Proof.
  destruct (valid_for_worker zinfo zio_cmd) eqn:E.
  - destruct (worker_returns zinfo zio_cmd s E) as [r [H _]]. eauto.
  - rewrite worker_panics by exact E. eauto.
Qed.

(** C2.  For every volume record and every command the worker ends, and
    whichever exit it takes (offline abort, rebuild write without ack, ack
    sender gone, command queued) it has dropped the refcount of the volume
    exactly once: the count is one below where it started.  The only runs
    that reach no exit are those the [VERIFY] on the opcode stops. *)
Theorem worker_drops_refcnt_once (zinfo : zvol_info_t store) zio_cmd s :
  exists o,
    uzfs_zvol_worker zinfo zio_cmd s = Some o
    /\ match o with
       | Done r => refcnt (w_zinfo r) = refcnt zinfo - 1
       | Panic => valid_for_worker zinfo zio_cmd = false
       end.
Proof.
  destruct (valid_for_worker zinfo zio_cmd) eqn:Hv.
  - destruct (worker_returns zinfo zio_cmd s Hv) as [r [H P]].
    exists (Done r). split; [exact H | apply (post_refcnt _ _ _ P)].
  - exists Panic. split; [apply worker_panics; exact Hv | reflexivity].
Qed.

(** C3.  A WRITE with the REBUILD flag is never put on [complete_queue]:
    the worker returns and leaves the queue as it was, whether the volume is
    online or offline and whatever the block store answers; and whatever
    command the worker is given, an entry the queue has gained is not a
    WRITE with the REBUILD flag. *)
Theorem rebuild_write_never_queued (zinfo : zvol_info_t store) zio_cmd s :
  (opcode (hdr zio_cmd) = ZVOL_OPCODE_WRITE ->
   Z.land (flags (hdr zio_cmd)) ZVOL_OP_FLAG_REBUILD <> 0 ->
   exists r,
     uzfs_zvol_worker zinfo zio_cmd s = Some (Done r)
     /\ complete_queue (w_zinfo r) = complete_queue zinfo)
  /\ (forall r c,
        uzfs_zvol_worker zinfo zio_cmd s = Some (Done r) ->
        In c (complete_queue (w_zinfo r)) ->
        In c (complete_queue zinfo)
        \/ ~ (opcode (hdr c) = ZVOL_OPCODE_WRITE
              /\ Z.land (flags (hdr c)) ZVOL_OP_FLAG_REBUILD <> 0)).
Proof.
  split.
  - intros Hop Hfl.
    assert (Hrw : is_rebuild_write (hdr zio_cmd) = true)
      by (apply is_rebuild_write_iff; auto).
    destruct (worker_returns zinfo zio_cmd s) as [r [H P]].
    { unfold valid_for_worker. rewrite Hrw, Hop. destruct (state zinfo); reflexivity. }
    exists r. split; [exact H | apply (post_rebuild_write _ _ _ P Hrw)].
  - intros r c H Hin.
    destruct (valid_for_worker zinfo zio_cmd) eqn:E.
    2:{ rewrite worker_panics in H by exact E. discriminate. }
    destruct (worker_returns zinfo zio_cmd s E) as [r' [H' P]].
    rewrite H in H'. inversion H'; subst r'.
    destruct (post_queue _ _ _ P) as [Hq | [Hq [_ Hrw]]].
    + left. rewrite <- Hq. exact Hin.
    + rewrite Hq in Hin. apply in_app_or in Hin.
      destruct Hin as [Hin | [<- | []]]; [left; exact Hin | right].
      rewrite <- is_rebuild_write_iff. rewrite Hrw. discriminate.
Qed.

(** C4.  While the volume is OFFLINE the worker ends, having marked the
    command FAILED with [len = 0], left the completion queue and the block
    store alone, freed the command unless it is a WRITE with the REBUILD
    flag, and dropped the refcount once.  The only runs that do not get
    there are those in which [zio_cmd_free] stops at its [VERIFY] on the
    opcode. *)
Theorem worker_offline_fails (zinfo : zvol_info_t store) zio_cmd s :
  state zinfo = ZVOL_INFO_STATE_OFFLINE ->
  exists o,
    uzfs_zvol_worker zinfo zio_cmd s = Some o
    /\ match o with
       | Done r =>
           status (hdr (w_cmd r)) = ZVOL_OP_STATUS_FAILED
           /\ len (hdr (w_cmd r)) = 0
           /\ complete_queue (w_zinfo r) = complete_queue zinfo
           /\ w_freed r = negb (is_rebuild_write (hdr zio_cmd))
           /\ refcnt (w_zinfo r) = refcnt zinfo - 1
           /\ zv (w_zinfo r) = zv zinfo
           /\ w_writes r = []
       | Panic =>
           is_rebuild_write (hdr zio_cmd) = false
           /\ freeable_opcode (opcode (hdr zio_cmd)) = false
       end.
Proof.
  intros Hoff. destruct (valid_for_worker zinfo zio_cmd) eqn:Hv.
  - destruct (worker_returns zinfo zio_cmd s Hv) as [r [H P]].
    exists (Done r). split; [exact H|].
    destruct (post_offline _ _ _ P Hoff) as [H1 [H2 [H3 [H4 [H5 H6]]]]].
    pose proof (post_refcnt _ _ _ P). auto 10.
  - exists Panic. split; [apply worker_panics; exact Hv|].
    unfold valid_for_worker in Hv. rewrite Hoff in Hv.
    apply orb_false_iff in Hv. exact Hv.
Qed.

(** C10.  A WRITE whose header has [len = 0]: [zio_cmd_alloc] gives it an
    empty buffer with [buf_len = 0]; [uzfs_submit_writes] returns 0, issues
    no block-store write and does not touch [running_ionum] (the volume
    record and the schedule come back as they were); on an online volume the
    worker ends with status OK. *)
Theorem empty_write_succeeds (zinfo : zvol_info_t store) h fd s :
  opcode h = ZVOL_OPCODE_WRITE -> len h = 0 ->
  state zinfo = ZVOL_INFO_STATE_ONLINE ->
  buf (zio_cmd_alloc h fd) = Some []
  /\ buf_len (zio_cmd_alloc h fd) = 0
  /\ uzfs_submit_writes zinfo (zio_cmd_alloc h fd) s
     = Some (mk_submit 0 zinfo s [] [])
  /\ exists r,
       uzfs_zvol_worker zinfo (zio_cmd_alloc h fd) s = Some (Done r)
       /\ status (hdr (w_cmd r)) = ZVOL_OP_STATUS_OK
       /\ w_writes r = []
       /\ zv (w_zinfo r) = zv zinfo
       /\ running_ionum (w_zinfo r) = running_ionum zinfo.
Proof.
  intros Hop Hlen Hon.
  assert (Hs : uzfs_submit_writes zinfo (zio_cmd_alloc h fd) s
               = Some (mk_submit 0 zinfo s [] [])).
  { unfold uzfs_submit_writes, zio_cmd_alloc. rewrite Hop. cbn. rewrite Hlen.
    reflexivity. }
  split; [|split; [|split; [exact Hs|]]].
  - unfold zio_cmd_alloc. rewrite Hop, Hlen. reflexivity.
  - unfold zio_cmd_alloc. rewrite Hop, Hlen. reflexivity.
  - unfold uzfs_zvol_worker. rewrite Hon.
    set (want_md := negb _).
    assert (Hs' : forall c, hdr c = hdr (zio_cmd_alloc h fd) ->
                    buf c = buf (zio_cmd_alloc h fd) ->
                    uzfs_submit_writes zinfo c s = Some (mk_submit 0 zinfo s [] [])).
    { intros c Hh Hb. unfold uzfs_submit_writes in *. rewrite Hh, Hb. exact Hs. }
    unfold worker_exec.
    assert (Hc : hdr (if want_md then zio_cmd_alloc h fd
                      else set_metadata_desc (zio_cmd_alloc h fd) None)
                 = h) by (destruct want_md; unfold zio_cmd_alloc; rewrite Hop; reflexivity).
    rewrite Hc, Hop.
    rewrite Hs' by (destruct want_md; unfold zio_cmd_alloc; rewrite Hop; reflexivity).
    cbn [sub_rc sub_zinfo sub_sched sub_writes sub_cas w_zinfo w_cmd w_sched
         w_writes w_cas Z.eqb negb].
    destruct (flag_set _ _ && _);
      [|destruct (is_io_ack_sender_created _); cbn [negb]].
    + eexists. split; [reflexivity|]. cbn. auto.
    + destruct (io_ack_waiting _); eexists; (split; [reflexivity|]); cbn; auto.
    + rewrite zio_cmd_free_ok.
      * eexists. split; [reflexivity|]. cbn. auto.
      * cbn. rewrite Hc, Hop. reflexivity.
Qed.

End WorkerClaims.

(** ** The io number and truncated payloads *)

Lemma chunk_calls_in c cs : forall off rb,
  In c cs ->
  exists call,
    In call (chunk_calls off rb cs) /\ wc_io_num call = fst c /\ wc_rc call = 0.
Proof.
  induction cs as [|c' cs IH]; intros off rb Hin; [destruct Hin|].
  destruct Hin as [-> | Hin]; cbn [chunk_calls].
  - eexists. split; [left; reflexivity|]. cbn. auto.
  - destruct (IH (u64 (off + chunk_len c')) rb Hin) as [call [H1 H2]].
    exists call. split; [right; exact H1 | exact H2].
Qed.

Section IonumClaims.
Context {store : Type} {BS : BlockStore (zvol_state_t store)}.

(** A payload made of whole chunks followed by [tail]: the loop writes the
    chunks and goes on with [tail]. *)
Lemma uzfs_submit_writes_chunks (zinfo : zvol_info_t store) zio_cmd s cs tail z' :
  Forall chunk_wf cs ->
  buf zio_cmd = Some (encode_chunks cs ++ tail) ->
  len (hdr zio_cmd) = Z.of_nat (length (encode_chunks cs ++ tail)) ->
  apply_chunks (zv zinfo) (offset (hdr zio_cmd))
    (flag_set (hdr zio_cmd) ZVOL_OP_FLAG_REBUILD) cs = Some z' ->
  exists fuel' cell s' cas',
    uzfs_submit_writes zinfo zio_cmd s
    = submit_loop fuel' (set_running_ionum (set_zv zinfo z') cell) s'
        (flag_set (hdr zio_cmd) ZVOL_OP_FLAG_REBUILD) tail
        (chunks_end (offset (hdr zio_cmd)) cs) (Z.of_nat (length tail))
        (chunk_calls (offset (hdr zio_cmd))
           (flag_set (hdr zio_cmd) ZVOL_OP_FLAG_REBUILD) cs) cas'
    /\ Z.of_nat (length tail) <= Z.of_nat fuel'.
Proof.
  intros Hwf Hb Hl Ha. unfold uzfs_submit_writes. rewrite Hb, Hl.
  apply (submit_loop_chunks cs _ zinfo s _ tail _ [] [] z' Hwf); [lia | exact Ha].
Qed.

(** C1.  [uzfs_submit_writes] returns, whatever the other threads do, and
    - the log it leaves is the whole history of [running_ionum] during the
      call: it starts at the value on entry, each event meets the field as
      the one before left it, and it ends at the value the call leaves;
    - this thread touches the field by [atomic_cas_64] only, and each of its
      CASes either finds the value it compared with and puts a strictly
      larger one in its place, or finds another value and leaves it.
    If the other threads never lower the field either, then
    - the field never decreases during the call: each value it takes is at
      most every later one;
    - [running_ionum] at the end is not below its value on entry, and at
      least the io number of every chunk the block store accepted;
    - in particular, for a payload made of the chunks [cs], all accepted,
      the return code is 0 and [running_ionum] is at least every io number
      of [cs]. *)
Theorem running_ionum_monotonic (zinfo : zvol_info_t store) zio_cmd s :
  exists r,
    uzfs_submit_writes zinfo zio_cmd s = Some r
    /\ history (running_ionum zinfo) (sub_cas r) (running_ionum (sub_zinfo r))
    /\ cas_raises (sub_cas r)
    /\ (never_lowers s ->
        StronglySorted Z.le (ionum_values (running_ionum zinfo) (sub_cas r))
        /\ running_ionum zinfo <= running_ionum (sub_zinfo r)
        /\ (forall c, In c (sub_writes r) -> wc_rc c = 0 ->
                      wc_io_num c <= running_ionum (sub_zinfo r))
        /\ (forall cs z',
              Forall chunk_wf cs ->
              buf zio_cmd = Some (encode_chunks cs) ->
              len (hdr zio_cmd) = Z.of_nat (length (encode_chunks cs)) ->
              apply_chunks (zv zinfo) (offset (hdr zio_cmd))
                (flag_set (hdr zio_cmd) ZVOL_OP_FLAG_REBUILD) cs = Some z' ->
              sub_rc r = 0
              /\ forall c, In c cs -> fst c <= running_ionum (sub_zinfo r))).
Proof.
  destruct (uzfs_submit_writes_total zinfo zio_cmd s) as [r Hr].
  exists r. split; [exact Hr|].
  destruct (submit_loop_history _ _ _ _ _ _ _ _ _ _ Hr)
    as [h [Hh [Hist [Hc Hnf]]]].
  cbn [app] in Hh. rewrite Hh.
  split; [exact Hist|]. split; [exact Hc|].
  intros Hs.
  destruct (submit_loop_ionum _ _ _ _ _ _ _ _ _ _ Hr Hs) as [H1 [H2 _]].
  { intros c []. }
  split; [exact (proj1 (history_sorted h _ _ Hist (Hnf Hs)))|].
  split; [exact H2|]. split; [exact H1|].
  intros cs z' Hwf Hb Hl Ha.
  destruct (uzfs_submit_writes_chunks zinfo zio_cmd s cs [] z')
    as [fuel' [cell [s' [cas' [Heq _]]]]]; rewrite ?app_nil_r; auto.
  cbn [length Z.of_nat] in Heq. rewrite submit_loop_end in Heq.
  rewrite Hr in Heq. inversion Heq; subst r. cbn in *.
  split; [reflexivity|]. intros c Hin.
  destruct (chunk_calls_in c cs (offset (hdr zio_cmd))
              (flag_set (hdr zio_cmd) ZVOL_OP_FLAG_REBUILD) Hin)
    as [call [Hc1 [Hc2 Hc3]]].
  rewrite <- Hc2. apply H1; assumption.
Qed.

(** C8.  A WRITE payload cut short after the whole chunks [cs], all of which
    the block store accepts: [uzfs_submit_writes] returns -1, yet the chunks
    of [cs] have been written (the calls issued are exactly theirs and the
    block store is the one they leave) and [running_ionum] is at least every
    io number of [cs]; the worker marks the command FAILED with [len = 0]
    and keeps those effects. *)
Theorem truncated_write_not_atomic (zinfo : zvol_info_t store) zio_cmd s cs tail z' :
  never_lowers s ->
  Forall chunk_wf cs ->
  truncated tail ->
  opcode (hdr zio_cmd) = ZVOL_OPCODE_WRITE ->
  state zinfo = ZVOL_INFO_STATE_ONLINE ->
  buf zio_cmd = Some (encode_chunks cs ++ tail) ->
  len (hdr zio_cmd) = Z.of_nat (length (encode_chunks cs ++ tail)) ->
  apply_chunks (zv zinfo) (offset (hdr zio_cmd))
    (flag_set (hdr zio_cmd) ZVOL_OP_FLAG_REBUILD) cs = Some z' ->
  exists r,
    uzfs_submit_writes zinfo zio_cmd s = Some r
    /\ sub_rc r = -1
    /\ sub_writes r
       = chunk_calls (offset (hdr zio_cmd))
           (flag_set (hdr zio_cmd) ZVOL_OP_FLAG_REBUILD) cs
    /\ zv (sub_zinfo r) = z'
    /\ (forall c, In c cs -> fst c <= running_ionum (sub_zinfo r))
    /\ exists wr,
         uzfs_zvol_worker zinfo zio_cmd s = Some (Done wr)
         /\ status (hdr (w_cmd wr)) = ZVOL_OP_STATUS_FAILED
         /\ len (hdr (w_cmd wr)) = 0
         /\ w_writes wr = sub_writes r
         /\ zv (w_zinfo wr) = z'
         /\ running_ionum (w_zinfo wr) = running_ionum (sub_zinfo r).
Proof.
  intros Hs Hwf Ht Hop Hon Hb Hl Ha.
  destruct (uzfs_submit_writes_chunks zinfo zio_cmd s cs tail z' Hwf Hb Hl Ha)
    as [fuel' [cell [s' [cas' [Heq Hf]]]]].
  rewrite submit_loop_truncated in Heq by assumption.
  eexists. split; [exact Heq|]. cbn [sub_rc sub_writes sub_zinfo].
  split; [reflexivity|]. split; [reflexivity|]. split; [reflexivity|].
  destruct (submit_loop_ionum _ _ _ _ _ _ _ _ _ _ Heq Hs) as [H1 _].
  { intros c []. }
  cbn in H1. split.
  - intros c Hin.
    destruct (chunk_calls_in c cs (offset (hdr zio_cmd))
                (flag_set (hdr zio_cmd) ZVOL_OP_FLAG_REBUILD) Hin)
      as [call [Hc1 [Hc2 Hc3]]].
    rewrite <- Hc2. apply H1; assumption.
  - unfold uzfs_zvol_worker. rewrite Hon.
    set (want_md := negb _).
    assert (Hs' : forall c, hdr c = hdr zio_cmd -> buf c = buf zio_cmd ->
                    uzfs_submit_writes zinfo c s = uzfs_submit_writes zinfo zio_cmd s).
    { intros c Hh Hbf. unfold uzfs_submit_writes. rewrite Hh, Hbf. reflexivity. }
    unfold worker_exec.
    assert (Hc : hdr (if want_md then zio_cmd else set_metadata_desc zio_cmd None)
                 = hdr zio_cmd) by (destruct want_md; reflexivity).
    rewrite Hc, Hop.
    rewrite Hs' by (destruct want_md; reflexivity).
    rewrite Heq.
    cbn [sub_rc sub_zinfo sub_sched sub_writes sub_cas w_zinfo w_cmd w_sched
         w_writes w_cas Z.eqb negb].
    destruct (flag_set _ _ && _);
      [|destruct (is_io_ack_sender_created _); cbn [negb]].
    + eexists. split; [reflexivity|]. cbn. auto.
    + destruct (io_ack_waiting _); eexists; (split; [reflexivity|]); cbn; auto.
    + rewrite zio_cmd_free_ok.
      * eexists. split; [reflexivity|]. cbn. auto.
      * cbn. rewrite Hc, Hop. reflexivity.
Qed.

(** C7.  The code at the failing input: on a volume whose interval is 0,
    [uzfs_update_ionum_interval (zinfo, 0)] returns before [cv_signal]; the
    interval is unchanged but the timer thread is not woken. *)
Theorem update_ionum_interval_zero_on_zero (zinfo : zvol_info_t store) timer_cv :
  update_ionum_interval zinfo = 0 ->
  uzfs_update_ionum_interval zinfo 0 timer_cv = (zinfo, timer_cv).
Proof.
  intros H. unfold uzfs_update_ionum_interval. rewrite H. reflexivity.
Qed.

Lemma update_ionum_interval_zero_wakes (zinfo : zvol_info_t store) timer_cv :
  update_ionum_interval zinfo <> 0 ->
  uzfs_update_ionum_interval zinfo 0 timer_cv = (zinfo, S timer_cv).
Proof.
  intros H. unfold uzfs_update_ionum_interval.
  apply Z.eqb_neq in H. rewrite H. reflexivity.
Qed.

End IonumClaims.

(** ** The rebuild downstream driver *)

Section RebuildDriver.
Context {W : Type} {SYS : Sys W} {WIRE : Wire}.
Context {store : Type} {BS : BlockStore (zvol_state_t store)}.

(** The bookkeeping after [exit:] when [rc = 0]. *)
Lemma dw_exit_success sfd (st : dw_state W store) :
  ZVOL_IS_REBUILDING_ERRORED (zv (dw_zinfo st)) = false ->
  exists st',
    dw_exit 0 sfd None st = Done (0, st')
    /\ rebuild_failed_cnt (zv (dw_zinfo st'))
       = rebuild_failed_cnt (zv (dw_zinfo st))
    /\ rebuild_done_cnt (zv (dw_zinfo st'))
       = rebuild_done_cnt (zv (dw_zinfo st)) + 1
    /\ zv_rebuild_status (zv (dw_zinfo st')) <> ZVOL_REBUILDING_ERRORED
    /\ dw_world st'
       = (if sfd =? -1 then dw_world st else sys_close (dw_world st) sfd).
Proof.
  intros He. unfold dw_exit. cbn [Z.eqb negb].
  unfold ZVOL_IS_REBUILDING_ERRORED in He.
  cbn [rebuild_cnt rebuild_done_cnt rebuild_failed_cnt set_rebuild_done_cnt].
  destruct (rebuild_cnt (zv (dw_zinfo st)) =? rebuild_done_cnt (zv (dw_zinfo st)) + 1).
  - destruct (rebuild_failed_cnt (zv (dw_zinfo st)) =? 0); cbn [negb].
    + unfold uzfs_update_ionum_interval.
      destruct (update_ionum_interval _ =? 0);
        (eexists; split; [reflexivity|]); cbn;
        (repeat split; try congruence; destruct (sfd =? -1); reflexivity).
    + eexists. split; [reflexivity|]. cbn.
      repeat split; try congruence. destruct (sfd =? -1); reflexivity.
  - eexists. split; [reflexivity|]. cbn.
    repeat split.
    + destruct (zv_rebuild_status (zv (dw_zinfo st))); congruence.
    + destruct (sfd =? -1); reflexivity.
Qed.

(** C6.  At [next_step], with the rebuild not errored and [offset] at or
    past the volume size, the driver sends the header with opcode
    REBUILD_COMPLETE and, whatever that write returns ([rcw]), leaves with
    [rc = 0]: [rebuild_failed_cnt] keeps its value, [rebuild_done_cnt] grows
    by one and the rebuild status is not ERRORED. *)
Theorem rebuild_complete_counts_as_success step io_fuel fuel sfd ckpt
    (st : dw_state W store) rcw w' :
  ZVOL_IS_REBUILDING_ERRORED (zv (dw_zinfo st)) = false ->
  ZVOL_VOLUME_SIZE (zv (dw_zinfo st)) <= dw_offset st ->
  uzfs_zvol_socket_write io_fuel (dw_world st) sfd
    (hdr_to_bytes (set_opcode (dw_hdr st) ZVOL_OPCODE_REBUILD_COMPLETE))
    sizeof_hdr = Some (rcw, w') ->
  exists st',
    dw_run step io_fuel (S fuel) sfd ckpt next_step st = Some (Done (0, st'))
    /\ rebuild_failed_cnt (zv (dw_zinfo st'))
       = rebuild_failed_cnt (zv (dw_zinfo st))
    /\ rebuild_done_cnt (zv (dw_zinfo st'))
       = rebuild_done_cnt (zv (dw_zinfo st)) + 1
    /\ zv_rebuild_status (zv (dw_zinfo st')) <> ZVOL_REBUILDING_ERRORED
    /\ dw_world st' = (if sfd =? -1 then w' else sys_close w' sfd).
Proof.
  intros He Hsz Hw. cbn [dw_run]. rewrite He.
  apply Z.leb_le in Hsz. rewrite Hsz, Hw.
  set (st1 := with_hdr (with_world st w') _).
  destruct (dw_exit_success sfd st1 He) as [st' [H1 [H2 [H3 [H4 H5]]]]].
  exists st'. split.
  - destruct (negb (rcw =? 0)); rewrite H1; reflexivity.
  - cbn in *. auto.
Qed.

End RebuildDriver.

(** * Further properties of the code *)

(** ** The socket loops, continued *)

Section MoreSockets.
Context {W : Type} {SYS : Sys W}.


(** X2.  [uzfs_zvol_socket_write] hands the buffer to the socket in order
    and without gaps.  On a socket that takes the first [count] bytes of
    what a [write] is given ([sent] lists the bytes taken so far), the bytes
    taken during the call are the first [k] bytes of the buffer, with
    [k = nbytes] when it returns 0 and [k < nbytes] when it returns -1. *)
Theorem socket_write_sends_in_order (sent : W -> list byte) (P : W -> Prop) fd :
  (forall w p n, P w -> 0 < n <= Z.of_nat (length p) ->
     sent (snd (write w fd p n))
     = sent w ++ firstn (Z.to_nat (count (fst (write w fd p n)))) p
     /\ P (snd (write w fd p n))) ->
  forall fuel w p n rc w',
    P w -> 0 <= n < 2 ^ 64 -> n <= Z.of_nat (length p) ->
    uzfs_zvol_socket_write fuel w fd p n = Some (rc, w') ->
    exists k,
      0 <= k <= n
      /\ sent w' = sent w ++ firstn (Z.to_nat k) p
      /\ (rc = 0 -> k = n)
      /\ (rc = -1 -> k < n).
Proof.
  intros Hsent. induction fuel as [|fuel IH]; intros w p n rc w' HP Hn Hp H; cbn in H.
  - destruct (n =? 0) eqn:E; [|discriminate]. apply Z.eqb_eq in E.
    inversion H; subst. exists 0. cbn. rewrite app_nil_r. repeat split; lia.
  - destruct (n =? 0) eqn:E.
    { apply Z.eqb_eq in E. inversion H; subst. exists 0. cbn.
      rewrite app_nil_r. repeat split; lia. }
    apply Z.eqb_neq in E.
    destruct (Hsent w p n HP ltac:(lia)) as [Hs HP'].
    pose proof (write_count w fd p n ltac:(lia)) as Hr.
    destruct (write w fd p n) as [r w1]. cbn in Hs, HP', Hr.
    destruct (count r <? 0) eqn:Ec.
    + apply Z.ltb_lt in Ec.
      assert (Hs0 : sent w1 = sent w).
      { rewrite Hs. destruct (count r); try lia. cbn. apply app_nil_r. }
      destruct (errno r =? EINTR).
      * destruct (IH _ _ _ _ _ HP' Hn Hp H) as [k Hk]. exists k.
        rewrite <- Hs0. exact Hk.
      * inversion H; subst. exists 0. cbn. rewrite app_nil_r.
        repeat split; try lia. auto.
    + apply Z.ltb_ge in Ec. destruct Hr as [Hr | Hr]; [lia|].
      rewrite u64_small in H by lia.
      apply IH in H; [| exact HP' | lia | rewrite length_skipn; lia].
      destruct H as [k [Hk [Hk1 [Hk2 Hk3]]]].
      exists (count r + k). split; [lia|]. split; [|split; intros; lia].
      rewrite Hk1, Hs, <- app_assoc. f_equal.
      rewrite Z2Nat.inj_add by lia.
      rewrite <- (firstn_skipn (Z.to_nat (count r)) p) at 3.
      rewrite firstn_app, length_firstn.
      rewrite (firstn_all2 (n := (Z.to_nat (count r) + Z.to_nat k)%nat)
                 (firstn (Z.to_nat (count r)) p))
        by (rewrite length_firstn; lia).
      f_equal. f_equal. lia.
Qed.

End MoreSockets.

(** ** Commands *)

(** X3.  [zio_cmd_alloc] copies the header and the descriptor, and gives
    the command a zeroed buffer of [hdr->len] bytes exactly for READ, WRITE
    and OPEN.  It takes every opcode, but [zio_cmd_free] stops at its
    [VERIFY] on a command allocated for HANDSHAKE, REBUILD_STEP or
    REBUILD_COMPLETE. *)
Theorem zio_cmd_alloc_then_free h fd :
  hdr (zio_cmd_alloc h fd) = h
  /\ conn (zio_cmd_alloc h fd) = fd
  /\ metadata_desc (zio_cmd_alloc h fd) = None
  /\ (buffered_opcode (opcode h) = true ->
      buf (zio_cmd_alloc h fd) = Some (repeat Byte.x00 (Z.to_nat (len h)))
      /\ buf_len (zio_cmd_alloc h fd) = len h)
  /\ (buffered_opcode (opcode h) = false ->
      buf (zio_cmd_alloc h fd) = None /\ buf_len (zio_cmd_alloc h fd) = 0)
  /\ (zio_cmd_free (zio_cmd_alloc h fd) = Panic
      <-> opcode h = ZVOL_OPCODE_HANDSHAKE
          \/ opcode h = ZVOL_OPCODE_REBUILD_STEP
          \/ opcode h = ZVOL_OPCODE_REBUILD_COMPLETE).
Proof.
  unfold zio_cmd_alloc, zio_cmd_free.
  destruct (opcode h) eqn:E; cbn; rewrite ?E;
    repeat split; intros; try discriminate; try reflexivity; auto;
    repeat match goal with H : _ \/ _ |- _ => destruct H end; discriminate.
Qed.

(** ** The payload loop, continued *)

Section MoreSubmit.
Context {store : Type} {BS : BlockStore (zvol_state_t store)}.

(** X4.  A payload that is the encoding of the chunks [cs], all of which
    the block store accepts: [uzfs_submit_writes] returns 0, the block-store
    calls are those of [cs], one for each chunk, in order, at consecutive
    offsets from [hdr->offset], with the REBUILD flag of the header, and
    the block store is the one they leave. *)
Theorem submit_writes_whole_payload (zinfo : zvol_info_t store) zio_cmd s cs z' :
  Forall chunk_wf cs ->
  buf zio_cmd = Some (encode_chunks cs) ->
  len (hdr zio_cmd) = Z.of_nat (length (encode_chunks cs)) ->
  apply_chunks (zv zinfo) (offset (hdr zio_cmd))
    (flag_set (hdr zio_cmd) ZVOL_OP_FLAG_REBUILD) cs = Some z' ->
  exists r,
    uzfs_submit_writes zinfo zio_cmd s = Some r
    /\ sub_rc r = 0
    /\ sub_writes r
       = chunk_calls (offset (hdr zio_cmd))
           (flag_set (hdr zio_cmd) ZVOL_OP_FLAG_REBUILD) cs
    /\ zv (sub_zinfo r) = z'.
Proof.
  intros Hwf Hb Hl Ha.
  destruct (uzfs_submit_writes_chunks zinfo zio_cmd s cs [] z')
    as [fuel' [cell [s' [cas' [Heq _]]]]]; rewrite ?app_nil_r; auto.
  cbn [length Z.of_nat] in Heq. rewrite submit_loop_end in Heq.
  eexists. split; [exact Heq|]. cbn. auto.
Qed.

(** X5.  When the block store refuses a chunk with the code [e],
    [uzfs_submit_writes] returns [e] (not -1): the chunks before it have
    been written, the refused call is the last one issued, and nothing of
    the payload behind it is looked at. *)
Theorem submit_writes_stops_at_refusal (zinfo : zvol_info_t store) zio_cmd s
    cs c rest z1 e z2 :
  Forall chunk_wf cs -> chunk_wf c ->
  buf zio_cmd = Some (encode_chunks cs ++ encode_chunk c ++ rest) ->
  len (hdr zio_cmd)
  = Z.of_nat (length (encode_chunks cs ++ encode_chunk c ++ rest)) ->
  apply_chunks (zv zinfo) (offset (hdr zio_cmd))
    (flag_set (hdr zio_cmd) ZVOL_OP_FLAG_REBUILD) cs = Some z1 ->
  uzfs_write_data z1 (snd c) (chunks_end (offset (hdr zio_cmd)) cs)
    (chunk_len c) (mk_blk_metadata (fst c))
    (flag_set (hdr zio_cmd) ZVOL_OP_FLAG_REBUILD) = (e, z2) ->
  e <> 0 ->
  exists r,
    uzfs_submit_writes zinfo zio_cmd s = Some r
    /\ sub_rc r = e
    /\ sub_writes r
       = chunk_calls (offset (hdr zio_cmd))
           (flag_set (hdr zio_cmd) ZVOL_OP_FLAG_REBUILD) cs
         ++ [mk_write_call (fst c) (chunks_end (offset (hdr zio_cmd)) cs)
               (chunk_len c) (flag_set (hdr zio_cmd) ZVOL_OP_FLAG_REBUILD)
               (snd c) e]
    /\ zv (sub_zinfo r) = z2.
Proof.
  intros Hwf [Hio Hlen] Hb Hl Ha Hw He.
  destruct (uzfs_submit_writes_chunks zinfo zio_cmd s cs (encode_chunk c ++ rest)
              z1 Hwf Hb Hl Ha) as [fuel' [cell [s' [cas' [Heq Hf]]]]].
  rewrite Heq. clear Heq.
  set (rb := flag_set (hdr zio_cmd) ZVOL_OP_FLAG_REBUILD) in *.
  set (off := chunks_end (offset (hdr zio_cmd)) cs) in *.
  assert (Hl2 : Z.of_nat (length (encode_chunk c ++ rest))
                = sizeof_rw_hdr + chunk_len c + Z.of_nat (length rest)).
  { rewrite length_app, Nat2Z.inj_add, length_encode_chunk. reflexivity. }
  assert (Hcl : 0 <= chunk_len c) by (unfold chunk_len; lia).
  rewrite Hl2 in *. unfold sizeof_rw_hdr in Hf.
  destruct fuel' as [|fuel']; [lia|].
  cbn [submit_loop].
  destruct (0 <? sizeof_rw_hdr + chunk_len c + Z.of_nat (length rest)) eqn:E0.
  2:{ apply Z.ltb_ge in E0. unfold sizeof_rw_hdr in E0. lia. }
  destruct (sizeof_rw_hdr + chunk_len c + Z.of_nat (length rest) <? sizeof_rw_hdr)
    eqn:E1.
  { apply Z.ltb_lt in E1. lia. }
  assert (Hh : rw_hdr_of_bytes (encode_chunk c ++ rest)
               = mk_rw_hdr (fst c) (chunk_len c)).
  { unfold encode_chunk. rewrite <- app_assoc. apply rw_hdr_roundtrip; lia. }
  assert (Hsk : skipn (Z.to_nat sizeof_rw_hdr) (encode_chunk c ++ rest)
                = snd c ++ rest).
  { unfold encode_chunk. rewrite <- app_assoc.
    apply skipn_exact. rewrite length_rw_hdr_to_bytes. reflexivity. }
  rewrite !Hh, !Hsk. cbn [io_num rw_len].
  destruct (sizeof_rw_hdr + chunk_len c + Z.of_nat (length rest) - sizeof_rw_hdr
            <? chunk_len c) eqn:E2.
  { apply Z.ltb_lt in E2. lia. }
  rewrite !(firstn_exact (Z.to_nat (chunk_len c))) by (unfold chunk_len; lia).
  cbn [zv set_running_ionum set_zv]. rewrite Hw.
  apply Z.eqb_neq in He. rewrite He. cbn [negb].
  eexists. split; [reflexivity|]. cbn. auto.
Qed.

Lemma accepted_max_snoc writes c v :
  accepted_max (writes ++ [c]) v
  = (if wc_rc c =? 0 then Z.max (accepted_max writes v) (wc_io_num c)
     else accepted_max writes v).
Proof. unfold accepted_max. rewrite fold_left_app. reflexivity. Qed.

Lemma submit_loop_alone fuel :
  forall (zinfo : zvol_info_t store) rb datap off remain writes cas r v,
  submit_loop fuel zinfo [] rb datap off remain writes cas = Some r ->
  running_ionum zinfo = accepted_max writes v ->
  running_ionum (sub_zinfo r) = accepted_max (sub_writes r) v
  /\ sub_sched r = [].
Proof.
  induction fuel as [|fuel IH];
    intros zinfo rb datap off remain writes cas r v H Hv.
  - cbn in H. destruct (0 <? remain); [discriminate|].
    inversion H; subst; cbn. auto.
  - cbn [submit_loop] in H.
    destruct (0 <? remain).
    2:{ inversion H; subst; cbn. auto. }
    destruct (remain <? sizeof_rw_hdr).
    { inversion H; subst; cbn. auto. }
    destruct (remain - sizeof_rw_hdr <? rw_len (rw_hdr_of_bytes datap)).
    { inversion H; subst; cbn. auto. }
    destruct (uzfs_write_data _ _ _ _ _ _) as [rc zv'].
    destruct (rc =? 0) eqn:Erc; cbn [negb] in H.
    2:{ inversion H; subst; cbn. split; [|reflexivity].
        rewrite accepted_max_snoc. cbn. rewrite Erc. exact Hv. }
    cbn [others_run length] in H.
    edestruct (ionum_cas_loop_alone 1 (running_ionum (set_zv zinfo zv'))
                 (io_num (rw_hdr_of_bytes datap))) as [cas' Hl].
    rewrite Hl in H. apply IH with (v := v) in H; [exact H|].
    rewrite accepted_max_snoc. cbn. rewrite Erc. rewrite <- Hv. reflexivity.
Qed.

(** X6.  With the other threads quiet, [uzfs_submit_writes] leaves
    [running_ionum] at the largest of its value on entry and the io numbers
    of the chunks the block store accepted: never above them. *)
Theorem submit_writes_alone_is_max (zinfo : zvol_info_t store) zio_cmd :
  exists r,
    uzfs_submit_writes zinfo zio_cmd [] = Some r
    /\ running_ionum (sub_zinfo r)
       = accepted_max (sub_writes r) (running_ionum zinfo)
    /\ sub_sched r = [].
Proof.
  destruct (uzfs_submit_writes_total zinfo zio_cmd []) as [r Hr].
  exists r. split; [exact Hr|].
  eapply submit_loop_alone; [exact Hr | reflexivity].
Qed.

(** X7.  [uzfs_submit_writes] always returns, and of the volume record it
    changes nothing but the block-store handle and [running_ionum]: no
    reference is taken or dropped, nothing is queued, no counter moves. *)
Theorem submit_writes_touches_two_fields (zinfo : zvol_info_t store) zio_cmd s :
  exists r,
    uzfs_submit_writes zinfo zio_cmd s = Some r
    /\ state (sub_zinfo r) = state zinfo
    /\ refcnt (sub_zinfo r) = refcnt zinfo
    /\ complete_queue (sub_zinfo r) = complete_queue zinfo
    /\ is_io_ack_sender_created (sub_zinfo r) = is_io_ack_sender_created zinfo
    /\ io_ack_waiting (sub_zinfo r) = io_ack_waiting zinfo
    /\ io_ack_cond (sub_zinfo r) = io_ack_cond zinfo
    /\ checkpointed_ionum (sub_zinfo r) = checkpointed_ionum zinfo
    /\ checkpointed_time (sub_zinfo r) = checkpointed_time zinfo
    /\ update_ionum_interval (sub_zinfo r) = update_ionum_interval zinfo
    /\ read_req_received_cnt (sub_zinfo r) = read_req_received_cnt zinfo
    /\ write_req_received_cnt (sub_zinfo r) = write_req_received_cnt zinfo
    /\ sync_req_received_cnt (sub_zinfo r) = sync_req_received_cnt zinfo.
Proof.
  destruct (uzfs_submit_writes_total zinfo zio_cmd s) as [r Hr].
  exists r. split; [exact Hr|].
  rewrite (uzfs_submit_writes_frame _ _ _ _ Hr). cbn. auto 15.
Qed.

End MoreSubmit.

(** ** The worker, continued *)

Section MoreWorker.
Context {store : Type} {BS : BlockStore (zvol_state_t store)}.

(** The runs of [worker_exec], opcode by opcode. *)
Lemma worker_exec_inv (zinfo : zvol_info_t store) c want_md s rc r :
  worker_exec zinfo c want_md s = Some (Done (rc, r)) ->
  (opcode (hdr c) = ZVOL_OPCODE_READ
   /\ exists bytes md,
        uzfs_read_data (zv zinfo) (offset (hdr c)) (len (hdr c)) want_md
        = (rc, bytes, md)
        /\ r = mk_worker
                 (set_read_req_received_cnt zinfo
                    (atomic_inc_64 (read_req_received_cnt zinfo)))
                 (if want_md then set_metadata_desc (set_buf c (Some bytes)) md
                  else set_buf c (Some bytes))
                 false s [] [])
  \/ (opcode (hdr c) = ZVOL_OPCODE_WRITE
      /\ exists sr,
           uzfs_submit_writes zinfo c s = Some sr
           /\ rc = sub_rc sr
           /\ r = mk_worker
                    (set_write_req_received_cnt (sub_zinfo sr)
                       (atomic_inc_64 (write_req_received_cnt (sub_zinfo sr))))
                    c false (sub_sched sr) (sub_writes sr) (sub_cas sr))
  \/ (opcode (hdr c) = ZVOL_OPCODE_SYNC
      /\ rc = 0
      /\ r = mk_worker
               (set_sync_req_received_cnt
                  (set_zv zinfo (uzfs_flush_data (zv zinfo)))
                  (atomic_inc_64 (sync_req_received_cnt zinfo)))
               c false s [] [])
  \/ (opcode (hdr c) = ZVOL_OPCODE_REBUILD_STEP_DONE
      /\ rc = 0 /\ r = mk_worker zinfo c false s [] []).
Proof.
  unfold worker_exec. intros H.
  destruct (opcode (hdr c)); try discriminate.
  - left. split; [reflexivity|].
    destruct (uzfs_read_data _ _ _ _) as [[rc0 bytes] md].
    inversion H; subst. exists bytes, md. split; [reflexivity|].
    destruct want_md; reflexivity.
  - right; left. split; [reflexivity|].
    destruct (uzfs_submit_writes zinfo c s) as [sr|]; [|discriminate].
    inversion H; subst. exists sr. auto.
  - right; right; left. inversion H; subst. auto.
  - right; right; right. inversion H; subst. auto.
Qed.

(** The runs of the worker on an online volume. *)
Lemma worker_online_inv (zinfo : zvol_info_t store) zio_cmd s r :
  state zinfo = ZVOL_INFO_STATE_ONLINE ->
  uzfs_zvol_worker zinfo zio_cmd s = Some (Done r) ->
  exists want_md c1 rc r0 c2,
    want_md
    = (flag_set (hdr zio_cmd) ZVOL_OP_FLAG_REBUILD
       || negb (ZVOL_IS_REBUILDED (zv zinfo))
       || flag_set (hdr zio_cmd) ZVOL_OP_FLAG_READ_METADATA)
    /\ c1 = (if want_md then zio_cmd else set_metadata_desc zio_cmd None)
    /\ worker_exec zinfo c1 want_md s = Some (Done (rc, r0))
    /\ c2 = (if rc =? 0
             then set_hdr (w_cmd r0) (set_status (hdr (w_cmd r0)) ZVOL_OP_STATUS_OK)
             else set_hdr (w_cmd r0)
                    (set_len (set_status (hdr (w_cmd r0)) ZVOL_OP_STATUS_FAILED) 0))
    /\ w_cmd r = c2 /\ w_sched r = w_sched r0
    /\ w_writes r = w_writes r0 /\ w_cas r = w_cas r0
    /\ (if is_rebuild_write (hdr c2) then
          w_zinfo r = uzfs_zinfo_drop_refcnt (w_zinfo r0) /\ w_freed r = false
        else if is_io_ack_sender_created (w_zinfo r0) then
          w_freed r = false
          /\ w_zinfo r
             = uzfs_zinfo_drop_refcnt
                 (let z := set_complete_queue (w_zinfo r0)
                             (complete_queue (w_zinfo r0) ++ [c2]) in
                  if io_ack_waiting z then set_io_ack_cond z (S (io_ack_cond z))
                  else z)
        else
          w_zinfo r = uzfs_zinfo_drop_refcnt (w_zinfo r0) /\ w_freed r = true).
Proof.
  intros Hon H. unfold uzfs_zvol_worker in H. rewrite Hon in H.
  set (want := negb _) in H.
  exists want, (if want then zio_cmd else set_metadata_desc zio_cmd None).
  destruct (worker_exec zinfo _ want s) as [[[rc r0]|]|] eqn:E; try discriminate.
  exists rc, r0. eexists. split.
  { unfold want. destruct (flag_set (hdr zio_cmd) ZVOL_OP_FLAG_REBUILD),
      (ZVOL_IS_REBUILDED (zv zinfo)),
      (flag_set (hdr zio_cmd) ZVOL_OP_FLAG_READ_METADATA); reflexivity. }
  split; [reflexivity|]. split; [reflexivity|]. split; [reflexivity|].
  assert (Hh1 : hdr (w_cmd r0) = hdr zio_cmd /\ True).
  { split; [|exact I].
    destruct (worker_exec_inv _ _ _ _ _ _ E)
      as [[_ [b [m [_ ->]]]] | [[_ [sr [_ [_ ->]]]] | [[_ [_ ->]] | [_ [_ ->]]]]];
      destruct want; reflexivity. }
  destruct Hh1 as [Hh1 _].
  replace (if negb (rc =? 0)
           then set_hdr (w_cmd r0)
                  (set_len (set_status (hdr (w_cmd r0)) ZVOL_OP_STATUS_FAILED) 0)
           else set_hdr (w_cmd r0) (set_status (hdr (w_cmd r0)) ZVOL_OP_STATUS_OK))
    with (if rc =? 0
          then set_hdr (w_cmd r0) (set_status (hdr (w_cmd r0)) ZVOL_OP_STATUS_OK)
          else set_hdr (w_cmd r0)
                 (set_len (set_status (hdr (w_cmd r0)) ZVOL_OP_STATUS_FAILED) 0))
    in H by (destruct (rc =? 0); reflexivity).
  set (c2 := if rc =? 0 then _ else _) in *.
  assert (Hrw : (flag_set (hdr zio_cmd) ZVOL_OP_FLAG_REBUILD
                 && opcode_eqb (opcode (hdr c2)) ZVOL_OPCODE_WRITE)
                = is_rebuild_write (hdr c2)).
  { unfold is_rebuild_write, flag_set, c2. rewrite Hh1.
    destruct (rc =? 0); reflexivity. }
  rewrite Hrw in H.
  destruct (is_rebuild_write (hdr c2)).
  { inversion H; subst; cbn. auto 10. }
  destruct (is_io_ack_sender_created (w_zinfo r0)); cbn [negb] in H.
  - inversion H; subst; cbn. auto 10.
  - destruct (zio_cmd_free c2); [|discriminate].
    inversion H; subst; cbn. auto 10.
Qed.

(** The runs of the worker on an offline volume. *)
Lemma worker_offline_inv (zinfo : zvol_info_t store) zio_cmd s r :
  state zinfo = ZVOL_INFO_STATE_OFFLINE ->
  uzfs_zvol_worker zinfo zio_cmd s = Some (Done r) ->
  r = mk_worker (uzfs_zinfo_drop_refcnt zinfo)
        (set_hdr zio_cmd
           (set_len (set_status (hdr zio_cmd) ZVOL_OP_STATUS_FAILED) 0))
        (negb (is_rebuild_write (hdr zio_cmd))) s [] [].
Proof.
  intros Hoff H. unfold uzfs_zvol_worker in H. rewrite Hoff in H.
  fold (is_rebuild_write (hdr zio_cmd)) in H.
  destruct (is_rebuild_write (hdr zio_cmd)); cbn [negb] in H.
  - inversion H; reflexivity.
  - destruct (zio_cmd_free _); [|discriminate]. inversion H; reflexivity.
Qed.

Lemma worker_exec_fields (zinfo : zvol_info_t store) c want_md s rc r0 :
  worker_exec zinfo c want_md s = Some (Done (rc, r0)) ->
  hdr (w_cmd r0) = hdr c
  /\ conn (w_cmd r0) = conn c
  /\ state (w_zinfo r0) = state zinfo
  /\ refcnt (w_zinfo r0) = refcnt zinfo
  /\ complete_queue (w_zinfo r0) = complete_queue zinfo
  /\ is_io_ack_sender_created (w_zinfo r0) = is_io_ack_sender_created zinfo
  /\ io_ack_waiting (w_zinfo r0) = io_ack_waiting zinfo
  /\ io_ack_cond (w_zinfo r0) = io_ack_cond zinfo
  /\ checkpointed_ionum (w_zinfo r0) = checkpointed_ionum zinfo
  /\ checkpointed_time (w_zinfo r0) = checkpointed_time zinfo
  /\ update_ionum_interval (w_zinfo r0) = update_ionum_interval zinfo.
Proof.
  intros E.
  destruct (worker_exec_inv _ _ _ _ _ _ E)
    as [[_ [b [m [_ ->]]]] | [[_ [sr [Hs [_ ->]]]] | [[_ [_ ->]] | [_ [_ ->]]]]];
    cbn; try (destruct want_md; cbn; auto 12; fail); auto 12.
  rewrite (uzfs_submit_writes_frame _ _ _ _ Hs). cbn. auto 12.
Qed.

(** The request counters after a run. *)
Lemma worker_counters (zinfo : zvol_info_t store) zio_cmd s r :
  uzfs_zvol_worker zinfo zio_cmd s = Some (Done r) ->
  let counted (o : zvol_op_code_t) (n : Z) :=
    match state zinfo with
    | ZVOL_INFO_STATE_ONLINE =>
        if opcode_eqb (opcode (hdr zio_cmd)) o then u64 (n + 1) else n
    | ZVOL_INFO_STATE_OFFLINE => n
    end in
  read_req_received_cnt (w_zinfo r)
  = counted ZVOL_OPCODE_READ (read_req_received_cnt zinfo)
  /\ write_req_received_cnt (w_zinfo r)
     = counted ZVOL_OPCODE_WRITE (write_req_received_cnt zinfo)
  /\ sync_req_received_cnt (w_zinfo r)
     = counted ZVOL_OPCODE_SYNC (sync_req_received_cnt zinfo).
Proof.
  intros H. cbv zeta. destruct (state zinfo) eqn:Est.
  - destruct (worker_online_inv _ _ _ _ Est H)
      as [want [c1 [rc [r0 [c2 [_ [Hc1 [E [_ [_ [_ [_ [_ Hz]]]]]]]]]]]]].
    assert (Hh : hdr c1 = hdr zio_cmd) by (subst c1; destruct want; reflexivity).
    assert (Hz' : read_req_received_cnt (w_zinfo r)
                  = read_req_received_cnt (w_zinfo r0)
                  /\ write_req_received_cnt (w_zinfo r)
                     = write_req_received_cnt (w_zinfo r0)
                  /\ sync_req_received_cnt (w_zinfo r)
                     = sync_req_received_cnt (w_zinfo r0)).
    { destruct (is_rebuild_write (hdr c2)); [destruct Hz as [-> _]; cbn; auto|].
      destruct (is_io_ack_sender_created (w_zinfo r0)).
      - destruct Hz as [_ ->]. cbn.
        destruct (io_ack_waiting (w_zinfo r0)); cbn; auto.
      - destruct Hz as [-> _]; cbn; auto. }
    destruct Hz' as [-> [-> ->]].
    destruct (worker_exec_inv _ _ _ _ _ _ E)
      as [[Ho [b [m [_ ->]]]] | [[Ho [sr [Hs [_ ->]]]] | [[Ho [_ ->]] | [Ho [_ ->]]]]];
      rewrite Hh in Ho; rewrite Ho; cbn; auto.
    rewrite (uzfs_submit_writes_frame _ _ _ _ Hs). cbn. auto.
  - rewrite (worker_offline_inv _ _ _ _ Est H). cbn. auto.
Qed.

(** X8.  On an online volume the worker adds one (modulo 2^64) to the
    request counter of the command's opcode (READ, WRITE or SYNC) whether
    the operation succeeds or not, and leaves the other two alone; on an
    offline volume, and for REBUILD_STEP_DONE, no counter moves. *)
Theorem worker_counts_request (zinfo : zvol_info_t store) zio_cmd s r :
  uzfs_zvol_worker zinfo zio_cmd s = Some (Done r) ->
  let counted (o : zvol_op_code_t) (n : Z) :=
    match state zinfo with
    | ZVOL_INFO_STATE_ONLINE =>
        if opcode_eqb (opcode (hdr zio_cmd)) o then u64 (n + 1) else n
    | ZVOL_INFO_STATE_OFFLINE => n
    end in
  read_req_received_cnt (w_zinfo r)
  = counted ZVOL_OPCODE_READ (read_req_received_cnt zinfo)
  /\ write_req_received_cnt (w_zinfo r)
     = counted ZVOL_OPCODE_WRITE (write_req_received_cnt zinfo)
  /\ sync_req_received_cnt (w_zinfo r)
     = counted ZVOL_OPCODE_SYNC (sync_req_received_cnt zinfo).
Proof. exact (worker_counters zinfo zio_cmd s r). Qed.

(** Queue and signal after a run on an online volume. *)
Lemma worker_tail (zinfo : zvol_info_t store) zio_cmd s r :
  uzfs_zvol_worker zinfo zio_cmd s = Some (Done r) ->
  state zinfo = ZVOL_INFO_STATE_ONLINE ->
  is_rebuild_write (hdr zio_cmd) = false ->
  is_io_ack_sender_created (w_zinfo r) = is_io_ack_sender_created zinfo
  /\ io_ack_waiting (w_zinfo r) = io_ack_waiting zinfo
  /\ if is_io_ack_sender_created zinfo then
       complete_queue (w_zinfo r) = complete_queue zinfo ++ [w_cmd r]
       /\ w_freed r = false
       /\ io_ack_cond (w_zinfo r)
          = (if io_ack_waiting zinfo then S (io_ack_cond zinfo)
             else io_ack_cond zinfo)
     else
       complete_queue (w_zinfo r) = complete_queue zinfo
       /\ w_freed r = true
       /\ io_ack_cond (w_zinfo r) = io_ack_cond zinfo.
Proof.
  intros H Hon Hrw.
  destruct (worker_online_inv _ _ _ _ Hon H)
    as [want [c1 [rc [r0 [c2 [_ [Hc1 [E [Hc2 [Hc [_ [_ [_ Hz]]]]]]]]]]]]].
  destruct (worker_exec_fields _ _ _ _ _ _ E)
    as [Hh [_ [_ [_ [Hq [Ha [Hw [Hcv _]]]]]]]].
  assert (Hh1 : hdr c1 = hdr zio_cmd) by (subst c1; destruct want; reflexivity).
  assert (Hrw2 : is_rebuild_write (hdr c2) = false).
  { rewrite <- Hrw. unfold is_rebuild_write, flag_set. subst c2.
    rewrite <- Hh1, <- Hh. destruct (rc =? 0); reflexivity. }
  rewrite Hrw2 in Hz. rewrite <- Ha, <- Hw, <- Hq, <- Hcv, Hc.
  destruct (is_io_ack_sender_created (w_zinfo r0)) eqn:Eack.
  - destruct Hz as [Hf ->]. cbn.
    destruct (io_ack_waiting (w_zinfo r0)) eqn:Ew; cbn; rewrite ?Eack, ?Ew; auto.
  - destruct Hz as [-> Hf]. cbn. rewrite Eack. auto.
Qed.

(** X9.  On an online volume, a command that is not a rebuild WRITE ends
    in one of two ways.  With an ack sender, it is appended at the tail of
    [complete_queue], not freed, and [io_ack_cond] is signalled exactly when
    the sender waits.  Without one, it is freed, the queue is unchanged and
    nothing is signalled. *)
Theorem worker_queues_at_tail (zinfo : zvol_info_t store) zio_cmd s r :
  uzfs_zvol_worker zinfo zio_cmd s = Some (Done r) ->
  state zinfo = ZVOL_INFO_STATE_ONLINE ->
  is_rebuild_write (hdr zio_cmd) = false ->
  is_io_ack_sender_created (w_zinfo r) = is_io_ack_sender_created zinfo
  /\ io_ack_waiting (w_zinfo r) = io_ack_waiting zinfo
  /\ if is_io_ack_sender_created zinfo then
       complete_queue (w_zinfo r) = complete_queue zinfo ++ [w_cmd r]
       /\ w_freed r = false
       /\ io_ack_cond (w_zinfo r)
          = (if io_ack_waiting zinfo then S (io_ack_cond zinfo)
             else io_ack_cond zinfo)
     else
       complete_queue (w_zinfo r) = complete_queue zinfo
       /\ w_freed r = true
       /\ io_ack_cond (w_zinfo r) = io_ack_cond zinfo.
Proof. exact (worker_tail zinfo zio_cmd s r). Qed.

(** The header after a run. *)
Lemma worker_header (zinfo : zvol_info_t store) zio_cmd s r :
  uzfs_zvol_worker zinfo zio_cmd s = Some (Done r) ->
  version (hdr (w_cmd r)) = version (hdr zio_cmd)
  /\ opcode (hdr (w_cmd r)) = opcode (hdr zio_cmd)
  /\ flags (hdr (w_cmd r)) = flags (hdr zio_cmd)
  /\ io_seq (hdr (w_cmd r)) = io_seq (hdr zio_cmd)
  /\ checkpointed_io_seq (hdr (w_cmd r)) = checkpointed_io_seq (hdr zio_cmd)
  /\ offset (hdr (w_cmd r)) = offset (hdr zio_cmd)
  /\ conn (w_cmd r) = conn zio_cmd
  /\ match status (hdr (w_cmd r)) with
     | ZVOL_OP_STATUS_OK =>
         len (hdr (w_cmd r)) = len (hdr zio_cmd)
         /\ state zinfo = ZVOL_INFO_STATE_ONLINE
     | ZVOL_OP_STATUS_FAILED => len (hdr (w_cmd r)) = 0
     end.
Proof.
  intros H. destruct (state zinfo) eqn:Est.
  - destruct (worker_online_inv _ _ _ _ Est H)
      as [want [c1 [rc [r0 [c2 [_ [Hc1 [E [Hc2 [Hc _]]]]]]]]]].
    destruct (worker_exec_fields _ _ _ _ _ _ E) as [Hh [Hcn _]].
    assert (Hh1 : hdr c1 = hdr zio_cmd /\ conn c1 = conn zio_cmd)
      by (subst c1; destruct want; split; reflexivity).
    destruct Hh1 as [Hh1 Hcn1].
    rewrite Hc, Hc2. destruct (rc =? 0); cbn; rewrite Hh, Hh1, Hcn, Hcn1; auto 10.
  - rewrite (worker_offline_inv _ _ _ _ Est H). cbn. auto 10.
Qed.

(** X10.  The worker answers in the command's own header: version, opcode,
    flags, [io_seq], [checkpointed_io_seq], offset and the connection are
    those of the request.  Status FAILED always comes with [len = 0];
    status OK keeps [len] and is given on an online volume only. *)
Theorem worker_answers_in_header (zinfo : zvol_info_t store) zio_cmd s r :
  uzfs_zvol_worker zinfo zio_cmd s = Some (Done r) ->
  version (hdr (w_cmd r)) = version (hdr zio_cmd)
  /\ opcode (hdr (w_cmd r)) = opcode (hdr zio_cmd)
  /\ flags (hdr (w_cmd r)) = flags (hdr zio_cmd)
  /\ io_seq (hdr (w_cmd r)) = io_seq (hdr zio_cmd)
  /\ checkpointed_io_seq (hdr (w_cmd r)) = checkpointed_io_seq (hdr zio_cmd)
  /\ offset (hdr (w_cmd r)) = offset (hdr zio_cmd)
  /\ conn (w_cmd r) = conn zio_cmd
  /\ match status (hdr (w_cmd r)) with
     | ZVOL_OP_STATUS_OK =>
         len (hdr (w_cmd r)) = len (hdr zio_cmd)
         /\ state zinfo = ZVOL_INFO_STATE_ONLINE
     | ZVOL_OP_STATUS_FAILED => len (hdr (w_cmd r)) = 0
     end.
Proof. exact (worker_header zinfo zio_cmd s r). Qed.

(** A READ on an online volume. *)
Lemma worker_read_run (zinfo : zvol_info_t store) zio_cmd s rc bytes md :
  state zinfo = ZVOL_INFO_STATE_ONLINE ->
  opcode (hdr zio_cmd) = ZVOL_OPCODE_READ ->
  uzfs_read_data (zv zinfo) (offset (hdr zio_cmd)) (len (hdr zio_cmd))
    (flag_set (hdr zio_cmd) ZVOL_OP_FLAG_REBUILD
     || negb (ZVOL_IS_REBUILDED (zv zinfo))
     || flag_set (hdr zio_cmd) ZVOL_OP_FLAG_READ_METADATA)
  = (rc, bytes, md) ->
  exists r,
    uzfs_zvol_worker zinfo zio_cmd s = Some (Done r)
    /\ buf (w_cmd r) = Some bytes
    /\ metadata_desc (w_cmd r)
       = (if flag_set (hdr zio_cmd) ZVOL_OP_FLAG_REBUILD
             || negb (ZVOL_IS_REBUILDED (zv zinfo))
             || flag_set (hdr zio_cmd) ZVOL_OP_FLAG_READ_METADATA
          then md else None)
    /\ status (hdr (w_cmd r))
       = (if rc =? 0 then ZVOL_OP_STATUS_OK else ZVOL_OP_STATUS_FAILED)
    /\ zv (w_zinfo r) = zv zinfo
    /\ running_ionum (w_zinfo r) = running_ionum zinfo
    /\ w_writes r = []
    /\ w_sched r = s.
Proof.
  intros Hon Hop Hrd.
  destruct (worker_returns zinfo zio_cmd s) as [r [H _]].
  { unfold valid_for_worker. rewrite Hon, Hop. reflexivity. }
  exists r. split; [exact H|].
  destruct (worker_online_inv _ _ _ _ Hon H)
    as [want [c1 [rc' [r0 [c2 [Hw [Hc1 [E [Hc2 [Hc [Hsc [Hwr [_ Hz]]]]]]]]]]]]].
  rewrite <- Hw in *.
  assert (Hh1 : hdr c1 = hdr zio_cmd) by (subst c1; destruct want; reflexivity).
  destruct (worker_exec_inv _ _ _ _ _ _ E)
    as [[Ho [b [m [Hrd' Hr0]]]] | [[Ho _] | [[Ho _] | [Ho _]]]];
    try (rewrite Hh1 in Ho; congruence).
  rewrite Hh1, Hrd in Hrd'. inversion Hrd'; subst rc' b m.
  assert (Hzv : zv (w_zinfo r) = zv (w_zinfo r0)
                /\ running_ionum (w_zinfo r) = running_ionum (w_zinfo r0)).
  { destruct (is_rebuild_write (hdr c2)); [destruct Hz as [-> _]; cbn; auto|].
    destruct (is_io_ack_sender_created (w_zinfo r0)).
    - destruct Hz as [_ ->]. cbn.
      destruct (io_ack_waiting (w_zinfo r0)); cbn; auto.
    - destruct Hz as [-> _]; cbn; auto. }
  destruct Hzv as [-> ->]. rewrite Hsc, Hwr, Hc, Hc2, Hr0. cbn.
  destruct (rc =? 0); cbn; subst c1; destruct want; cbn; auto 10.
Qed.

(** X11.  A READ on an online volume: the block store is asked for the
    metadata exactly when the command has the REBUILD flag, or the volume
    is not rebuilt, or the command has the READ_METADATA flag.  The bytes
    read are in the command's buffer, the metadata list is kept only when
    asked for, the status is OK exactly when [uzfs_read_data] returned 0,
    and neither the block store nor [running_ionum] changes. *)
Theorem worker_read_result (zinfo : zvol_info_t store) zio_cmd s rc bytes md :
  state zinfo = ZVOL_INFO_STATE_ONLINE ->
  opcode (hdr zio_cmd) = ZVOL_OPCODE_READ ->
  uzfs_read_data (zv zinfo) (offset (hdr zio_cmd)) (len (hdr zio_cmd))
    (flag_set (hdr zio_cmd) ZVOL_OP_FLAG_REBUILD
     || negb (ZVOL_IS_REBUILDED (zv zinfo))
     || flag_set (hdr zio_cmd) ZVOL_OP_FLAG_READ_METADATA)
  = (rc, bytes, md) ->
  exists r,
    uzfs_zvol_worker zinfo zio_cmd s = Some (Done r)
    /\ buf (w_cmd r) = Some bytes
    /\ metadata_desc (w_cmd r)
       = (if flag_set (hdr zio_cmd) ZVOL_OP_FLAG_REBUILD
             || negb (ZVOL_IS_REBUILDED (zv zinfo))
             || flag_set (hdr zio_cmd) ZVOL_OP_FLAG_READ_METADATA
          then md else None)
    /\ status (hdr (w_cmd r))
       = (if rc =? 0 then ZVOL_OP_STATUS_OK else ZVOL_OP_STATUS_FAILED)
    /\ zv (w_zinfo r) = zv zinfo
    /\ running_ionum (w_zinfo r) = running_ionum zinfo
    /\ w_writes r = []
    /\ w_sched r = s.
Proof. exact (worker_read_run zinfo zio_cmd s rc bytes md). Qed.

(** X12.  The worker keeps [complete_queue] within the commands it
    executes: if every queued command has one of the opcodes READ, WRITE,
    SYNC, REBUILD_STEP_DONE, so has every queued command afterwards. *)
Theorem worker_keeps_queue_freeable (zinfo : zvol_info_t store) zio_cmd s r :
  uzfs_zvol_worker zinfo zio_cmd s = Some (Done r) ->
  Forall (fun c => worker_opcode (opcode (hdr c)) = true) (complete_queue zinfo) ->
  Forall (fun c => worker_opcode (opcode (hdr c)) = true)
         (complete_queue (w_zinfo r)).
Proof.
  intros H Hq.
  destruct (valid_for_worker zinfo zio_cmd) eqn:Hv.
  2:{ rewrite worker_panics in H by exact Hv. discriminate. }
  destruct (worker_returns zinfo zio_cmd s Hv) as [r' [H' P]].
  rewrite H in H'. inversion H'; subst r'.
  destruct (post_queue _ _ _ P) as [-> | [Hq' _]]; [exact Hq|].
  rewrite Hq'. apply Forall_app. split; [exact Hq|].
  constructor; [|constructor].
  rewrite (post_opcode _ _ _ P).
  destruct (state zinfo) eqn:Est.
  - unfold valid_for_worker in Hv. rewrite Est in Hv. exact Hv.
  - destruct (post_offline _ _ _ P Est) as [_ [_ [_ [_ [Hsame _]]]]].
    rewrite Hsame in Hq'. exfalso.
    apply (f_equal (@length _)) in Hq'. rewrite length_app in Hq'. cbn in Hq'. lia.
Qed.

End MoreWorker.

(** ** The checkpoint interval *)

Section MoreInterval.
Context {store : Type}.

(** X13.  [uzfs_update_ionum_interval] with a timeout other than 0: the
    interval is the timeout afterwards and nothing else in the record
    changes; the timer is signalled exactly when the interval was another
    one before; a second call with the same timeout does nothing. *)
Theorem update_ionum_interval_sets (zinfo : zvol_info_t store) timeout timer_cv :
  timeout <> 0 ->
  let r := uzfs_update_ionum_interval zinfo timeout timer_cv in
  update_ionum_interval (fst r) = timeout
  /\ snd r = (if update_ionum_interval zinfo =? timeout then timer_cv
              else S timer_cv)
  /\ fst r = set_update_ionum_interval zinfo timeout
  /\ uzfs_update_ionum_interval (fst r) timeout (snd r) = r.
Proof.
  intros Ht. cbv zeta. unfold uzfs_update_ionum_interval.
  apply Z.eqb_neq in Ht.
  destruct (update_ionum_interval zinfo =? timeout) eqn:E; cbn [fst snd].
  - rewrite E. apply Z.eqb_eq in E. repeat split; auto.
    destruct zinfo; cbn in *; subst; reflexivity.
  - rewrite Ht. cbn [negb fst snd set_update_ionum_interval update_ionum_interval].
    rewrite Z.eqb_refl. auto.
Qed.

End MoreInterval.

(** ** The rebuild driver, continued *)

Section MoreDriver.
Context {W : Type} {SYS : Sys W} {WIRE : Wire}.
Context {store : Type} {BS : BlockStore (zvol_state_t store)}.

(** The bookkeeping after [exit:], in closed form. *)
Lemma dw_exit_books rc sfd zio_cmd (st : dw_state W store) rc' st' :
  dw_exit rc sfd zio_cmd st = Done (rc', st') ->
  let z := zv (dw_zinfo st) in
  let z' := zv (dw_zinfo st') in
  let last := rebuild_cnt z =? rebuild_done_cnt z + 1 in
  let failed := rebuild_failed_cnt z + (if rc =? 0 then 0 else 1) in
  rc' = rc
  /\ rebuild_cnt z' = rebuild_cnt z
  /\ rebuild_done_cnt z' = rebuild_done_cnt z + 1
  /\ rebuild_failed_cnt z' = failed
  /\ zv_rebuild_status z'
     = (if last then
          if failed =? 0 then ZVOL_REBUILDING_DONE else ZVOL_REBUILDING_FAILED
        else if rc =? 0 then zv_rebuild_status z else ZVOL_REBUILDING_ERRORED)
  /\ zv_status z'
     = (if last && (failed =? 0) then ZVOL_STATUS_HEALTHY else zv_status z)
  /\ dw_timer_cv st'
     = (if last && (failed =? 0)
           && negb (update_ionum_interval (dw_zinfo st) =? 0)
        then S (dw_timer_cv st) else dw_timer_cv st)
  /\ refcnt (dw_zinfo st') = refcnt (dw_zinfo st) - 1
  /\ dw_world st'
     = (if sfd =? -1 then dw_world st else sys_close (dw_world st) sfd).
Proof.
  intros H. cbv zeta. unfold dw_exit in H.
  destruct (rc =? 0) eqn:Erc; cbn [negb] in H;
    cbn [rebuild_cnt rebuild_done_cnt rebuild_failed_cnt set_rebuild_done_cnt
         set_rebuild_failed_cnt uzfs_zvol_set_rebuild_status] in H;
    rewrite ?Z.add_0_r;
    destruct (rebuild_cnt (zv (dw_zinfo st))
              =? rebuild_done_cnt (zv (dw_zinfo st)) + 1);
    cbn [andb];
    match type of H with
    | context [negb (?x =? 0)] => destruct (x =? 0) eqn:Ef; cbn [negb] in H
    | _ => idtac
    end;
    try (unfold uzfs_update_ionum_interval in H;
         cbn [update_ionum_interval set_zv] in H;
         destruct (update_ionum_interval (dw_zinfo st) =? 0));
    cbn [negb andb] in *;
    (destruct (match zio_cmd with Some c => zio_cmd_free c | None => Done tt end);
     [|discriminate]);
    inversion H; subst; cbn;
    destruct (sfd =? -1); cbn; auto 12.
Qed.

(** X14.  The bookkeeping of the driver after [exit:].  [rebuild_done_cnt]
    grows by one, [rebuild_failed_cnt] by one exactly when [rc] is not 0.
    If this was the last of the [rebuild_cnt] runs, the rebuild status
    becomes DONE and the volume HEALTHY when no run has failed, and FAILED
    otherwise; if it was not, a failure marks the rebuild ERRORED and a
    success leaves status and health alone.  The timer is signalled only on
    the promotion to HEALTHY, and only if the interval is not 0.  The
    refcount drops by one and the socket is closed unless it is -1. *)
Theorem dw_exit_verdict rc sfd zio_cmd (st : dw_state W store) rc' st' :
  dw_exit rc sfd zio_cmd st = Done (rc', st') ->
  let z := zv (dw_zinfo st) in
  let z' := zv (dw_zinfo st') in
  let last := rebuild_cnt z =? rebuild_done_cnt z + 1 in
  let failed := rebuild_failed_cnt z + (if rc =? 0 then 0 else 1) in
  rc' = rc
  /\ rebuild_cnt z' = rebuild_cnt z
  /\ rebuild_done_cnt z' = rebuild_done_cnt z + 1
  /\ rebuild_failed_cnt z' = failed
  /\ zv_rebuild_status z'
     = (if last then
          if failed =? 0 then ZVOL_REBUILDING_DONE else ZVOL_REBUILDING_FAILED
        else if rc =? 0 then zv_rebuild_status z else ZVOL_REBUILDING_ERRORED)
  /\ zv_status z'
     = (if last && (failed =? 0) then ZVOL_STATUS_HEALTHY else zv_status z)
  /\ dw_timer_cv st'
     = (if last && (failed =? 0)
           && negb (update_ionum_interval (dw_zinfo st) =? 0)
        then S (dw_timer_cv st) else dw_timer_cv st)
  /\ refcnt (dw_zinfo st') = refcnt (dw_zinfo st) - 1
  /\ dw_world st'
     = (if sfd =? -1 then dw_world st else sys_close (dw_world st) sfd).
Proof. exact (dw_exit_books rc sfd zio_cmd st rc' st'). Qed.

Lemma submit_loop_zv_inv (P : zvol_state_t store -> Prop) :
  (forall z b o l m rb, P z -> P (snd (uzfs_write_data z b o l m rb))) ->
  forall fuel (zinfo : zvol_info_t store) s rb datap off remain writes cas r,
  submit_loop fuel zinfo s rb datap off remain writes cas = Some r ->
  P (zv zinfo) -> P (zv (sub_zinfo r)).
Proof.
  intros HP. induction fuel as [|fuel IH];
    intros zinfo s rb datap off remain writes cas r H Hz.
  - cbn in H. destruct (0 <? remain); [discriminate|].
    inversion H; subst; exact Hz.
  - cbn [submit_loop] in H.
    destruct (0 <? remain).
    2:{ inversion H; subst; exact Hz. }
    destruct (remain <? sizeof_rw_hdr).
    { inversion H; subst; exact Hz. }
    destruct (remain - sizeof_rw_hdr <? rw_len (rw_hdr_of_bytes datap)).
    { inversion H; subst; exact Hz. }
    match type of H with
    | context [uzfs_write_data ?a ?b ?c ?d ?e ?f] =>
        pose proof (HP a b c d e f Hz) as Hz';
        destruct (uzfs_write_data a b c d e f) as [rc zv']
    end.
    cbn in Hz'.
    destruct (rc =? 0); cbn [negb] in H.
    2:{ inversion H; subst; exact Hz'. }
    destruct (others_run s _) as [c0 s0].
    destruct (ionum_cas_loop _ s0 c0 c0 _ _) as [[[c1 s1] cas1]|];
      [|discriminate].
    apply IH in H; [exact H | exact Hz'].
Qed.

(** What the worker does to the volume record when it runs a WRITE. *)
Lemma worker_write_inv (P : zvol_state_t store -> Prop)
    (zinfo : zvol_info_t store) zio_cmd s r :
  (forall z b o l m rb, P z -> P (snd (uzfs_write_data z b o l m rb))) ->
  opcode (hdr zio_cmd) = ZVOL_OPCODE_WRITE ->
  uzfs_zvol_worker zinfo zio_cmd s = Some (Done r) ->
  P (zv zinfo) ->
  P (zv (w_zinfo r)) /\ refcnt (w_zinfo r) = refcnt zinfo - 1.
Proof.
  intros HP Hop H Hz.
  assert (Hv : valid_for_worker zinfo zio_cmd = true).
  { destruct (valid_for_worker zinfo zio_cmd) eqn:Hv; [reflexivity|].
    rewrite worker_panics in H by exact Hv. discriminate. }
  destruct (worker_returns zinfo zio_cmd s Hv) as [r' [H' Post]].
  rewrite H in H'. inversion H'; subst r'.
  split; [|apply (post_refcnt _ _ _ Post)].
  destruct (state zinfo) eqn:Est.
  - destruct (worker_online_inv _ _ _ _ Est H)
      as [want [c1 [rc [r0 [c2 [_ [Hc1 [E [_ [_ [_ [_ [_ Hzi]]]]]]]]]]]]].
    assert (Hh : hdr c1 = hdr zio_cmd) by (subst c1; destruct want; reflexivity).
    assert (Hzv : zv (w_zinfo r) = zv (w_zinfo r0)).
    { destruct (is_rebuild_write (hdr c2)); [destruct Hzi as [-> _]; reflexivity|].
      destruct (is_io_ack_sender_created (w_zinfo r0)).
      - destruct Hzi as [_ ->]. cbn.
        destruct (io_ack_waiting (w_zinfo r0)); reflexivity.
      - destruct Hzi as [-> _]; reflexivity. }
    rewrite Hzv.
    destruct (worker_exec_inv _ _ _ _ _ _ E)
      as [[Ho _] | [[_ [sr [Hs [_ ->]]]] | [[Ho _] | [Ho _]]]];
      try (rewrite Hh in Ho; congruence).
    cbn. eapply submit_loop_zv_inv; [exact HP | exact Hs | exact Hz].
  - rewrite (worker_offline_inv _ _ _ _ Est H). cbn. exact Hz.
Qed.

Lemma dw_run_inv (P : zvol_state_t store -> Prop) step io_fuel sfd ckpt :
  (forall z b o l m rb, P z -> P (snd (uzfs_write_data z b o l m rb))) ->
  forall fuel l (st : dw_state W store) rc st',
  dw_run step io_fuel fuel sfd ckpt l st = Some (Done (rc, st')) ->
  P (zv (dw_zinfo st)) ->
  exists rc0 zio_cmd st0,
    dw_exit rc0 sfd zio_cmd st0 = Done (rc, st')
    /\ P (zv (dw_zinfo st0))
    /\ refcnt (dw_zinfo st0) = refcnt (dw_zinfo st).
Proof.
  intros HP.
  assert (Hexit : forall rc0 c (st0 st : dw_state W store) rc st',
            Some (dw_exit rc0 sfd c st0) = Some (Done (rc, st')) ->
            P (zv (dw_zinfo st0)) -> refcnt (dw_zinfo st0) = refcnt (dw_zinfo st) ->
            exists rc0 zio_cmd st0,
              dw_exit rc0 sfd zio_cmd st0 = Done (rc, st')
              /\ P (zv (dw_zinfo st0))
              /\ refcnt (dw_zinfo st0) = refcnt (dw_zinfo st)).
  { intros rc0 c st0 st rc st' H Hz Hr. injection H as H. eauto 10. }
  induction fuel as [|fuel IH]; intros l st rc st' H Hz;
    [discriminate|].
  cbn [dw_run] in H. destruct l.
  - destruct (ZVOL_IS_REBUILDING_ERRORED (zv (dw_zinfo st))).
    { eapply Hexit; [exact H | exact Hz | reflexivity]. }
    destruct (ZVOL_VOLUME_SIZE (zv (dw_zinfo st)) <=? dw_offset st).
    + destruct (uzfs_zvol_socket_write _ _ _ _ _) as [[rcw w]|]; [|discriminate].
      destruct (negb (rcw =? 0));
        (eapply Hexit; [exact H | exact Hz | reflexivity]).
    + destruct (uzfs_zvol_socket_write _ _ _ _ _) as [[rcw w]|]; [|discriminate].
      destruct (negb (rcw =? 0)).
      * eapply Hexit; [exact H | exact Hz | reflexivity].
      * apply IH in H; [|exact Hz]. exact H.
  - destruct (ZVOL_IS_REBUILDING_ERRORED (zv (dw_zinfo st))).
    { eapply Hexit; [exact H | exact Hz | reflexivity]. }
    destruct (uzfs_zvol_socket_read _ _ _ _ _) as [[[rcr got] w]|]; [|discriminate].
    cbn [dw_world dw_zinfo dw_hdr dw_sched with_hdr with_world with_offset] in H.
    destruct (negb (rcr =? 0)).
    { eapply Hexit; [exact H | exact Hz | reflexivity]. }
    destruct (negb (status_eqb _ _)).
    { eapply Hexit; [exact H | exact Hz | reflexivity]. }
    destruct (opcode_eqb _ ZVOL_OPCODE_REBUILD_STEP_DONE).
    { apply IH in H; [|exact Hz]. exact H. }
    destruct (negb _); [discriminate|].
    destruct (uzfs_zvol_socket_read _ _ _ _ _) as [[[rc2 got2] w2]|];
      [|discriminate].
    destruct (negb (rc2 =? 0)).
    { eapply Hexit; [exact H | exact Hz | reflexivity]. }
    match type of H with
    | context [uzfs_zvol_worker ?zi ?c ?s] =>
        destruct (uzfs_zvol_worker zi c s) as [[r|]|] eqn:Ew; try discriminate;
        destruct (worker_write_inv P zi c s r HP) as [Hz' Hr];
        [ cbn; unfold zio_cmd_alloc; cbn; reflexivity | exact Ew | exact Hz | ]
    end.
    cbn in Hr.
    destruct (negb (status_eqb _ _)).
    { eapply Hexit; [exact H | exact Hz' | cbn; lia]. }
    destruct (zio_cmd_free (w_cmd r)); [|discriminate].
    apply IH in H; [|exact Hz'].
    destruct H as [rc0 [c [st0 [H1 [H2 H3]]]]].
    exists rc0, c, st0. split; [exact H1|]. split; [exact H2|].
    rewrite H3. cbn. lia.
Qed.

(** Every returning run of the driver leaves through [exit:]. *)
Lemma dw_replica_inv (P : zvol_state_t store -> Prop) step io_fuel fuel args w
    (zinfo : zvol_info_t store) timer_cv s rc st' :
  (forall z b o l m rb, P z -> P (snd (uzfs_write_data z b o l m rb))) ->
  uzfs_zvol_rebuild_dw_replica step io_fuel fuel args w zinfo timer_cv s
  = Some (Done (rc, st')) ->
  P (zv zinfo) ->
  exists rc0 zio_cmd st0,
    dw_exit rc0 (fd args) zio_cmd st0 = Done (rc, st')
    /\ P (zv (dw_zinfo st0))
    /\ refcnt (dw_zinfo st0) = refcnt zinfo.
Proof.
  intros HP H Hz. unfold uzfs_zvol_rebuild_dw_replica in H.
  destruct (sys_setsockopt w (fd args)) as [rc1 w1].
  destruct (negb (rc1 =? 0)).
  { injection H as H. eexists _, _, _. split; [exact H|]. cbn. auto. }
  destruct (sys_connect w1 (fd args)) as [rc2 w2].
  destruct (negb (rc2 =? 0)).
  { injection H as H. eexists _, _, _. split; [exact H|]. cbn. auto. }
  destruct (uzfs_zvol_socket_write _ _ _ _ _) as [[rc3 w3]|]; [|discriminate].
  destruct (negb (rc3 =? 0)).
  { injection H as H. eexists _, _, _. split; [exact H|]. cbn. auto. }
  destruct (uzfs_zvol_socket_write _ _ _ _ _) as [[rc4 w4]|]; [|discriminate].
  destruct (negb (rc4 =? 0)).
  { injection H as H. eexists _, _, _. split; [exact H|]. cbn. auto. }
  apply (dw_run_inv P _ _ _ _ HP) in H; [|exact Hz]. exact H.
Qed.

(** X15.  Every run of [uzfs_zvol_rebuild_dw_replica] that returns has
    dropped the refcount of the volume exactly once, whatever number of
    commands it has handed to the worker in between, and ends by closing
    its socket (unless the descriptor is -1). *)
Theorem dw_replica_drops_refcnt_and_closes step io_fuel fuel args w
    (zinfo : zvol_info_t store) timer_cv s rc st' :
  uzfs_zvol_rebuild_dw_replica step io_fuel fuel args w zinfo timer_cv s
  = Some (Done (rc, st')) ->
  refcnt (dw_zinfo st') = refcnt zinfo - 1
  /\ exists w0,
       dw_world st' = (if fd args =? -1 then w0 else sys_close w0 (fd args)).
Proof.
  intros H.
  destruct (dw_replica_inv (fun _ => True) _ _ _ _ _ _ _ _ _ _
              ltac:(auto) H I) as [rc0 [c [st0 [He [_ Hr]]]]].
  destruct (dw_exit_books _ _ _ _ _ _ He) as [_ [_ [_ [_ [_ [_ [_ [H1 H2]]]]]]]].
  split; [lia|]. exists (dw_world st0). exact H2.
Qed.

(** X16.  If the block store leaves the rebuild counters alone, every run
    of the driver that returns has added exactly one to [rebuild_done_cnt],
    and one to [rebuild_failed_cnt] exactly when it returns a code other
    than 0; [rebuild_cnt] is unchanged. *)
Theorem dw_replica_counted_once step io_fuel fuel args w
    (zinfo : zvol_info_t store) timer_cv s rc st' :
  (forall z b o l m rb,
     rebuild_cnt (snd (uzfs_write_data z b o l m rb)) = rebuild_cnt z
     /\ rebuild_done_cnt (snd (uzfs_write_data z b o l m rb))
        = rebuild_done_cnt z
     /\ rebuild_failed_cnt (snd (uzfs_write_data z b o l m rb))
        = rebuild_failed_cnt z) ->
  uzfs_zvol_rebuild_dw_replica step io_fuel fuel args w zinfo timer_cv s
  = Some (Done (rc, st')) ->
  rebuild_cnt (zv (dw_zinfo st')) = rebuild_cnt (zv zinfo)
  /\ rebuild_done_cnt (zv (dw_zinfo st')) = rebuild_done_cnt (zv zinfo) + 1
  /\ rebuild_failed_cnt (zv (dw_zinfo st'))
     = rebuild_failed_cnt (zv zinfo) + (if rc =? 0 then 0 else 1).
Proof.
  intros HBS H.
  set (P := fun z : zvol_state_t store =>
              rebuild_cnt z = rebuild_cnt (zv zinfo)
              /\ rebuild_done_cnt z = rebuild_done_cnt (zv zinfo)
              /\ rebuild_failed_cnt z = rebuild_failed_cnt (zv zinfo)).
  assert (HP : forall z b o l m rb, P z -> P (snd (uzfs_write_data z b o l m rb))).
  { intros z b o l m rb [H1 [H2 H3]]. unfold P.
    destruct (HBS z b o l m rb) as [-> [-> ->]]. auto. }
  assert (H0 : P (zv zinfo)) by (unfold P; auto).
  destruct (dw_replica_inv P _ _ _ _ _ _ _ _ _ _ HP H H0)
    as [rc0 [c [st0 [He [[Hc [Hd Hf]] _]]]]].
  destruct (dw_exit_books _ _ _ _ _ _ He) as [Hrc [H1 [H2 [H3 _]]]].
  subst rc0. rewrite H1, H2, H3, Hc, Hd, Hf. auto.
Qed.

(** The bookkeeping after [exit:] leaves the data of the volume alone. *)
Lemma dw_exit_frame rc sfd zio_cmd (st : dw_state W store) rc' st' :
  dw_exit rc sfd zio_cmd st = Done (rc', st') ->
  zv_objset (zv (dw_zinfo st')) = zv_objset (zv (dw_zinfo st))
  /\ zv_volsize (zv (dw_zinfo st')) = zv_volsize (zv (dw_zinfo st))
  /\ running_ionum (dw_zinfo st') = running_ionum (dw_zinfo st)
  /\ complete_queue (dw_zinfo st') = complete_queue (dw_zinfo st)
  /\ state (dw_zinfo st') = state (dw_zinfo st)
  /\ update_ionum_interval (dw_zinfo st') = update_ionum_interval (dw_zinfo st).
Proof.
  intros H. unfold dw_exit in H.
  destruct (rc =? 0) eqn:Erc; cbn [negb] in H;
    cbn [rebuild_cnt rebuild_done_cnt rebuild_failed_cnt set_rebuild_done_cnt
         set_rebuild_failed_cnt uzfs_zvol_set_rebuild_status] in H;
    destruct (rebuild_cnt (zv (dw_zinfo st))
              =? rebuild_done_cnt (zv (dw_zinfo st)) + 1);
    match type of H with
    | context [negb (?x =? 0)] => destruct (x =? 0) eqn:Ef; cbn [negb] in H
    | _ => idtac
    end;
    try (unfold uzfs_update_ionum_interval in H;
         cbn [update_ionum_interval set_zv] in H;
         destruct (update_ionum_interval (dw_zinfo st) =? 0));
    cbn [negb andb] in *;
    (destruct (match zio_cmd with Some c => zio_cmd_free c | None => Done tt end);
     [|discriminate]);
    inversion H; subst; cbn; auto 12.
Qed.

(** With no command to free, the code after [exit:] runs to its end. *)
Lemma dw_exit_returns rc sfd (st : dw_state W store) :
  exists st', dw_exit rc sfd None st = Done (rc, st').
Proof.
  unfold dw_exit.
  match goal with
  | |- context [let (_, _) := ?x in _] => destruct x as [zi cv]
  end.
  eexists. reflexivity.
Qed.

(** X17.  When [setsockopt] or [connect] fails, the driver returns at once,
    whatever the fuel: it returns the failing call's code, has sent
    nothing (the world is the one that call left, with the socket closed),
    has counted the rebuild as done and failed, and has touched neither the
    data of the volume nor [running_ionum]. *)
Theorem dw_replica_gives_up_before_sending step io_fuel fuel args w
    (zinfo : zvol_info_t store) timer_cv s :
  let so := sys_setsockopt w (fd args) in
  let co := sys_connect (snd so) (fd args) in
  fst so <> 0 \/ fst co <> 0 ->
  exists rc st',
    uzfs_zvol_rebuild_dw_replica step io_fuel fuel args w zinfo timer_cv s
    = Some (Done (rc, st'))
    /\ rc <> 0
    /\ rc = (if fst so =? 0 then fst co else fst so)
    /\ dw_world st'
       = (let w1 := if fst so =? 0 then snd co else snd so in
          if fd args =? -1 then w1 else sys_close w1 (fd args))
    /\ rebuild_failed_cnt (zv (dw_zinfo st'))
       = rebuild_failed_cnt (zv zinfo) + 1
    /\ rebuild_done_cnt (zv (dw_zinfo st'))
       = rebuild_done_cnt (zv zinfo) + 1
    /\ zv_status (zv (dw_zinfo st'))
       = (if (rebuild_cnt (zv zinfo) =? rebuild_done_cnt (zv zinfo) + 1)
             && (rebuild_failed_cnt (zv zinfo) + 1 =? 0)
          then ZVOL_STATUS_HEALTHY else zv_status (zv zinfo))
    /\ zv_objset (zv (dw_zinfo st')) = zv_objset (zv zinfo)
    /\ running_ionum (dw_zinfo st') = running_ionum zinfo.
Proof.
  cbv zeta. intros Hf. unfold uzfs_zvol_rebuild_dw_replica.
  destruct (sys_setsockopt w (fd args)) as [rc1 w1]. cbn [fst snd] in *.
  destruct (rc1 =? 0) eqn:E1; cbn [negb].
  - apply Z.eqb_eq in E1. subst rc1.
    destruct (sys_connect w1 (fd args)) as [rc2 w2]. cbn [fst snd] in *.
    destruct Hf as [Hf | Hf]; [congruence|].
    assert (E2 : (rc2 =? 0) = false) by (apply Z.eqb_neq; exact Hf).
    rewrite E2. cbn [negb].
    destruct (dw_exit_returns rc2 (fd args)
                (with_world (with_world (mk_dw_state w zinfo timer_cv s 0 zero_hdr)
                               w1) w2)) as [st' He].
    rewrite He.
    destruct (dw_exit_books _ _ _ _ _ _ He)
      as [_ [_ [H2 [H3 [_ [H5 [_ [_ H8]]]]]]]].
    cbn in *. rewrite E2 in *.
    exists rc2, st'. split; [reflexivity|]. split; [exact Hf|].
    split; [reflexivity|]. split; [exact H8|]. split; [exact H3|].
    split; [exact H2|]. split; [exact H5|].
    destruct (dw_exit_frame _ _ _ _ _ _ He) as [F1 [_ [F3 _]]]. auto.
  - assert (Hf1 : rc1 <> 0) by (apply Z.eqb_neq; exact E1).
    destruct (dw_exit_returns rc1 (fd args)
                (with_world (mk_dw_state w zinfo timer_cv s 0 zero_hdr) w1))
      as [st' He].
    rewrite He.
    destruct (dw_exit_books _ _ _ _ _ _ He)
      as [_ [_ [H2 [H3 [_ [H5 [_ [_ H8]]]]]]]].
    cbn in *. rewrite E1 in *.
    exists rc1, st'. split; [reflexivity|]. split; [exact Hf1|].
    split; [reflexivity|]. split; [exact H8|]. split; [exact H3|].
    split; [exact H2|]. split; [exact H5|].
    destruct (dw_exit_frame _ _ _ _ _ _ He) as [F1 [_ [F3 _]]]. auto.
Qed.

(** X18.  A rebuild that is ERRORED (another replica's driver has failed)
    stops this driver at its next check, at [next_step] as well as in the
    read loop: it returns -1 without another socket call, closes the
    socket, counts itself as done and failed, and leaves the status at
    ERRORED, or at FAILED if it was the last run; the health is
    unchanged. *)
Theorem dw_run_stops_when_errored step io_fuel fuel sfd ckpt l
    (st : dw_state W store) :
  ZVOL_IS_REBUILDING_ERRORED (zv (dw_zinfo st)) = true ->
  0 <= rebuild_failed_cnt (zv (dw_zinfo st)) ->
  exists st',
    dw_run step io_fuel (S fuel) sfd ckpt l st = Some (Done (-1, st'))
    /\ dw_world st'
       = (if sfd =? -1 then dw_world st else sys_close (dw_world st) sfd)
    /\ rebuild_failed_cnt (zv (dw_zinfo st'))
       = rebuild_failed_cnt (zv (dw_zinfo st)) + 1
    /\ rebuild_done_cnt (zv (dw_zinfo st'))
       = rebuild_done_cnt (zv (dw_zinfo st)) + 1
    /\ zv_rebuild_status (zv (dw_zinfo st'))
       = (if rebuild_cnt (zv (dw_zinfo st))
             =? rebuild_done_cnt (zv (dw_zinfo st)) + 1
          then ZVOL_REBUILDING_FAILED else ZVOL_REBUILDING_ERRORED)
    /\ zv_status (zv (dw_zinfo st')) = zv_status (zv (dw_zinfo st))
    /\ refcnt (dw_zinfo st') = refcnt (dw_zinfo st) - 1.
Proof.
  intros He Hf.
  assert (Hrun : dw_run step io_fuel (S fuel) sfd ckpt l st
                 = Some (dw_exit (-1) sfd None st)).
  { cbn [dw_run]. rewrite He. destruct l; reflexivity. }
  rewrite Hrun.
  destruct (dw_exit_returns (-1) sfd st) as [st' Hx]. rewrite Hx.
  destruct (dw_exit_books _ _ _ _ _ _ Hx)
    as [_ [_ [H2 [H3 [H4 [H5 [_ [H7 H8]]]]]]]].
  cbn [Z.eqb] in *.
  assert (E : (rebuild_failed_cnt (zv (dw_zinfo st)) + 1 =? 0) = false)
    by (apply Z.eqb_neq; lia).
  rewrite E in *. rewrite andb_false_r in H5.
  exists st'. auto 10.
Qed.

End MoreDriver.

(** ** The checkpoint timer *)

Section TimerProps.
Context {store : Type} {CS : CheckpointStore (zvol_state_t store)}.

Lemma timer_check_zvol_spec now (z : zvol_info_t store) mi :
  fst (timer_check_zvol now z mi)
  = (if checkpoint_due now z then
       set_checkpointed_time
         (set_checkpointed_ionum
            (set_zv z (uzfs_zvol_store_last_committed_io_no (zv z)
                         (checkpointed_ionum z)))
            (running_ionum z)) now
     else z)
  /\ snd (timer_check_zvol now z mi)
     = match zv_status (zv z) with
       | ZVOL_STATUS_HEALTHY =>
           Z.min mi
             (checkpointed_time (fst (timer_check_zvol now z mi))
              + update_ionum_interval z - now)
       | _ => mi
       end.
Proof.
  unfold timer_check_zvol, checkpoint_due, uzfs_zvol_get_status.
  destruct (zv_status (zv z)); [auto|].
  destruct (checkpointed_time z + update_ionum_interval z <=? now) eqn:E;
    cbn [fst snd]; (split; [reflexivity|]); cbn.
  - destruct (now + update_ionum_interval z - now <? mi) eqn:E1;
      [apply Z.ltb_lt in E1 | apply Z.ltb_ge in E1]; lia.
  - destruct (checkpointed_time z + update_ionum_interval z - now <? mi) eqn:E1;
      [apply Z.ltb_lt in E1 | apply Z.ltb_ge in E1]; lia.
Qed.

Lemma timer_foreach_cons now (z : zvol_info_t store) l mi :
  timer_foreach now (z :: l) mi
  = (fst (timer_check_zvol now z mi)
       :: fst (timer_foreach now l (snd (timer_check_zvol now z mi))),
     snd (timer_foreach now l (snd (timer_check_zvol now z mi)))).
Proof.
  cbn [timer_foreach]. destruct (timer_check_zvol now z mi) as [z' mi'].
  cbn [fst snd]. destruct (timer_foreach now l mi'). reflexivity.
Qed.

Lemma timer_foreach_list now (l : list (zvol_info_t store)) : forall mi,
  fst (timer_foreach now l mi)
  = map (fun z => fst (timer_check_zvol now z 0)) l.
Proof.
  induction l as [|z l IH]; intros mi; [reflexivity|].
  rewrite timer_foreach_cons. cbn [fst map]. rewrite IH. f_equal.
  rewrite (proj1 (timer_check_zvol_spec now z mi)),
          (proj1 (timer_check_zvol_spec now z 0)). reflexivity.
Qed.

(** X19.  One turn of the timer.  A volume that is not healthy, or whose
    deadline [checkpointed_time + update_ionum_interval] is after [now],
    is left as it is.  For a healthy volume that is due, the value handed
    to [uzfs_zvol_store_last_committed_io_no] is the checkpoint on entry,
    then [checkpointed_ionum] becomes [running_ionum] and
    [checkpointed_time] becomes [now], and nothing else changes.  So a
    checkpoint at or below [running_ionum] stays at or below it. *)
Theorem timer_turn_checkpoints now (l : list (zvol_info_t store)) :
  Forall2
    (fun z z' =>
       (checkpoint_due now z = false -> z' = z)
       /\ (checkpoint_due now z = true ->
           zv z' = uzfs_zvol_store_last_committed_io_no (zv z)
                     (checkpointed_ionum z)
           /\ checkpointed_ionum z' = running_ionum z
           /\ checkpointed_time z' = now
           /\ z' = set_checkpointed_time
                     (set_checkpointed_ionum (set_zv z (zv z'))
                        (running_ionum z)) now)
       /\ (checkpointed_ionum z <= running_ionum z ->
           checkpointed_ionum z' <= running_ionum z')
       /\ running_ionum z' = running_ionum z)
    l (fst (timer_turn now l)).
Proof.
  unfold timer_turn. rewrite timer_foreach_list.
  induction l as [|z l IH]; cbn [map]; constructor; [|exact IH].
  rewrite (proj1 (timer_check_zvol_spec now z 0)).
  destruct (checkpoint_due now z); cbn; repeat split; intros;
    try discriminate; try reflexivity; try lia; auto.
Qed.

Lemma timer_foreach_wait now (l : list (zvol_info_t store)) : forall mi,
  let r := timer_foreach now l mi in
  snd r <= mi
  /\ (0 <= mi -> Forall (fun z => 0 <= update_ionum_interval z) l -> 0 <= snd r)
  /\ (0 < mi -> Forall (fun z => 0 < update_ionum_interval z) l -> 0 < snd r)
  /\ Forall2
       (fun z z' =>
          zv_status (zv z) = ZVOL_STATUS_HEALTHY ->
          now + snd r <= checkpointed_time z' + update_ionum_interval z')
       l (fst r)
  /\ (snd r = mi
      \/ exists z z',
           In (z, z') (combine l (fst r))
           /\ zv_status (zv z) = ZVOL_STATUS_HEALTHY
           /\ now + snd r = checkpointed_time z' + update_ionum_interval z').
Proof.
  induction l as [|z l IH]; intros mi; cbv zeta.
  - cbn. repeat split; auto; lia.
  - rewrite timer_foreach_cons. cbn [fst snd].
    destruct (timer_check_zvol_spec now z mi) as [Hz Hm].
    set (z' := fst (timer_check_zvol now z mi)) in *.
    set (m1 := snd (timer_check_zvol now z mi)) in *.
    specialize (IH m1). cbv zeta in IH.
    destruct IH as [I1 [I2 [I3 [I4 I5]]]].
    assert (Hiv : update_ionum_interval z' = update_ionum_interval z).
    { rewrite Hz. destruct (checkpoint_due now z); reflexivity. }
    assert (Hdead : zv_status (zv z) = ZVOL_STATUS_HEALTHY ->
                    (0 < update_ionum_interval z ->
                     now < checkpointed_time z' + update_ionum_interval z)
                    /\ (0 <= update_ionum_interval z ->
                        now <= checkpointed_time z' + update_ionum_interval z)).
    { intros Hh. rewrite Hz. unfold checkpoint_due. rewrite Hh.
      destruct (checkpointed_time z + update_ionum_interval z <=? now) eqn:E;
        [apply Z.leb_le in E | apply Z.leb_gt in E]; cbn; lia. }
    assert (Hm1 : m1 <= mi) by (rewrite Hm; destruct (zv_status (zv z)); lia).
    split; [lia|]. split; [|split; [|split]].
    + intros H0 Hall. inversion Hall; subst. apply I2; [|assumption].
      rewrite Hm. destruct (zv_status (zv z)) eqn:Es; [lia|].
      destruct (Hdead eq_refl) as [_ Hd]. specialize (Hd ltac:(assumption)).
      lia.
    + intros H0 Hall. inversion Hall; subst. apply I3; [|assumption].
      rewrite Hm. destruct (zv_status (zv z)) eqn:Es; [lia|].
      destruct (Hdead eq_refl) as [Hd _]. specialize (Hd ltac:(assumption)).
      lia.
    + constructor.
      * intros Hh. rewrite Hiv. rewrite Hh in Hm. lia.
      * exact I4.
    + destruct I5 as [I5 | [a [b [Hin [Hh Heq]]]]].
      * rewrite I5. rewrite Hm.
        destruct (zv_status (zv z)) eqn:Es; [left; reflexivity|].
        destruct (Z.min_spec mi (checkpointed_time z' + update_ionum_interval z - now))
          as [[_ ->] | [_ ->]]; [left; reflexivity|].
        right. exists z, z'. split; [left; reflexivity|].
        split; [exact Es|]. rewrite Hiv. lia.
      * right. exists a, b. split; [right; exact Hin|]. auto.
Qed.

Lemma timer_thread_waits clock : forall (l : list (zvol_info_t store)) waits,
  let r := uzfs_zvol_timer_thread clock l waits in
  length (snd r) = (length waits + length clock)%nat
  /\ (Forall (fun t => t <= 600) waits -> Forall (fun t => t <= 600) (snd r)).
Proof.
  induction clock as [|[now others] clock IH]; intros l waits; cbv zeta.
  - cbn. split; [lia | auto].
  - cbn [uzfs_zvol_timer_thread]. unfold timer_turn.
    pose proof (timer_foreach_wait now l 600) as Hw. cbv zeta in Hw.
    destruct (timer_foreach now l 600) as [l1 mi]. cbn [fst snd] in Hw.
    specialize (IH (others l1) (waits ++ [mi])). cbv zeta in IH.
    destruct IH as [I1 I2]. split.
    + rewrite I1, length_app. cbn. lia.
    + intros Hall. apply I2. apply Forall_app. split; [exact Hall|].
      constructor; [apply Hw | constructor].
Qed.

(** X20.  The timeout the timer hands to [cv_timedwait]: at most 600
    seconds; not negative when no interval is; positive when every interval
    is; never past the next deadline of a healthy volume; and either 600 or
    exactly the time to the nearest such deadline.  Over any number of
    turns, whatever the other threads do in between, the thread waits once
    a turn and never longer than 600 seconds. *)
Theorem timer_turn_wait now (l : list (zvol_info_t store)) :
  let l' := fst (timer_turn now l) in
  let wait := snd (timer_turn now l) in
  wait <= 600
  /\ (Forall (fun z => 0 <= update_ionum_interval z) l -> 0 <= wait)
  /\ (Forall (fun z => 0 < update_ionum_interval z) l -> 0 < wait)
  /\ Forall2
       (fun z z' =>
          zv_status (zv z) = ZVOL_STATUS_HEALTHY ->
          now + wait <= checkpointed_time z' + update_ionum_interval z')
       l l'
  /\ (wait = 600
      \/ exists z z',
           In (z, z') (combine l l')
           /\ zv_status (zv z) = ZVOL_STATUS_HEALTHY
           /\ now + wait = checkpointed_time z' + update_ionum_interval z')
  /\ (forall clock,
        length (snd (uzfs_zvol_timer_thread clock l [])) = length clock
        /\ Forall (fun t => t <= 600)
                  (snd (uzfs_zvol_timer_thread clock l []))).
Proof.
  cbv zeta. unfold timer_turn.
  destruct (timer_foreach_wait now l 600) as [H1 [H2 [H3 [H4 H5]]]].
  split; [exact H1|]. split; [intros; apply H2; [lia | assumption]|].
  split; [intros; apply H3; [lia | assumption]|].
  split; [exact H4|]. split; [exact H5|].
  intros clock. destruct (timer_thread_waits clock l []) as [T1 T2].
  split; [exact T1 | apply T2; constructor].
Qed.

(** X21.  With positive intervals, a second turn of the timer at the same
    second changes nothing: no volume is checkpointed twice for one
    [now]. *)
Theorem timer_turn_settles now (l : list (zvol_info_t store)) :
  Forall (fun z => 0 < update_ionum_interval z) l ->
  fst (timer_turn now (fst (timer_turn now l))) = fst (timer_turn now l).
Proof.
  unfold timer_turn. rewrite !timer_foreach_list.
  induction l as [|z l IH]; intros Hall; [reflexivity|].
  inversion Hall; subst. cbn [map]. rewrite IH by assumption. f_equal.
  rewrite !(proj1 (timer_check_zvol_spec now _ 0)).
  destruct (checkpoint_due now z) eqn:E; [|rewrite E; reflexivity].
  unfold checkpoint_due at 1. cbn.
  destruct (zv_status _); [reflexivity|].
  destruct (now + update_ionum_interval z <=? now) eqn:E1; [|reflexivity].
  apply Z.leb_le in E1. lia.
Qed.

End TimerProps.

(** ** Purging a connection *)

Lemma purge_queue_spec fd q :
  match purge_queue fd q with
  | Done (kept, freed) =>
      kept = filter (fun c => negb (conn c =? fd)) q
      /\ freed = filter (fun c => conn c =? fd) q
      /\ Forall (fun c => freeable_opcode (opcode (hdr c)) = true) freed
  | Panic =>
      exists c, In c q /\ conn c = fd /\ freeable_opcode (opcode (hdr c)) = false
  end.
Proof.
  induction q as [|c q IH]; cbn [purge_queue filter].
  - auto.
  - destruct (conn c =? fd) eqn:E; cbn [negb].
    + apply Z.eqb_eq in E.
      destruct (freeable_opcode (opcode (hdr c))) eqn:Ef.
      * rewrite (zio_cmd_free_ok c Ef).
        destruct (purge_queue fd q) as [[kept freed]|].
        -- destruct IH as [-> [-> Hall]]. auto.
        -- destruct IH as [c' [Hin Hc]]. exists c'. split; [right; exact Hin | exact Hc].
      * rewrite (zio_cmd_free_panics c Ef). exists c. split; [left; reflexivity | auto].
    + destruct (purge_queue fd q) as [[kept freed]|].
      * destruct IH as [-> [-> Hall]]. auto.
      * destruct IH as [c' [Hin Hc]]. exists c'. split; [right; exact Hin | exact Hc].
Qed.

Lemma wait_in_ack_spec fuel fd in_ack : forall k,
  match wait_in_ack fuel fd in_ack k with
  | Some n =>
      (k <= n <= k + fuel)%nat
      /\ (forall c, in_ack n = Some c -> conn c <> fd)
      /\ (forall j, (k <= j < n)%nat -> exists c, in_ack j = Some c /\ conn c = fd)
  | None =>
      forall j, (k <= j <= k + fuel)%nat -> exists c, in_ack j = Some c /\ conn c = fd
  end.
Proof.
  induction fuel as [|fuel IH]; intros k; cbn [wait_in_ack].
  - destruct (in_ack k) as [c|] eqn:E.
    + destruct (conn c =? fd) eqn:Ec.
      * apply Z.eqb_eq in Ec. intros j Hj. assert (j = k) by lia. subst j. eauto.
      * apply Z.eqb_neq in Ec. split; [lia|]. split.
        -- intros c' Hc'. rewrite E in Hc'. inversion Hc'; subst. exact Ec.
        -- intros j Hj. lia.
    + split; [lia|]. split; [intros c' Hc'; rewrite E in Hc'; discriminate|].
      intros j Hj. lia.
  - destruct (in_ack k) as [c|] eqn:E.
    + destruct (conn c =? fd) eqn:Ec.
      * apply Z.eqb_eq in Ec. specialize (IH (S k)).
        destruct (wait_in_ack fuel fd in_ack (S k)) as [n|].
        -- destruct IH as [I1 [I2 I3]]. split; [lia|]. split; [exact I2|].
           intros j Hj. destruct (Nat.eq_dec j k) as [-> | Hne]; [eauto|].
           apply I3. lia.
        -- intros j Hj. destruct (Nat.eq_dec j k) as [-> | Hne]; [eauto|].
           apply IH. lia.
      * apply Z.eqb_neq in Ec. split; [lia|]. split.
        -- intros c' Hc'. rewrite E in Hc'. inversion Hc'; subst. exact Ec.
        -- intros j Hj. lia.
    + split; [lia|]. split; [intros c' Hc'; rewrite E in Hc'; discriminate|].
      intros j Hj. lia.
Qed.

Section PurgeProps.
Context {store : Type}.

(** What a returning purge leaves. *)
Lemma remove_pending_inv fuel fd (zinfo : zvol_info_t store) in_ack p :
  remove_pending_cmds_to_ack fuel fd zinfo in_ack = Some (Done p) ->
  complete_queue (pg_zinfo p)
  = filter (fun c => negb (conn c =? fd)) (complete_queue zinfo)
  /\ pg_freed p = filter (fun c => conn c =? fd) (complete_queue zinfo)
  /\ pg_zinfo p = set_complete_queue zinfo (complete_queue (pg_zinfo p))
  /\ Forall (fun c => conn c <> fd) (complete_queue (pg_zinfo p))
  /\ (forall c, in_ack (pg_sleeps p) = Some c -> conn c <> fd)
  /\ (forall k, (k < pg_sleeps p)%nat ->
        exists c, in_ack k = Some c /\ conn c = fd)
  /\ (pg_sleeps p <= fuel)%nat.
Proof.
  unfold remove_pending_cmds_to_ack. intros H.
  pose proof (purge_queue_spec fd (complete_queue zinfo)) as Hp.
  destruct (purge_queue fd (complete_queue zinfo)) as [[kept freed]|];
    [|discriminate].
  pose proof (wait_in_ack_spec fuel fd in_ack 0) as Hw.
  destruct (wait_in_ack fuel fd in_ack 0) as [n|]; [|discriminate].
  inversion H; subst p; cbn.
  destruct Hp as [-> [-> _]]. destruct Hw as [W1 [W2 W3]].
  split; [reflexivity|]. split; [reflexivity|]. split; [reflexivity|].
  split.
  { apply Forall_forall. intros c Hc. apply filter_In in Hc.
    destruct Hc as [_ Hc]. apply negb_true_iff, Z.eqb_neq in Hc. exact Hc. }
  split; [exact W2|]. split; [|lia].
  intros k Hk. apply W3. lia.
Qed.

(** X22.  When [remove_pending_cmds_to_ack] returns, the queue holds the
    commands of the other connections, all of them and in their order; the
    commands of [fd], and only they, have been freed; nothing else in the
    record has changed; and the command the ack sender works on is not one
    of [fd], after one [sleep] for each look at which it still was. *)
Theorem remove_pending_purges fuel fd (zinfo : zvol_info_t store) in_ack p :
  remove_pending_cmds_to_ack fuel fd zinfo in_ack = Some (Done p) ->
  complete_queue (pg_zinfo p)
  = filter (fun c => negb (conn c =? fd)) (complete_queue zinfo)
  /\ pg_freed p = filter (fun c => conn c =? fd) (complete_queue zinfo)
  /\ pg_zinfo p = set_complete_queue zinfo (complete_queue (pg_zinfo p))
  /\ Forall (fun c => conn c <> fd) (complete_queue (pg_zinfo p))
  /\ (forall c, in_ack (pg_sleeps p) = Some c -> conn c <> fd)
  /\ (forall k, (k < pg_sleeps p)%nat ->
        exists c, in_ack k = Some c /\ conn c = fd)
  /\ (pg_sleeps p <= fuel)%nat.
Proof. exact (remove_pending_inv fuel fd zinfo in_ack p). Qed.

(** X23.  [remove_pending_cmds_to_ack] stops at the [VERIFY] of
    [zio_cmd_free] exactly when the queue holds a command of [fd] with an
    opcode outside READ, WRITE, OPEN, SYNC, REBUILD_STEP_DONE.  Otherwise it
    fails to return exactly when the ack sender is found on a command of
    [fd] at every look. *)
Theorem remove_pending_outcomes fuel fd (zinfo : zvol_info_t store) in_ack :
  (remove_pending_cmds_to_ack fuel fd zinfo in_ack = Some Panic
   <-> exists c, In c (complete_queue zinfo) /\ conn c = fd
                 /\ freeable_opcode (opcode (hdr c)) = false)
  /\ (remove_pending_cmds_to_ack fuel fd zinfo in_ack = None
      <-> (forall c, In c (complete_queue zinfo) -> conn c = fd ->
             freeable_opcode (opcode (hdr c)) = true)
          /\ forall k, (k <= fuel)%nat ->
               exists c, in_ack k = Some c /\ conn c = fd).
Proof.
  unfold remove_pending_cmds_to_ack.
  pose proof (purge_queue_spec fd (complete_queue zinfo)) as Hp.
  pose proof (wait_in_ack_spec fuel fd in_ack 0) as Hw.
  destruct (purge_queue fd (complete_queue zinfo)) as [[kept freed]|].
  - destruct Hp as [_ [Hf Hall]].
    assert (Hfree : forall c, In c (complete_queue zinfo) -> conn c = fd ->
                      freeable_opcode (opcode (hdr c)) = true).
    { intros c Hin Hc. rewrite Forall_forall in Hall. apply Hall.
      rewrite Hf. apply filter_In. split; [exact Hin|]. apply Z.eqb_eq. exact Hc. }
    split.
    + split.
      * destruct (wait_in_ack fuel fd in_ack 0); discriminate.
      * intros [c [Hin [Hc Hn]]]. rewrite (Hfree c Hin Hc) in Hn. discriminate.
    + destruct (wait_in_ack fuel fd in_ack 0) as [n|].
      * split; [discriminate|]. intros [_ Hk]. exfalso.
        destruct Hw as [W1 [W2 _]].
        destruct (Hk n ltac:(lia)) as [c [Hc1 Hc2]]. exact (W2 c Hc1 Hc2).
      * split; [|reflexivity]. intros _. split; [exact Hfree|].
        intros k Hk. apply Hw. lia.
  - split.
    + split; [intros _; exact Hp | reflexivity].
    + split; [discriminate|]. intros [Hfree _]. exfalso.
      destruct Hp as [c [Hin [Hc Hn]]]. rewrite (Hfree c Hin Hc) in Hn.
      discriminate.
Qed.

End PurgeProps.

(** ** The scanner's callback *)

Section CallbackProps.
Context {store : Type} {BS : BlockStore (zvol_state_t store)} {WIRE : Wire}.

(** The callback returns and keeps the refcount. *)
Lemma callback_balance hdr0 off n md (zinfo : zvol_info_t store) fd s :
  exists rc zinfo',
    uzfs_zvol_rebuild_scanner_callback hdr0 off n md zinfo fd s
    = Some (Done (rc, zinfo', s))
    /\ refcnt zinfo' = refcnt zinfo
    /\ zv zinfo' = zv zinfo
    /\ running_ionum zinfo' = running_ionum zinfo
    /\ state zinfo' = state zinfo
    /\ match state zinfo with
       | ZVOL_INFO_STATE_OFFLINE => rc = -1 /\ zinfo' = zinfo
       | ZVOL_INFO_STATE_ONLINE =>
           rc = 0
           /\ read_req_received_cnt zinfo'
              = u64 (read_req_received_cnt zinfo + 1)
       end.
Proof.
  unfold uzfs_zvol_rebuild_scanner_callback.
  destruct (state zinfo) eqn:Est.
  2:{ eexists _, _. split; [reflexivity|]. rewrite Est. auto 10. }
  set (h := set_status _ _).
  set (zi := uzfs_zinfo_take_refcnt zinfo).
  assert (Hon : state zi = ZVOL_INFO_STATE_ONLINE) by exact Est.
  assert (Hop : opcode (hdr (zio_cmd_alloc h fd)) = ZVOL_OPCODE_READ) by reflexivity.
  destruct (uzfs_read_data (zv zi) (offset (hdr (zio_cmd_alloc h fd)))
              (len (hdr (zio_cmd_alloc h fd)))
              (flag_set (hdr (zio_cmd_alloc h fd)) ZVOL_OP_FLAG_REBUILD
               || negb (ZVOL_IS_REBUILDED (zv zi))
               || flag_set (hdr (zio_cmd_alloc h fd)) ZVOL_OP_FLAG_READ_METADATA))
    as [[rrc bytes] mdd] eqn:Erd.
  destruct (worker_read_run zi (zio_cmd_alloc h fd) s rrc bytes mdd Hon Hop Erd)
    as [r [Hr [_ [_ [_ [Hzv [Hri [_ Hsc]]]]]]]].
  rewrite Hr, Hsc. eexists _, _. split; [reflexivity|].
  destruct (worker_returns zi (zio_cmd_alloc h fd) s) as [r' [Hr' Post]].
  { unfold valid_for_worker. rewrite Hon, Hop. reflexivity. }
  rewrite Hr in Hr'. inversion Hr'; subst r'.
  pose proof (worker_counters _ _ _ _ Hr) as Hcnt. cbv zeta in Hcnt.
  rewrite Hon, Hop in Hcnt. cbn [opcode_eqb] in Hcnt.
  destruct Hcnt as [Hc1 _].
  destruct (worker_online_inv _ _ _ _ Hon Hr)
    as [want [c1 [rc [r0 [c2 [_ [_ [E [_ [_ [_ [_ [_ Hz]]]]]]]]]]]]].
  destruct (worker_exec_fields _ _ _ _ _ _ E) as [_ [_ [Hst _]]].
  assert (Hstate : state (w_zinfo r) = state (w_zinfo r0)).
  { destruct (is_rebuild_write (hdr c2)); [destruct Hz as [-> _]; reflexivity|].
    destruct (is_io_ack_sender_created (w_zinfo r0)).
    - destruct Hz as [_ ->]. cbn.
      destruct (io_ack_waiting (w_zinfo r0)); reflexivity.
    - destruct Hz as [-> _]; reflexivity. }
  rewrite (post_refcnt _ _ _ Post), Hzv, Hri, Hstate, Hst, Hc1.
  cbn. repeat split; auto; lia.
Qed.

(** X24.  [uzfs_zvol_rebuild_scanner_callback] always returns: -1 on an
    offline volume, which it leaves untouched, and 0 on an online one,
    whether the read succeeds or not, with one more READ counted.  The
    reference it takes is dropped by the worker, so the refcount is the
    same afterwards; the block store and [running_ionum] do not change. *)
Theorem scanner_callback_balanced hdr0 off n md (zinfo : zvol_info_t store) fd s :
  exists rc zinfo',
    uzfs_zvol_rebuild_scanner_callback hdr0 off n md zinfo fd s
    = Some (Done (rc, zinfo', s))
    /\ refcnt zinfo' = refcnt zinfo
    /\ zv zinfo' = zv zinfo
    /\ running_ionum zinfo' = running_ionum zinfo
    /\ state zinfo' = state zinfo
    /\ match state zinfo with
       | ZVOL_INFO_STATE_OFFLINE => rc = -1 /\ zinfo' = zinfo
       | ZVOL_INFO_STATE_ONLINE =>
           rc = 0
           /\ read_req_received_cnt zinfo'
              = u64 (read_req_received_cnt zinfo + 1)
       end.
Proof. exact (callback_balance hdr0 off n md zinfo fd s). Qed.

(** What the callback queues. *)
Lemma callback_read hdr0 off n md (zinfo : zvol_info_t store)
    fd s rrc bytes mdd :
  state zinfo = ZVOL_INFO_STATE_ONLINE ->
  is_io_ack_sender_created zinfo = true ->
  uzfs_read_data (zv zinfo) off n true = (rrc, bytes, mdd) ->
  exists zinfo' c,
    uzfs_zvol_rebuild_scanner_callback hdr0 off n md zinfo fd s
    = Some (Done (0, zinfo', s))
    /\ complete_queue zinfo' = complete_queue zinfo ++ [c]
    /\ io_ack_cond zinfo'
       = (if io_ack_waiting zinfo then S (io_ack_cond zinfo)
          else io_ack_cond zinfo)
    /\ conn c = fd
    /\ buf c = Some bytes
    /\ metadata_desc c = mdd
    /\ hdr c
       = mk_hdr REPLICA_VERSION ZVOL_OPCODE_READ ZVOL_OP_FLAG_REBUILD
           (if rrc =? 0 then ZVOL_OP_STATUS_OK else ZVOL_OP_STATUS_FAILED)
           (blk_io_num md) (checkpointed_io_seq hdr0) off
           (if rrc =? 0 then n else 0)
    /\ state zinfo' = ZVOL_INFO_STATE_ONLINE
    /\ is_io_ack_sender_created zinfo' = true.
Proof.
  intros Hon Hack Hrd.
  destruct (callback_balance hdr0 off n md zinfo fd s)
    as [rc0 [zi0 [Hcb0 [_ [_ [_ [Hst0 _]]]]]]].
  unfold uzfs_zvol_rebuild_scanner_callback. rewrite Hon.
  set (h := set_status _ _).
  set (zi := uzfs_zinfo_take_refcnt zinfo).
  assert (Hzon : state zi = ZVOL_INFO_STATE_ONLINE) by exact Hon.
  assert (Hnrw : is_rebuild_write (hdr (zio_cmd_alloc h fd)) = false) by reflexivity.
  assert (Hop : opcode (hdr (zio_cmd_alloc h fd)) = ZVOL_OPCODE_READ) by reflexivity.
  assert (Hwant : flag_set (hdr (zio_cmd_alloc h fd)) ZVOL_OP_FLAG_REBUILD
                  || negb (ZVOL_IS_REBUILDED (zv zi))
                  || flag_set (hdr (zio_cmd_alloc h fd)) ZVOL_OP_FLAG_READ_METADATA
                  = true) by reflexivity.
  destruct (worker_read_run zi (zio_cmd_alloc h fd) s rrc bytes mdd Hzon Hop)
    as [r [Hr [Hb [Hmd [Hs [_ [_ [_ Hsc]]]]]]]].
  { rewrite Hwant. exact Hrd. }
  unfold uzfs_zvol_rebuild_scanner_callback in Hcb0. rewrite Hon in Hcb0.
  fold h in Hcb0. fold zi in Hcb0. rewrite Hr, Hsc in Hcb0.
  inversion Hcb0; subst rc0 zi0. clear Hcb0.
  rewrite Hr, Hsc. exists (w_zinfo r), (w_cmd r). split; [reflexivity|].
  destruct (worker_tail _ _ _ _ Hr Hzon Hnrw) as [Hcr [_ Hq]].
  change (is_io_ack_sender_created zi) with (is_io_ack_sender_created zinfo) in Hcr.
  change (is_io_ack_sender_created zi) with (is_io_ack_sender_created zinfo) in Hq.
  rewrite Hack in Hq. destruct Hq as [Hq [_ Hcv]].
  split; [exact Hq|]. split; [exact Hcv|].
  rewrite Hwant in Hmd.
  destruct (worker_header _ _ _ _ Hr)
    as [A1 [A2 [A3 [A4 [A5 [A6 [A7 A8]]]]]]].
  split; [exact A7|]. split; [exact Hb|]. split; [exact Hmd|].
  split; [|split; [congruence | congruence]].
  rewrite Hs in A8.
  destruct (hdr (w_cmd r)) as [v o f st io ck ofs l]. cbn in *.
  subst. destruct (rrc =? 0); cbn in A8; destruct A8; subst; reflexivity.
Qed.

(** X25.  On an online volume with an ack sender, the scanner's callback
    puts exactly one command at the tail of the queue: a READ with the
    REBUILD flag for the connection of the scanner, with the region's io
    number as [io_seq], read with metadata; its status is OK with the
    length of the region when [uzfs_read_data] returned 0, and FAILED with
    length 0 otherwise.  [checkpointed_io_seq] is whatever the stack
    held. *)
Theorem scanner_callback_queues_read hdr0 off n md (zinfo : zvol_info_t store)
    fd s rrc bytes mdd :
  state zinfo = ZVOL_INFO_STATE_ONLINE ->
  is_io_ack_sender_created zinfo = true ->
  uzfs_read_data (zv zinfo) off n true = (rrc, bytes, mdd) ->
  exists zinfo' c,
    uzfs_zvol_rebuild_scanner_callback hdr0 off n md zinfo fd s
    = Some (Done (0, zinfo', s))
    /\ complete_queue zinfo' = complete_queue zinfo ++ [c]
    /\ io_ack_cond zinfo'
       = (if io_ack_waiting zinfo then S (io_ack_cond zinfo)
          else io_ack_cond zinfo)
    /\ conn c = fd
    /\ buf c = Some bytes
    /\ metadata_desc c = mdd
    /\ hdr c
       = mk_hdr REPLICA_VERSION ZVOL_OPCODE_READ ZVOL_OP_FLAG_REBUILD
           (if rrc =? 0 then ZVOL_OP_STATUS_OK else ZVOL_OP_STATUS_FAILED)
           (blk_io_num md) (checkpointed_io_seq hdr0) off
           (if rrc =? 0 then n else 0)
    /\ state zinfo' = ZVOL_INFO_STATE_ONLINE
    /\ is_io_ack_sender_created zinfo' = true.
Proof. exact (callback_read hdr0 off n md zinfo fd s rrc bytes mdd). Qed.

End CallbackProps.

(** ** The rebuild scanner *)

Section ScannerProps.
Context {W : Type} {SYS : Sys W} {WIRE : Wire}.
Context {store : Type} {BS : BlockStore (zvol_state_t store)}.
Context {DW : DiffWalk (zvol_state_t store)}.
Context (uzfs_zinfo_lookup : list byte -> option (zvol_info_t store)).
Context (in_ack : nat -> option zvol_io_cmd_t).
Context (cb_hdr0 : zvol_io_hdr_t).

(** Every returning run of the scanner leaves through [exit:]. *)
Lemma scanner_run_inv (J : option (zvol_info_t store) -> Prop)
    io_fuel ack_fuel fd :
  (forall name zl, J None -> uzfs_zinfo_lookup name = Some zl -> J (Some zl)) ->
  (forall h z s rc z' s' h',
     J (Some z) ->
     scanner_rebuild_step cb_hdr0 fd h z s = Some (Done (rc, z', s', h')) ->
     J (Some z')) ->
  forall fuel (st : scan_state W store) rc st',
  scanner_run uzfs_zinfo_lookup in_ack cb_hdr0 io_fuel ack_fuel fuel fd st
  = Some (Done (rc, st')) ->
  J (sc_zinfo st) ->
  exists rc0 st0,
    scanner_exit in_ack ack_fuel fd rc0 st0 = Some (Done (rc, st'))
    /\ J (sc_zinfo st0).
Proof.
  intros Hlook Hstep.
  induction fuel as [|fuel IH]; intros st rc st' H HJ; [discriminate|].
  cbn [scanner_run] in H.
  destruct (uzfs_zvol_read_header io_fuel (sc_world st) fd (sc_hdr st))
    as [[[rch mem] w]|]; [|discriminate].
  cbn [sc_zinfo sc_sched sc_world sc_hdr] in H.
  destruct (negb (rch =? 0) || _); [eauto|].
  destruct (negb (opcode_eqb _ _) && _); [eauto|].
  destruct (opcode (hdr_of_bytes mem)); eauto.
  - destruct (uzfs_zvol_socket_read io_fuel w fd [] _) as [[[rcn name] w2]|];
      [|discriminate].
    destruct (negb (rcn =? 0)); [eauto|].
    destruct (sc_zinfo st) as [z|] eqn:Ez; [eauto|].
    destruct (uzfs_zinfo_lookup name) as [zl|] eqn:El.
    + apply IH in H; [exact H|]. cbn. eapply Hlook; eassumption.
    + exists (-1), (mk_scan w2 None (sc_sched st) mem). split; [exact H|].
      exact HJ.
  - destruct (sc_zinfo st) as [z|] eqn:Ez; [|discriminate].
    destruct (scanner_rebuild_step cb_hdr0 fd (hdr_of_bytes mem) z (sc_sched st))
      as [[[[[rcs z'] s'] h']|]|] eqn:Es; try discriminate.
    assert (HJ' : J (Some z')) by (eapply Hstep; eassumption).
    destruct (negb (rcs =? 0)).
    + eexists _, _. split; [exact H|]. exact HJ'.
    + apply IH in H; [exact H|]. exact HJ'.
Qed.

Lemma scanner_inv (J : option (zvol_info_t store) -> Prop)
    io_fuel ack_fuel fuel fd w mem0 s rc st' :
  (forall name zl, uzfs_zinfo_lookup name = Some zl -> J (Some zl)) ->
  (forall h z s rc z' s' h',
     J (Some z) ->
     scanner_rebuild_step cb_hdr0 fd h z s = Some (Done (rc, z', s', h')) ->
     J (Some z')) ->
  J None ->
  uzfs_zvol_rebuild_scanner uzfs_zinfo_lookup in_ack cb_hdr0 io_fuel ack_fuel
    fuel fd w mem0 s = Some (Done (rc, st')) ->
  exists rc0 st0,
    scanner_exit in_ack ack_fuel fd rc0 st0 = Some (Done (rc, st'))
    /\ J (sc_zinfo st0).
Proof.
  intros Hlook Hstep H0 H. unfold uzfs_zvol_rebuild_scanner in H.
  destruct (sys_setsockopt w fd) as [rcs w0].
  destruct (negb (rcs =? 0)).
  - eexists _, _. split; [exact H|]. exact H0.
  - eapply scanner_run_inv in H; eauto.
Qed.

Lemma scanner_exit_inv ack_fuel fd rc0 (st0 : scan_state W store) rc st' :
  scanner_exit in_ack ack_fuel fd rc0 st0 = Some (Done (rc, st')) ->
  rc = rc0
  /\ sc_world st' = sys_close (sc_world st0) fd
  /\ sc_sched st' = sc_sched st0
  /\ sc_hdr st' = sc_hdr st0
  /\ match sc_zinfo st0 with
     | None => sc_zinfo st' = None
     | Some z =>
         exists p,
           remove_pending_cmds_to_ack ack_fuel fd z in_ack = Some (Done p)
           /\ sc_zinfo st' = Some (uzfs_zinfo_drop_refcnt (pg_zinfo p))
     end.
Proof.
  unfold scanner_exit. intros H.
  destruct (sc_zinfo st0) as [z|].
  - destruct (remove_pending_cmds_to_ack ack_fuel fd z in_ack) as [[p|]|];
      try discriminate.
    inversion H; subst; cbn. eauto 10.
  - inversion H; subst; cbn. auto.
Qed.

(** X26.  Every run of [uzfs_zvol_rebuild_scanner] that returns ends by
    closing its socket, and leaves no command of this connection in the
    [complete_queue] of the volume it served. *)
Theorem scanner_closes_and_purges io_fuel ack_fuel fuel fd w mem0 s rc st' :
  uzfs_zvol_rebuild_scanner uzfs_zinfo_lookup in_ack cb_hdr0 io_fuel ack_fuel
    fuel fd w mem0 s = Some (Done (rc, st')) ->
  (exists w0, sc_world st' = sys_close w0 fd)
  /\ match sc_zinfo st' with
     | Some z => Forall (fun c => conn c <> fd) (complete_queue z)
     | None => True
     end.
Proof.
  intros H.
  destruct (scanner_inv (fun _ => True) io_fuel ack_fuel fuel fd w mem0 s rc st')
    as [rc0 [st0 [He _]]]; auto.
  destruct (scanner_exit_inv _ _ _ _ _ _ He) as [_ [Hw [_ [_ Hz]]]].
  split; [eauto|].
  destruct (sc_zinfo st0) as [z|].
  - destruct Hz as [p [Hp ->]]. cbn.
    apply (remove_pending_inv _ _ _ _ _ Hp).
  - rewrite Hz. exact I.
Qed.

(** X27.  Before the handshake the scanner serves nothing.  If
    [setsockopt] fails it returns that code at once; if the first header
    cannot be read (-1), has another version (1), or has an opcode other
    than HANDSHAKE (-1), it returns after that one header.  In each case no
    volume has been looked up, nothing more has been read, and the socket
    is closed. *)
Theorem scanner_wants_handshake_first io_fuel ack_fuel fuel fd w mem0 s :
  (forall rc w0,
     sys_setsockopt w fd = (rc, w0) -> rc <> 0 ->
     uzfs_zvol_rebuild_scanner uzfs_zinfo_lookup in_ack cb_hdr0 io_fuel
       ack_fuel fuel fd w mem0 s
     = Some (Done (rc, mk_scan (sys_close w0 fd) None s mem0)))
  /\ (forall w0 rc mem w1,
        sys_setsockopt w fd = (0, w0) ->
        uzfs_zvol_read_header io_fuel w0 fd mem0 = Some (rc, mem, w1) ->
        rc <> 0 \/ opcode (hdr_of_bytes mem) <> ZVOL_OPCODE_HANDSHAKE ->
        uzfs_zvol_rebuild_scanner uzfs_zinfo_lookup in_ack cb_hdr0 io_fuel
          ack_fuel (S fuel) fd w mem0 s
        = Some (Done (if rc =? 0 then -1 else rc,
                      mk_scan (sys_close w1 fd) None s mem))).
Proof.
  split.
  - intros rc w0 Hs Hrc. unfold uzfs_zvol_rebuild_scanner. rewrite Hs.
    apply Z.eqb_neq in Hrc. rewrite Hrc. reflexivity.
  - intros w0 rc mem w1 Hs Hh Hbad. unfold uzfs_zvol_rebuild_scanner.
    rewrite Hs. cbn [Z.eqb negb scanner_run sc_world sc_hdr sc_zinfo sc_sched].
    rewrite Hh. cbn [sc_world sc_hdr sc_zinfo sc_sched].
    destruct (rc =? 0) eqn:Erc; cbn [negb orb]; [|reflexivity].
    apply Z.eqb_eq in Erc. destruct Hbad as [Hbad | Hbad]; [congruence|].
    destruct (opcode_eqb (opcode (hdr_of_bytes mem)) ZVOL_OPCODE_HANDSHAKE) eqn:Eo.
    { apply opcode_eqb_eq in Eo. congruence. }
    reflexivity.
Qed.

(** X28.  A HANDSHAKE header whose name has been read.  On a connection
    that already serves a volume it is an error: the scanner leaves
    through [exit:] with -1.  On a fresh connection the name is looked up:
    an unknown volume ends the connection with -1 and no volume attached; a
    known one is attached and the scanner reads the next header. *)
Theorem scanner_handshake io_fuel ack_fuel fuel fd (st : scan_state W store)
    mem w1 name w2 :
  uzfs_zvol_read_header io_fuel (sc_world st) fd (sc_hdr st)
  = Some (0, mem, w1) ->
  opcode (hdr_of_bytes mem) = ZVOL_OPCODE_HANDSHAKE ->
  uzfs_zvol_socket_read io_fuel w1 fd [] (len (hdr_of_bytes mem))
  = Some (0, name, w2) ->
  match sc_zinfo st with
  | Some z =>
      state z = ZVOL_INFO_STATE_ONLINE ->
      scanner_run uzfs_zinfo_lookup in_ack cb_hdr0 io_fuel ack_fuel (S fuel)
        fd st
      = scanner_exit in_ack ack_fuel fd (-1)
          (mk_scan w2 (Some z) (sc_sched st) mem)
  | None =>
      scanner_run uzfs_zinfo_lookup in_ack cb_hdr0 io_fuel ack_fuel (S fuel)
        fd st
      = match uzfs_zinfo_lookup name with
        | Some zl =>
            scanner_run uzfs_zinfo_lookup in_ack cb_hdr0 io_fuel ack_fuel fuel fd
              (mk_scan w2 (Some zl) (sc_sched st) mem)
        | None =>
            Some (Done (-1, mk_scan (sys_close w2 fd) None (sc_sched st) mem))
        end
  end.
Proof.
  intros Hh Ho Hn. cbn [scanner_run]. rewrite Hh.
  cbn [sc_world sc_hdr sc_zinfo sc_sched Z.eqb negb orb]. rewrite Ho.
  cbn [opcode_eqb negb andb]. rewrite Hn. cbn [Z.eqb negb].
  destruct (sc_zinfo st) as [z|].
  - intros Hon. rewrite Hon. reflexivity.
  - destruct (uzfs_zinfo_lookup name); reflexivity.
Qed.

(** While [uzfs_get_io_diff] runs, what every call of the callback keeps of
    the volume record is kept. *)
Lemma scanner_walk_keeps (Q : zvol_info_t store -> Prop) fd z low off n zi s :
  walks_by_callbacks DW ->
  (forall o l m zi0 s0 rc1 zi1 s1,
     Q zi0 ->
     uzfs_zvol_rebuild_scanner_callback cb_hdr0 o l m zi0 fd s0
     = Some (Done (rc1, zi1, s1)) ->
     Q zi1) ->
  Q zi ->
  match snd (uzfs_get_io_diff z low (scanner_callback cb_hdr0 fd) off n
               (Some (Done (zi, s)))) with
  | Some (Done (zi', _)) => Q zi'
  | _ => True
  end.
Proof.
  intros Hwalk Hcb HQ.
  apply (Hwalk walk_state
           (fun a => match a with Some (Done (zi', _)) => Q zi' | _ => True end)).
  - exact HQ.
  - intros o l m [[[zi0 s0]|]|] Ha; cbn; auto.
    destruct (uzfs_zvol_rebuild_scanner_callback cb_hdr0 o l m zi0 fd s0)
      as [[[[rc1 zi1] s1]|]|] eqn:E; cbn; auto.
    eapply Hcb; eassumption.
Qed.

Lemma worker_done_refcnt (zinfo : zvol_info_t store) zio_cmd s r :
  uzfs_zvol_worker zinfo zio_cmd s = Some (Done r) ->
  refcnt (w_zinfo r) = refcnt zinfo - 1.
Proof.
  intros H.
  destruct (valid_for_worker zinfo zio_cmd) eqn:Hv.
  - destruct (worker_returns zinfo zio_cmd s Hv) as [r' [H' P]].
    rewrite H in H'. inversion H'; subst r'. apply (post_refcnt _ _ _ P).
  - rewrite worker_panics in H by exact Hv. discriminate.
Qed.

Lemma scanner_rebuild_step_refcnt fd h (z : zvol_info_t store) s rc z' s' h' :
  walks_by_callbacks DW ->
  scanner_rebuild_step cb_hdr0 fd h z s = Some (Done (rc, z', s', h')) ->
  refcnt z' = refcnt z.
Proof.
  intros Hwalk H. unfold scanner_rebuild_step in H.
  pose proof (scanner_walk_keeps (fun zi => refcnt zi = refcnt z) fd (zv z)
                (mk_blk_metadata (checkpointed_io_seq h)) (offset h) (len h)
                z s Hwalk) as Hk.
  destruct (uzfs_get_io_diff _ _ _ _ _ _) as [rcw a].
  cbn [snd] in Hk.
  destruct a as [[[z1 s1]|]|]; try discriminate.
  assert (H1 : refcnt z1 = refcnt z).
  { apply Hk; [|reflexivity].
    intros o l m zi0 s0 rc1 zi1 s1' HQ Hc.
    destruct (callback_balance cb_hdr0 o l m zi0 fd s0)
      as [rc2 [zi2 [Hc2 [Hr2 _]]]].
    rewrite Hc in Hc2. inversion Hc2; subst. lia. }
  destruct (negb (rcw =? 0)).
  - inversion H; subst. exact H1.
  - destruct (uzfs_zvol_worker _ _ _) as [[r|]|] eqn:Ew; try discriminate.
    inversion H; subst. rewrite (worker_done_refcnt _ _ _ _ Ew). cbn. lia.
Qed.

(** X29.  If [uzfs_get_io_diff] acts on the volume record through its
    callback only, a scanner that has attached a volume returns with the
    refcount one below the one [uzfs_zinfo_lookup] handed over: the
    references taken for the reads and the STEP_DONE commands are all
    dropped by the worker, and the lookup's reference once, at [exit:]. *)
Theorem scanner_drops_lookup_refcnt io_fuel ack_fuel fuel fd w mem0 s rc st' :
  walks_by_callbacks DW ->
  uzfs_zvol_rebuild_scanner uzfs_zinfo_lookup in_ack cb_hdr0 io_fuel ack_fuel
    fuel fd w mem0 s = Some (Done (rc, st')) ->
  match sc_zinfo st' with
  | None => True
  | Some z' =>
      exists name zl,
        uzfs_zinfo_lookup name = Some zl /\ refcnt z' = refcnt zl - 1
  end.
Proof.
  intros Hwalk H.
  destruct (scanner_inv
              (fun o => match o with
                        | None => True
                        | Some z => exists name zl,
                            uzfs_zinfo_lookup name = Some zl
                            /\ refcnt z = refcnt zl
                        end)
              io_fuel ack_fuel fuel fd w mem0 s rc st')
    as [rc0 [st0 [He HJ]]]; auto.
  - intros name zl Hl. eauto.
  - intros h z s0 rc1 z1 s1 h1 [name [zl [Hl Hr]]] Hs.
    exists name, zl. split; [exact Hl|].
    rewrite (scanner_rebuild_step_refcnt _ _ _ _ _ _ _ _ Hwalk Hs). exact Hr.
  - destruct (scanner_exit_inv _ _ _ _ _ _ He) as [_ [_ [_ [_ Hz]]]].
    destruct (sc_zinfo st0) as [z|].
    + destruct Hz as [p [Hp ->]]. destruct HJ as [name [zl [Hl Hr]]].
      exists name, zl. split; [exact Hl|].
      destruct (remove_pending_inv _ _ _ _ _ Hp) as [_ [_ [Hpz _]]].
      rewrite Hpz. cbn. lia.
    + rewrite Hz. exact I.
Qed.

(** X30.  One REBUILD_STEP on an online volume with an ack sender, under
    the same proviso: the queue gains READ completions of this connection
    with the REBUILD flag, and then, when the walk returned 0, the
    STEP_DONE command, behind all of them.  When the walk failed no
    STEP_DONE is queued. *)
Theorem scanner_step_done_is_barrier fd h (z : zvol_info_t store) s rc z' s' h' :
  walks_by_callbacks DW ->
  state z = ZVOL_INFO_STATE_ONLINE ->
  is_io_ack_sender_created z = true ->
  scanner_rebuild_step cb_hdr0 fd h z s = Some (Done (rc, z', s', h')) ->
  exists reads,
    Forall (rebuild_read_for fd) reads
    /\ complete_queue z'
       = complete_queue z ++ reads
         ++ (if rc =? 0 then [step_done_cmd fd] else []).
Proof.
  intros Hwalk Hon Hack H. unfold scanner_rebuild_step in H.
  set (Q := fun zi : zvol_info_t store =>
              state zi = ZVOL_INFO_STATE_ONLINE
              /\ is_io_ack_sender_created zi = true
              /\ exists reads,
                   Forall (rebuild_read_for fd) reads
                   /\ complete_queue zi = complete_queue z ++ reads).
  pose proof (scanner_walk_keeps Q fd (zv z)
                (mk_blk_metadata (checkpointed_io_seq h)) (offset h) (len h)
                z s Hwalk) as Hk.
  destruct (uzfs_get_io_diff _ _ _ _ _ _) as [rcw a].
  cbn [snd] in Hk.
  destruct a as [[[z1 s1]|]|]; try discriminate.
  assert (H1 : Q z1).
  { apply Hk.
    - intros o l m zi0 s0 rc1 zi1 s1' [Q1 [Q2 [reads [Q3 Q4]]]] Hc.
      destruct (uzfs_read_data (zv zi0) o l true) as [[rrc bytes] mdd] eqn:Erd.
      destruct (callback_read cb_hdr0 o l m zi0 fd s0 rrc bytes
                  mdd Q1 Q2 Erd)
        as [zi2 [c [Hc2 [Hq [_ [Hcn [_ [_ [Hh [Hs2 Ha2]]]]]]]]]].
      rewrite Hc in Hc2. inversion Hc2; subst.
      split; [exact Hs2|]. split; [exact Ha2|].
      exists (reads ++ [c]). split.
      + apply Forall_app. split; [exact Q3|]. constructor; [|constructor].
        unfold rebuild_read_for. rewrite Hh. cbn. auto.
      + rewrite Hq, Q4, app_assoc. reflexivity.
    - unfold Q. split; [exact Hon|]. split; [exact Hack|].
      exists []. split; [constructor | rewrite app_nil_r; reflexivity]. }
  destruct H1 as [Q1 [Q2 [reads [Q3 Q4]]]].
  destruct (rcw =? 0) eqn:Erc; cbn [negb] in H.
  - destruct (uzfs_zvol_worker _ _ _) as [[r|]|] eqn:Ew; try discriminate.
    inversion H; subst. rewrite Erc. exists reads. split; [exact Q3|].
    assert (Hzon : state (uzfs_zinfo_take_refcnt z1) = ZVOL_INFO_STATE_ONLINE)
      by exact Q1.
    destruct (worker_tail _ _ _ _ Ew Hzon eq_refl) as [_ [_ Hq]].
    change (is_io_ack_sender_created (uzfs_zinfo_take_refcnt z1))
      with (is_io_ack_sender_created z1) in Hq.
    rewrite Q2 in Hq. destruct Hq as [Hq _].
    rewrite Hq. cbn [complete_queue uzfs_zinfo_take_refcnt set_refcnt].
    rewrite Q4, <- app_assoc. do 2 f_equal.
    destruct (worker_header _ _ _ _ Ew)
      as [A1 [A2 [A3 [A4 [A5 [A6 [A7 A8]]]]]]].
    destruct (worker_online_inv _ _ _ _ Hzon Ew)
      as [want [c1 [rc1 [r0 [c2 [_ [Hc1 [E [Hc2 [Hc _]]]]]]]]]].
    destruct (worker_exec_inv _ _ _ _ _ _ E)
      as [[Ho _] | [[Ho _] | [[Ho _] | [Ho [Hrc Hr0]]]]];
      try (exfalso; revert Ho; subst c1; destruct want; cbn; discriminate).
    rewrite Hc, Hc2, Hr0, Hrc. subst c1. cbn.
    destruct want; reflexivity.
  - inversion H; subst. rewrite Erc. exists reads. split; [exact Q3|].
    rewrite Q4. rewrite app_nil_r. reflexivity.
Qed.

End ScannerProps.

(** ** Worked examples *)

Example write_two_chunks :
  match uzfs_zvol_worker (BS := mem_blockstore) zinfo0 cmd_write [] with
  | Some (Done r) =>
      status (hdr (w_cmd r)) = ZVOL_OP_STATUS_OK
      /\ running_ionum (w_zinfo r) = 7
      /\ refcnt (w_zinfo r) = 0
      /\ length (complete_queue (w_zinfo r)) = 1%nat
      /\ map wc_io_num (w_writes r) = [7; 3]
      /\ map wc_offset (w_writes r) = [4096; 4100]
      /\ w_cas r = [ev_cas 0 0 7 7]
  | _ => False
  end.
Proof. vm_compute. repeat split; reflexivity. Qed.

Example write_offline :
  match uzfs_zvol_worker (BS := mem_blockstore) zinfo_offline cmd_write [] with
  | Some (Done r) =>
      status (hdr (w_cmd r)) = ZVOL_OP_STATUS_FAILED
      /\ len (hdr (w_cmd r)) = 0
      /\ w_freed r = true
      /\ w_writes r = []
      /\ complete_queue (w_zinfo r) = []
      /\ refcnt (w_zinfo r) = 0
  | _ => False
  end.
Proof. vm_compute. repeat split; reflexivity. Qed.

Example handshake_panics :
  uzfs_zvol_worker (BS := mem_blockstore) zinfo0
    (zio_cmd_alloc (set_opcode hdr_sync ZVOL_OPCODE_HANDSHAKE) 9) []
  = Some Panic.
Proof. reflexivity. Qed.

Example bad_version_is_not_consumed :
  match uzfs_zvol_read_header (SYS := script_sys) (WIRE := spec_wire) 4
          bad_version_world 3 (repeat Byte.x00 44) with
  | Some (rc, _, w) => rc = 1 /\ rd_script w = [Ret (repeat Byte.x2a 42)]
  | None => False
  end.
Proof. vm_compute. split; reflexivity. Qed.

Example rebuild_with_failed_complete :
  match uzfs_zvol_rebuild_dw_replica (SYS := script_sys) (WIRE := spec_wire)
          (BS := mem_blockstore) 10737418240 8 8 rebuild_args_vol1
          rebuild_world zinfo_rebuilding 0 [] with
  | Some (Done (rc, st)) =>
      rc = 0
      /\ rebuild_failed_cnt (zv (dw_zinfo st)) = 0
      /\ rebuild_done_cnt (zv (dw_zinfo st)) = 1
      /\ zv_rebuild_status (zv (dw_zinfo st)) = ZVOL_REBUILDING_DONE
      /\ zv_status (zv (dw_zinfo st)) = ZVOL_STATUS_HEALTHY
      /\ zv_objset (zv (dw_zinfo st))
         = [(4096, [Byte.x01; Byte.x02; Byte.x03; Byte.x04], 7)]
      /\ running_ionum (dw_zinfo st) = 7
      /\ refcnt (dw_zinfo st) = 1
      /\ dw_timer_cv st = 1%nat
      /\ closed (dw_world st) = [5]
  | _ => False
  end.
Proof. vm_compute. repeat split; reflexivity. Qed.

(** ** The theorems at concrete inputs *)

Lemma running_ionum_monotonic_witness :
  never_lowers overtaking_thread
  /\ exists r,
       uzfs_submit_writes (BS := mem_blockstore) zinfo0 cmd_write
         overtaking_thread = Some r
       /\ sub_cas r
          = [ev_others 0 0; ev_others 0 100; ev_cas 100 0 7 100;
             ev_others 100 100]
       /\ running_ionum (sub_zinfo r) = 100
       /\ cas_raises (sub_cas r)
       /\ StronglySorted Z.le (ionum_values (running_ionum zinfo0) (sub_cas r))
       /\ sub_rc r = 0
       /\ 7 <= running_ionum (sub_zinfo r)
       /\ 3 <= running_ionum (sub_zinfo r)
       /\ running_ionum zinfo0 <= running_ionum (sub_zinfo r).
Proof.
  assert (H : never_lowers overtaking_thread).
  { repeat constructor; intros x; lia. }
  split; [exact H|].
  destruct (running_ionum_monotonic (BS := mem_blockstore) zinfo0 cmd_write
              overtaking_thread) as [r [Hr [_ [Hc Hn]]]].
  destruct (Hn H) as [Hsorted [H2 [_ H4]]].
  exists r. split; [exact Hr|].
  assert (Hlog : sub_cas r
                 = [ev_others 0 0; ev_others 0 100; ev_cas 100 0 7 100;
                    ev_others 100 100]
                 /\ running_ionum (sub_zinfo r) = 100).
  { pose proof Hr as Hv. vm_compute in Hv. injection Hv as <-.
    split; reflexivity. }
  split; [exact (proj1 Hlog)|]. split; [exact (proj2 Hlog)|].
  split; [exact Hc|]. split; [exact Hsorted|].
  edestruct (H4 two_chunks) as [Hrc Hio].
  - repeat constructor; vm_compute; congruence.
  - reflexivity.
  - reflexivity.
  - vm_compute. reflexivity.
  - split; [exact Hrc|]. split; [|split; [|exact H2]].
    + apply (Hio (7, [Byte.x01; Byte.x02; Byte.x03; Byte.x04])). left. reflexivity.
    + apply (Hio (3, [Byte.x05; Byte.x06])). right. left. reflexivity.
Defined.

Lemma worker_drops_refcnt_once_witness :
  exists r,
    uzfs_zvol_worker (BS := mem_blockstore) zinfo0 cmd_sync [] = Some (Done r)
    /\ refcnt (w_zinfo r) = refcnt zinfo0 - 1.
Proof.
  destruct (worker_drops_refcnt_once (BS := mem_blockstore) zinfo0 cmd_sync [])
    as [[r|] [H P]].
  - exists r. split; [exact H | exact P].
  - vm_compute in P. discriminate P.
Defined.

Lemma rebuild_write_never_queued_witness :
  opcode (hdr cmd_rebuild_write) = ZVOL_OPCODE_WRITE
  /\ Z.land (flags (hdr cmd_rebuild_write)) ZVOL_OP_FLAG_REBUILD <> 0
  /\ exists r,
       uzfs_zvol_worker (BS := mem_blockstore) zinfo0 cmd_rebuild_write []
       = Some (Done r)
       /\ complete_queue (w_zinfo r) = complete_queue zinfo0.
Proof.
  split; [reflexivity|]. split; [vm_compute; congruence|].
  apply (proj1 (rebuild_write_never_queued (BS := mem_blockstore) zinfo0
                  cmd_rebuild_write [])).
  - reflexivity.
  - vm_compute; congruence.
Defined.

Lemma worker_offline_fails_witness :
  state zinfo_offline = ZVOL_INFO_STATE_OFFLINE
  /\ exists r,
       uzfs_zvol_worker (BS := mem_blockstore) zinfo_offline cmd_write []
       = Some (Done r)
       /\ status (hdr (w_cmd r)) = ZVOL_OP_STATUS_FAILED
       /\ len (hdr (w_cmd r)) = 0
       /\ complete_queue (w_zinfo r) = complete_queue zinfo_offline
       /\ w_freed r = true
       /\ refcnt (w_zinfo r) = refcnt zinfo_offline - 1
       /\ zv (w_zinfo r) = zv zinfo_offline
       /\ w_writes r = [].
Proof.
  split; [reflexivity|].
  destruct (worker_offline_fails (BS := mem_blockstore) zinfo_offline cmd_write
              [] eq_refl) as [[r|] [H P]].
  - exists r. split; [exact H | exact P].
  - destruct P as [_ P]. vm_compute in P. discriminate P.
Defined.

Lemma read_header_codes_witness :
  (0 <= sizeof_version (Wire := spec_wire) <= sizeof_hdr (Wire := spec_wire))
  /\ sizeof_hdr (Wire := spec_wire) < 2 ^ 64
  /\ exists mem w',
       uzfs_zvol_read_header (SYS := script_sys) (WIRE := spec_wire) 4
         bad_version_world 3 (repeat Byte.x00 44) = Some (1, mem, w')
       /\ exists vb,
            uzfs_zvol_socket_read (SYS := script_sys) 4 bad_version_world 3 [] 2
            = Some (0, vb, w')
            /\ Z.of_nat (length vb) = 2.
Proof.
  assert (H1 : 0 <= sizeof_version (Wire := spec_wire)
               <= sizeof_hdr (Wire := spec_wire)) by (cbn; lia).
  assert (H2 : sizeof_hdr (Wire := spec_wire) < 2 ^ 64) by (cbn; lia).
  split; [exact H1|]. split; [exact H2|].
  pose proof (read_header_codes (SYS := script_sys) (WIRE := spec_wire) 4
                bad_version_world 3 (repeat Byte.x00 44) H1 H2) as T.
  destruct (uzfs_zvol_read_header 4 bad_version_world 3 (repeat Byte.x00 44))
    as [[[rc mem] w']|] eqn:E; [|vm_compute in E; discriminate].
  assert (Hrc : rc = 1) by (vm_compute in E; congruence).
  subst rc. exists mem, w'. split; [reflexivity|].
  destruct T as [rc1 [vb [w1 [T1 [T2 [T3 _]]]]]].
  destruct (proj1 T2 ltac:(lia)) as [-> _].
  destruct (T3 ltac:(lia)) as [-> [_ Hl]].
  exists vb. split; [exact T1 | exact Hl].
Defined.

Lemma rebuild_complete_counts_as_success_witness :
  ZVOL_IS_REBUILDING_ERRORED (zv (dw_zinfo dw_at_end)) = false
  /\ ZVOL_VOLUME_SIZE (zv (dw_zinfo dw_at_end)) <= dw_offset dw_at_end
  /\ uzfs_zvol_socket_write (SYS := script_sys) 8 (dw_world dw_at_end) 5
       (hdr_to_bytes (Wire := spec_wire)
          (set_opcode (dw_hdr dw_at_end) ZVOL_OPCODE_REBUILD_COMPLETE))
       (sizeof_hdr (Wire := spec_wire))
     = Some (-1, mk_world [] [] true 0 0 [] [])
  /\ exists st',
       dw_run (SYS := script_sys) (WIRE := spec_wire) (BS := mem_blockstore)
         10737418240 8 1 5 0 next_step dw_at_end = Some (Done (0, st'))
       /\ rebuild_failed_cnt (zv (dw_zinfo st')) = 0
       /\ rebuild_done_cnt (zv (dw_zinfo st')) = 1
       /\ zv_rebuild_status (zv (dw_zinfo st')) <> ZVOL_REBUILDING_ERRORED.
Proof.
  assert (Hw : uzfs_zvol_socket_write (SYS := script_sys) 8
                 (dw_world dw_at_end) 5
                 (hdr_to_bytes (Wire := spec_wire)
                    (set_opcode (dw_hdr dw_at_end) ZVOL_OPCODE_REBUILD_COMPLETE))
                 (sizeof_hdr (Wire := spec_wire))
               = Some (-1, mk_world [] [] true 0 0 [] []))
    by (vm_compute; reflexivity).
  split; [reflexivity|]. split; [vm_compute; congruence|].
  split; [exact Hw|].
  destruct (rebuild_complete_counts_as_success (SYS := script_sys)
              (WIRE := spec_wire) (BS := mem_blockstore)
              10737418240 8 0 5 0 dw_at_end (-1) (mk_world [] [] true 0 0 [] []))
    as [st' [H1 [H2 [H3 [H4 _]]]]].
  - reflexivity.
  - vm_compute; congruence.
  - exact Hw.
  - exists st'. split; [exact H1|]. split; [exact H2|]. split; [|exact H4].
    rewrite H3. reflexivity.
Defined.

Lemma update_ionum_interval_zero_on_zero_witness :
  update_ionum_interval zinfo_interval_0 = 0
  /\ uzfs_update_ionum_interval zinfo_interval_0 0 7 = (zinfo_interval_0, 7%nat).
Proof.
  split; [reflexivity|].
  apply (update_ionum_interval_zero_on_zero zinfo_interval_0 7). reflexivity.
Defined.

Lemma truncated_write_not_atomic_witness :
  never_lowers one_other_thread
  /\ Forall chunk_wf one_chunk
  /\ truncated cut_tail
  /\ exists r,
       uzfs_submit_writes (BS := mem_blockstore) zinfo0 cmd_truncated
         one_other_thread = Some r
       /\ sub_rc r = -1
       /\ zv_objset (zv (sub_zinfo r))
          = [(4096, [Byte.x01; Byte.x02; Byte.x03; Byte.x04], 7)]
       /\ 7 <= running_ionum (sub_zinfo r)
       /\ exists wr,
            uzfs_zvol_worker (BS := mem_blockstore) zinfo0 cmd_truncated
              one_other_thread = Some (Done wr)
            /\ status (hdr (w_cmd wr)) = ZVOL_OP_STATUS_FAILED
            /\ len (hdr (w_cmd wr)) = 0
            /\ zv_objset (zv (w_zinfo wr))
               = [(4096, [Byte.x01; Byte.x02; Byte.x03; Byte.x04], 7)].
Proof.
  assert (H1 : never_lowers one_other_thread).
  { constructor; [intros x; lia | constructor]. }
  assert (H2 : Forall chunk_wf one_chunk).
  { repeat constructor; vm_compute; congruence. }
  assert (H3 : truncated cut_tail).
  { split; [vm_compute; congruence | left; vm_compute; reflexivity]. }
  split; [exact H1|]. split; [exact H2|]. split; [exact H3|].
  edestruct (truncated_write_not_atomic (BS := mem_blockstore) zinfo0
               cmd_truncated one_other_thread one_chunk cut_tail)
    as [r [Hr [Hrc [_ [Hz [Hio [wr [Hw [Hs [Hl [_ [Hwz _]]]]]]]]]]]].
  - exact H1.
  - exact H2.
  - exact H3.
  - reflexivity.
  - reflexivity.
  - reflexivity.
  - reflexivity.
  - vm_compute. reflexivity.
  - exists r. split; [exact Hr|]. split; [exact Hrc|].
    split; [rewrite Hz; reflexivity|].
    split; [apply (Hio (7, [Byte.x01; Byte.x02; Byte.x03; Byte.x04]));
            left; reflexivity|].
    exists wr. split; [exact Hw|]. split; [exact Hs|]. split; [exact Hl|].
    rewrite Hwz. reflexivity.
Defined.

Lemma stuck_world_stays p n k :
  Nat.iter k (fun w0 => snd (write (SYS := script_sys) w0 3 p n)) stuck_world
  = stuck_world.
Proof.
  induction k as [|k IH]; [reflexivity|].
  change (snd (write (SYS := script_sys)
                 (Nat.iter k (fun w0 => snd (write (SYS := script_sys) w0 3 p n))
                    stuck_world) 3 p n) = stuck_world).
  rewrite IH. reflexivity.
Qed.

Lemma open_world_takes_all (w : world) p n :
  wr_script w = [] /\ wr_open w = true ->
  0 < n ->
  0 < count (fst (write (SYS := script_sys) w 3 p n))
  /\ (wr_script (snd (write (SYS := script_sys) w 3 p n)) = []
      /\ wr_open (snd (write (SYS := script_sys) w 3 p n)) = true).
Proof.
  intros [Hs Ho] Hn. unfold write. cbn [sys_write script_sys].
  unfold world_write. rewrite Hs, Ho. cbn. split; [lia | auto].
Qed.

Lemma socket_write_never_sees_close_witness :
  (forall fuel,
     uzfs_zvol_socket_write (SYS := script_sys) fuel stuck_world 3
       [Byte.x01; Byte.x02] 2 = None)
  /\ (exists w',
        uzfs_zvol_socket_write (SYS := script_sys) 2 open_world 3
          [Byte.x01; Byte.x02] 2 = Some (0, w'))
  /\ uzfs_zvol_socket_read (SYS := script_sys) 1 open_world 3 [] 2
     = Some (-1, [], open_world).
Proof.
  destruct (socket_write_never_sees_close (SYS := script_sys) stuck_world 3
              [Byte.x01; Byte.x02] 2) as [_ [_ [_ [_ [Hstuck _]]]]].
  destruct (socket_write_never_sees_close (SYS := script_sys) open_world 3
              [Byte.x01; Byte.x02] 2) as [_ [_ [Hread [_ [_ Hdone]]]]].
  split; [|split].
  - apply Hstuck; [lia|]. intros k. unfold nth_write.
    rewrite stuck_world_stays. reflexivity.
  - apply (Hdone (fun w => wr_script w = [] /\ wr_open w = true)).
    + intros w0 p0 n0. apply open_world_takes_all.
    + split; reflexivity.
    + lia.
  - apply (Hread ltac:(lia) eq_refl 0%nat []).
Defined.

Lemma empty_write_succeeds_witness :
  opcode hdr_empty_write = ZVOL_OPCODE_WRITE
  /\ len hdr_empty_write = 0
  /\ state zinfo0 = ZVOL_INFO_STATE_ONLINE
  /\ buf (zio_cmd_alloc hdr_empty_write 9) = Some []
  /\ buf_len (zio_cmd_alloc hdr_empty_write 9) = 0
  /\ uzfs_submit_writes (BS := mem_blockstore) zinfo0
       (zio_cmd_alloc hdr_empty_write 9) []
     = Some (mk_submit 0 zinfo0 [] [] [])
  /\ exists r,
       uzfs_zvol_worker (BS := mem_blockstore) zinfo0
         (zio_cmd_alloc hdr_empty_write 9) [] = Some (Done r)
       /\ status (hdr (w_cmd r)) = ZVOL_OP_STATUS_OK
       /\ w_writes r = []
       /\ zv (w_zinfo r) = zv zinfo0
       /\ running_ionum (w_zinfo r) = running_ionum zinfo0.
Proof.
  split; [reflexivity|]. split; [reflexivity|]. split; [reflexivity|].
  apply (empty_write_succeeds (BS := mem_blockstore) zinfo0 hdr_empty_write 9 []);
    reflexivity.
Defined.

(** ** Further worked examples *)

Example timer_turn_at_200 :
  let r := timer_turn (CS := ckpt_log_store) 200 timer_vols in
  map (fun z => zv_objset (zv z)) (fst r) = [[5]; []; []]
  /\ map checkpointed_ionum (fst r) = [12; 2; 33]
  /\ map checkpointed_time (fst r) = [200; 100; 190]
  /\ snd r = 30.
Proof. vm_compute. repeat split; reflexivity. Qed.

Example scanner_session :
  match uzfs_zvol_rebuild_scanner (SYS := script_sys) (WIRE := spec_wire)
          (BS := mem_blockstore) (DW := mem_diffwalk) registry_vol1 ack_idle
          zero_hdr 4 4 4 3 scan_world (repeat Byte.x00 44) [] with
  | Some (Done (rc, st)) =>
      rc = 0
      /\ closed (sc_world st) = [3]
      /\ rd_script (sc_world st) = []
      /\ match sc_zinfo st with
         | Some z =>
             refcnt z = 1 /\ complete_queue z = []
             /\ read_req_received_cnt z = 1
         | None => False
         end
  | _ => False
  end.
Proof. vm_compute. repeat split; reflexivity. Qed.

Example step_before_handshake :
  match uzfs_zvol_rebuild_scanner (SYS := script_sys) (WIRE := spec_wire)
          (BS := mem_blockstore) (DW := mem_diffwalk) registry_vol1 ack_idle
          zero_hdr 4 4 4 3 rude_world (repeat Byte.x00 44) [] with
  | Some (Done (rc, st)) =>
      rc = -1 /\ sc_zinfo st = None /\ closed (sc_world st) = [3]
  | _ => False
  end.
Proof. vm_compute. repeat split; reflexivity. Qed.

Example stray_opcode_is_no_handshake :
  match uzfs_zvol_rebuild_scanner (SYS := script_sys) (WIRE := spec_wire)
          (BS := mem_blockstore) (DW := mem_diffwalk) registry_vol1 ack_idle
          zero_hdr 4 4 4 3 stray_world (repeat Byte.x00 44) [] with
  | Some (Done (rc, st)) =>
      rc = -1 /\ sc_zinfo st = None /\ closed (sc_world st) = [3]
      /\ rd_script (sc_world st) = []
  | _ => False
  end.
Proof. vm_compute. repeat split; reflexivity. Qed.

(** ** The further properties at concrete inputs *)


Lemma script_sys_sends_in_order (w : world) p n :
  byte_at_a_time w -> 0 < n <= Z.of_nat (length p) ->
  sent (snd (write (SYS := script_sys) w 3 p n))
  = sent w
    ++ firstn (Z.to_nat (count (fst (write (SYS := script_sys) w 3 p n)))) p
  /\ byte_at_a_time (snd (write (SYS := script_sys) w 3 p n)).
Proof.
  intros [Hs Ho] Hn. unfold write. cbn [sys_write script_sys].
  unfold world_write, byte_at_a_time.
  destruct (wr_script w) as [|[k | e] rest] eqn:E.
  - rewrite Ho. cbn.
    replace (Z.max 0 (Z.min n n)) with n by lia. auto.
  - inversion Hs; subst. cbn.
    replace (Z.max 0 (Z.min k n)) with k by lia. auto.
  - inversion Hs; subst. cbn. auto.
Qed.

Lemma socket_write_sends_in_order_witness :
  byte_at_a_time trickle_world
  /\ exists w',
       uzfs_zvol_socket_write (SYS := script_sys) 8 trickle_world 3
         [Byte.x01; Byte.x02; Byte.x03] 3 = Some (0, w')
       /\ exists k,
            0 <= k <= 3
            /\ sent w' = sent trickle_world
                         ++ firstn (Z.to_nat k) [Byte.x01; Byte.x02; Byte.x03]
            /\ (0 = 0 -> k = 3)
            /\ (0 = -1 -> k < 3).
Proof.
  assert (HP : byte_at_a_time trickle_world).
  { split; [|reflexivity]. repeat constructor; lia. }
  split; [exact HP|].
  eexists. split; [reflexivity|].
  apply (socket_write_sends_in_order (SYS := script_sys) sent byte_at_a_time 3
           script_sys_sends_in_order 8 trickle_world
           [Byte.x01; Byte.x02; Byte.x03] 3 0 _ HP);
    [lia | cbn; lia | reflexivity].
Defined.

Lemma submit_writes_whole_payload_witness :
  Forall chunk_wf two_chunks
  /\ exists r,
       uzfs_submit_writes (BS := mem_blockstore) zinfo0 cmd_write [] = Some r
       /\ sub_rc r = 0
       /\ sub_writes r = chunk_calls 4096 false two_chunks
       /\ zv_objset (zv (sub_zinfo r))
          = [(4096, [Byte.x01; Byte.x02; Byte.x03; Byte.x04], 7);
             (4100, [Byte.x05; Byte.x06], 3)].
Proof.
  assert (Hwf : Forall chunk_wf two_chunks).
  { repeat constructor; vm_compute; congruence. }
  split; [exact Hwf|].
  destruct (submit_writes_whole_payload (BS := mem_blockstore) zinfo0 cmd_write
              [] two_chunks
              (mk_zv [(4096, [Byte.x01; Byte.x02; Byte.x03; Byte.x04], 7);
                      (4100, [Byte.x05; Byte.x06], 3)]
                     1048576 ZVOL_STATUS_HEALTHY ZVOL_REBUILDING_DONE 0 0 0)
              Hwf eq_refl eq_refl eq_refl) as [r [H1 [H2 [H3 H4]]]].
  exists r. split; [exact H1|]. split; [exact H2|]. split; [exact H3|].
  rewrite H4. reflexivity.
Defined.

Lemma submit_writes_stops_at_refusal_witness :
  Forall chunk_wf one_chunk
  /\ chunk_wf (3, [Byte.x05; Byte.x06])
  /\ EIO <> 0
  /\ exists r,
       uzfs_submit_writes (BS := mem_blockstore) zinfo0 cmd_past_end [] = Some r
       /\ sub_rc r = EIO
       /\ map wc_io_num (sub_writes r) = [7; 3]
       /\ map wc_rc (sub_writes r) = [0; EIO]
       /\ zv_objset (zv (sub_zinfo r))
          = [(1048572, [Byte.x01; Byte.x02; Byte.x03; Byte.x04], 7)].
Proof.
  assert (H1 : Forall chunk_wf one_chunk).
  { repeat constructor; vm_compute; congruence. }
  assert (H2 : chunk_wf (3, [Byte.x05; Byte.x06])).
  { split; vm_compute; [split; congruence | reflexivity]. }
  assert (H3 : EIO <> 0) by (unfold EIO; lia).
  split; [exact H1|]. split; [exact H2|]. split; [exact H3|].
  destruct (submit_writes_stops_at_refusal (BS := mem_blockstore) zinfo0
              cmd_past_end [] one_chunk (3, [Byte.x05; Byte.x06])
              (encode_chunk (9, [Byte.x07]))
              (mk_zv [(1048572, [Byte.x01; Byte.x02; Byte.x03; Byte.x04], 7)]
                     1048576 ZVOL_STATUS_HEALTHY ZVOL_REBUILDING_DONE 0 0 0)
              EIO
              (mk_zv [(1048572, [Byte.x01; Byte.x02; Byte.x03; Byte.x04], 7)]
                     1048576 ZVOL_STATUS_HEALTHY ZVOL_REBUILDING_DONE 0 0 0)
              H1 H2 eq_refl eq_refl eq_refl eq_refl H3)
    as [r [R1 [R2 [R3 R4]]]].
  exists r. split; [exact R1|]. split; [exact R2|].
  rewrite R3, R4. repeat split; reflexivity.
Defined.

Lemma worker_counts_request_witness :
  exists r,
    uzfs_zvol_worker (BS := mem_blockstore) zinfo0 cmd_write [] = Some (Done r)
    /\ read_req_received_cnt (w_zinfo r) = 0
    /\ write_req_received_cnt (w_zinfo r) = 1
    /\ sync_req_received_cnt (w_zinfo r) = 0.
Proof.
  destruct (uzfs_zvol_worker (BS := mem_blockstore) zinfo0 cmd_write [])
    as [[r|]|] eqn:Hr; try (vm_compute in Hr; discriminate Hr).
  exists r. split; [reflexivity|].
  pose proof (worker_counts_request (BS := mem_blockstore) zinfo0 cmd_write []
                r Hr) as H.
  vm_compute in H. exact H.
Defined.

Lemma worker_queues_at_tail_witness :
  state zinfo0 = ZVOL_INFO_STATE_ONLINE
  /\ is_rebuild_write (hdr cmd_sync) = false
  /\ exists r,
       uzfs_zvol_worker (BS := mem_blockstore) zinfo0 cmd_sync [] = Some (Done r)
       /\ complete_queue (w_zinfo r) = complete_queue zinfo0 ++ [w_cmd r]
       /\ w_freed r = false
       /\ io_ack_cond (w_zinfo r) = io_ack_cond zinfo0.
Proof.
  split; [reflexivity|]. split; [reflexivity|].
  destruct (uzfs_zvol_worker (BS := mem_blockstore) zinfo0 cmd_sync [])
    as [[r|]|] eqn:Hr; try (vm_compute in Hr; discriminate Hr).
  exists r. split; [reflexivity|].
  exact (proj2 (proj2 (worker_queues_at_tail (BS := mem_blockstore) zinfo0
                         cmd_sync [] r Hr eq_refl eq_refl))).
Defined.

Lemma worker_answers_in_header_witness :
  exists r,
    uzfs_zvol_worker (BS := mem_blockstore) zinfo_offline cmd_write []
    = Some (Done r)
    /\ io_seq (hdr (w_cmd r)) = 2
    /\ offset (hdr (w_cmd r)) = 4096
    /\ conn (w_cmd r) = 9
    /\ status (hdr (w_cmd r)) = ZVOL_OP_STATUS_FAILED
    /\ len (hdr (w_cmd r)) = 0.
Proof.
  destruct (uzfs_zvol_worker (BS := mem_blockstore) zinfo_offline cmd_write [])
    as [[r|]|] eqn:Hr; try (vm_compute in Hr; discriminate Hr).
  exists r. split; [reflexivity|].
  destruct (worker_answers_in_header (BS := mem_blockstore) zinfo_offline
              cmd_write [] r Hr)
    as [_ [_ [_ [A4 [_ [A6 [A7 A8]]]]]]].
  split; [exact A4|]. split; [exact A6|]. split; [exact A7|].
  destruct (status (hdr (w_cmd r))).
  - destruct A8 as [_ A8]. discriminate A8.
  - split; [reflexivity | exact A8].
Defined.

Lemma worker_read_result_witness :
  state zinfo0 = ZVOL_INFO_STATE_ONLINE
  /\ opcode (hdr cmd_read_md) = ZVOL_OPCODE_READ
  /\ exists r,
       uzfs_zvol_worker (BS := mem_blockstore) zinfo0 cmd_read_md []
       = Some (Done r)
       /\ buf (w_cmd r) = Some (repeat Byte.x00 4)
       /\ metadata_desc (w_cmd r) = Some [(mk_blk_metadata 0, 4)]
       /\ status (hdr (w_cmd r)) = ZVOL_OP_STATUS_OK
       /\ zv (w_zinfo r) = zv zinfo0.
Proof.
  split; [reflexivity|]. split; [reflexivity|].
  destruct (worker_read_result (BS := mem_blockstore) zinfo0 cmd_read_md [] 0
              (repeat Byte.x00 4) (Some [(mk_blk_metadata 0, 4)])
              eq_refl eq_refl eq_refl) as [r [R1 [R2 [R3 [R4 [R5 _]]]]]].
  exists r. split; [exact R1|]. split; [exact R2|]. split; [exact R3|].
  split; [exact R4 | exact R5].
Defined.

Lemma worker_keeps_queue_freeable_witness :
  Forall (fun c => worker_opcode (opcode (hdr c)) = true)
         (complete_queue zinfo_queued)
  /\ exists r,
       uzfs_zvol_worker (BS := mem_blockstore) zinfo_queued cmd_write []
       = Some (Done r)
       /\ length (complete_queue (w_zinfo r)) = 4%nat
       /\ Forall (fun c => worker_opcode (opcode (hdr c)) = true)
                 (complete_queue (w_zinfo r)).
Proof.
  assert (Hq : Forall (fun c => worker_opcode (opcode (hdr c)) = true)
                      (complete_queue zinfo_queued)).
  { repeat constructor. }
  split; [exact Hq|].
  destruct (uzfs_zvol_worker (BS := mem_blockstore) zinfo_queued cmd_write [])
    as [[r|]|] eqn:Hr; try (vm_compute in Hr; discriminate Hr).
  exists r. split; [reflexivity|].
  split; [vm_compute in Hr; inversion Hr; reflexivity|].
  exact (worker_keeps_queue_freeable (BS := mem_blockstore) zinfo_queued
           cmd_write [] r Hr Hq).
Defined.

Lemma update_ionum_interval_sets_witness :
  30 <> 0
  /\ update_ionum_interval (fst (uzfs_update_ionum_interval zinfo0 30 7)) = 30
  /\ snd (uzfs_update_ionum_interval zinfo0 30 7) = 8%nat.
Proof.
  assert (H : 30 <> 0) by lia.
  split; [exact H|].
  destruct (update_ionum_interval_sets zinfo0 30 7 H) as [H1 [H2 _]].
  split; [exact H1 | exact H2].
Defined.

Lemma dw_exit_verdict_witness :
  exists st',
    dw_exit (SYS := script_sys) 0 5 None dw_at_end = Done (0, st')
    /\ rebuild_done_cnt (zv (dw_zinfo st')) = 1
    /\ rebuild_failed_cnt (zv (dw_zinfo st')) = 0
    /\ zv_rebuild_status (zv (dw_zinfo st')) = ZVOL_REBUILDING_DONE
    /\ zv_status (zv (dw_zinfo st')) = ZVOL_STATUS_HEALTHY
    /\ dw_timer_cv st' = 1%nat
    /\ refcnt (dw_zinfo st') = 1.
Proof.
  destruct (dw_exit (SYS := script_sys) 0 5 None dw_at_end)
    as [[rc st']|] eqn:Hx; [|vm_compute in Hx; discriminate Hx].
  assert (Hrc : rc = 0) by (vm_compute in Hx; congruence). subst rc.
  exists st'. split; [reflexivity|].
  destruct (dw_exit_verdict (SYS := script_sys) 0 5 None dw_at_end 0 st' Hx)
    as [_ [_ [H2 [H3 [H4 [H5 [H6 [H7 _]]]]]]]].
  split; [exact H2|]. split; [exact H3|]. split; [exact H4|].
  split; [exact H5|]. split; [exact H6 | exact H7].
Defined.

Lemma dw_replica_drops_refcnt_and_closes_witness :
  exists rc st',
    uzfs_zvol_rebuild_dw_replica (SYS := script_sys) (WIRE := spec_wire)
      (BS := mem_blockstore) 10737418240 8 8 rebuild_args_vol1 rebuild_world
      zinfo_rebuilding 0 [] = Some (Done (rc, st'))
    /\ refcnt (dw_zinfo st') = refcnt zinfo_rebuilding - 1
    /\ exists w0,
         dw_world st'
         = (if fd rebuild_args_vol1 =? -1 then w0
            else world_close w0 (fd rebuild_args_vol1)).
Proof.
  destruct (uzfs_zvol_rebuild_dw_replica (SYS := script_sys)
              (WIRE := spec_wire) (BS := mem_blockstore) 10737418240 8 8
              rebuild_args_vol1 rebuild_world zinfo_rebuilding 0 [])
    as [[[rc st']|]|] eqn:Hr; try (vm_compute in Hr; discriminate Hr).
  exists rc, st'. split; [reflexivity|].
  exact (dw_replica_drops_refcnt_and_closes (SYS := script_sys)
           (WIRE := spec_wire) (BS := mem_blockstore) 10737418240 8 8
           rebuild_args_vol1 rebuild_world zinfo_rebuilding 0 [] rc st' Hr).
Defined.

Lemma mem_write_keeps_counters z b o l m rb :
  rebuild_cnt (snd (mem_write z b o l m rb)) = rebuild_cnt z
  /\ rebuild_done_cnt (snd (mem_write z b o l m rb)) = rebuild_done_cnt z
  /\ rebuild_failed_cnt (snd (mem_write z b o l m rb)) = rebuild_failed_cnt z.
Proof.
  unfold mem_write. destruct (zv_volsize z <? o + l); cbn; auto.
Qed.

Lemma dw_replica_counted_once_witness :
  exists rc st',
    uzfs_zvol_rebuild_dw_replica (SYS := script_sys) (WIRE := spec_wire)
      (BS := mem_blockstore) 10737418240 8 8 rebuild_args_vol1 rebuild_world
      zinfo_rebuilding 0 [] = Some (Done (rc, st'))
    /\ rebuild_cnt (zv (dw_zinfo st')) = 1
    /\ rebuild_done_cnt (zv (dw_zinfo st')) = 0 + 1
    /\ rebuild_failed_cnt (zv (dw_zinfo st')) = 0 + (if rc =? 0 then 0 else 1).
Proof.
  destruct (uzfs_zvol_rebuild_dw_replica (SYS := script_sys)
              (WIRE := spec_wire) (BS := mem_blockstore) 10737418240 8 8
              rebuild_args_vol1 rebuild_world zinfo_rebuilding 0 [])
    as [[[rc st']|]|] eqn:Hr; try (vm_compute in Hr; discriminate Hr).
  exists rc, st'. split; [reflexivity|].
  exact (dw_replica_counted_once (SYS := script_sys) (WIRE := spec_wire)
           (BS := mem_blockstore) 10737418240 8 8 rebuild_args_vol1
           rebuild_world zinfo_rebuilding 0 [] rc st'
           mem_write_keeps_counters Hr).
Defined.

Lemma dw_replica_gives_up_before_sending_witness :
  exists rc st',
    uzfs_zvol_rebuild_dw_replica (SYS := script_sys) (WIRE := spec_wire)
      (BS := mem_blockstore) 10737418240 0 0 rebuild_args_vol1 no_route_world
      zinfo_rebuilding 0 [] = Some (Done (rc, st'))
    /\ rc = -1
    /\ sent (dw_world st') = []
    /\ closed (dw_world st') = [5]
    /\ rebuild_failed_cnt (zv (dw_zinfo st')) = 1
    /\ zv_status (zv (dw_zinfo st')) = ZVOL_STATUS_DEGRADED.
Proof.
  destruct (dw_replica_gives_up_before_sending (SYS := script_sys)
              (WIRE := spec_wire) (BS := mem_blockstore) 10737418240 0 0
              rebuild_args_vol1 no_route_world zinfo_rebuilding 0 [])
    as [rc [st' [H1 [_ [H3 [H4 [H5 [_ [H7 _]]]]]]]]].
  { right. cbn. lia. }
  exists rc, st'. split; [exact H1|]. split; [exact H3|].
  rewrite H4, H5, H7. repeat split; reflexivity.
Defined.

Lemma dw_run_stops_when_errored_witness :
  ZVOL_IS_REBUILDING_ERRORED (zv (dw_zinfo dw_errored)) = true
  /\ 0 <= rebuild_failed_cnt (zv (dw_zinfo dw_errored))
  /\ exists st',
       dw_run (SYS := script_sys) (WIRE := spec_wire) (BS := mem_blockstore)
         10737418240 0 1 5 0 read_loop dw_errored = Some (Done (-1, st'))
       /\ sent (dw_world st') = []
       /\ closed (dw_world st') = [5]
       /\ rebuild_failed_cnt (zv (dw_zinfo st')) = 2
       /\ zv_rebuild_status (zv (dw_zinfo st')) = ZVOL_REBUILDING_FAILED.
Proof.
  assert (H0 : 0 <= rebuild_failed_cnt (zv (dw_zinfo dw_errored))) by (cbn; lia).
  split; [reflexivity|]. split; [exact H0|].
  destruct (dw_run_stops_when_errored (SYS := script_sys) (WIRE := spec_wire)
              (BS := mem_blockstore) 10737418240 0 0 5 0 read_loop dw_errored
              eq_refl H0) as [st' [H1 [H2 [H3 [_ [H5 _]]]]]].
  exists st'. split; [exact H1|]. rewrite H2, H3, H5. repeat split; reflexivity.
Defined.

Lemma timer_turn_settles_witness :
  Forall (fun z : zvol_info_t ckpt_log => 0 < update_ionum_interval z) timer_vols
  /\ fst (timer_turn (CS := ckpt_log_store) 200
            (fst (timer_turn (CS := ckpt_log_store) 200 timer_vols)))
     = fst (timer_turn (CS := ckpt_log_store) 200 timer_vols).
Proof.
  assert (H : Forall (fun z : zvol_info_t ckpt_log => 0 < update_ionum_interval z)
                     timer_vols).
  { repeat constructor. }
  split; [exact H|].
  exact (timer_turn_settles (CS := ckpt_log_store) 200 timer_vols H).
Defined.

Lemma remove_pending_purges_witness :
  exists p,
    remove_pending_cmds_to_ack 5 9 zinfo_queued ack_busy_twice = Some (Done p)
    /\ complete_queue (pg_zinfo p) = [zio_cmd_alloc hdr_sync 5]
    /\ pg_freed p = [zio_cmd_alloc hdr_sync 9; zio_cmd_alloc hdr_rebuild_read 9]
    /\ pg_sleeps p = 2%nat.
Proof.
  destruct (remove_pending_cmds_to_ack 5 9 zinfo_queued ack_busy_twice)
    as [[p|]|] eqn:Hp; try (vm_compute in Hp; discriminate Hp).
  exists p. split; [reflexivity|].
  destruct (remove_pending_purges 5 9 zinfo_queued ack_busy_twice p Hp)
    as [H1 [H2 _]].
  split; [exact H1|]. split; [exact H2|].
  vm_compute in Hp. inversion Hp. reflexivity.
Defined.

Lemma scanner_callback_queues_read_witness :
  state zinfo_served = ZVOL_INFO_STATE_ONLINE
  /\ is_io_ack_sender_created zinfo_served = true
  /\ exists zinfo' c,
       uzfs_zvol_rebuild_scanner_callback (BS := mem_blockstore)
         (WIRE := spec_wire) zero_hdr 4096 1 (mk_blk_metadata 9) zinfo_served
         3 [] = Some (Done (0, zinfo', []))
       /\ complete_queue zinfo' = [c]
       /\ conn c = 3
       /\ hdr c = mk_hdr 1 ZVOL_OPCODE_READ ZVOL_OP_FLAG_REBUILD
                    ZVOL_OP_STATUS_OK 9 0 4096 1.
Proof.
  split; [reflexivity|]. split; [reflexivity|].
  destruct (scanner_callback_queues_read (BS := mem_blockstore)
              (WIRE := spec_wire) zero_hdr 4096 1 (mk_blk_metadata 9)
              zinfo_served 3 [] 0 (repeat Byte.x00 1)
              (Some [(mk_blk_metadata 0, 1)]) eq_refl eq_refl eq_refl)
    as [zinfo' [c [H1 [H2 [_ [H4 [_ [_ [H7 _]]]]]]]]].
  exists zinfo', c. split; [exact H1|]. split; [exact H2|].
  split; [exact H4 | exact H7].
Defined.

Lemma mem_diffwalk_by_callbacks : walks_by_callbacks mem_diffwalk.
Proof.
  intros A P z low func off n a Ha Hf. cbn.
  generalize (mem_diff_regions z low off n). intros regions. revert a Ha.
  induction regions as [|r rest IH]; intros a Ha; cbn [walk_regions].
  - exact Ha.
  - specialize (Hf (fst (fst r)) (snd (fst r)) (snd r) a Ha).
    destruct (func (fst (fst r)) (snd (fst r)) (snd r) a) as [rc a'].
    cbn in Hf. destruct (rc =? 0); [apply IH; exact Hf | exact Hf].
Qed.

Lemma scanner_closes_and_purges_witness :
  exists rc st',
    uzfs_zvol_rebuild_scanner (SYS := script_sys) (WIRE := spec_wire)
      (BS := mem_blockstore) (DW := mem_diffwalk) registry_vol1 ack_idle
      zero_hdr 4 4 4 3 scan_world (repeat Byte.x00 44) []
    = Some (Done (rc, st'))
    /\ (exists w0, sc_world st' = world_close w0 3)
    /\ match sc_zinfo st' with
       | Some z => Forall (fun c => conn c <> 3) (complete_queue z)
       | None => True
       end.
Proof.
  destruct (uzfs_zvol_rebuild_scanner (SYS := script_sys) (WIRE := spec_wire)
              (BS := mem_blockstore) (DW := mem_diffwalk) registry_vol1
              ack_idle zero_hdr 4 4 4 3 scan_world (repeat Byte.x00 44) [])
    as [[[rc st']|]|] eqn:Hr; try (vm_compute in Hr; discriminate Hr).
  exists rc, st'. split; [reflexivity|].
  exact (scanner_closes_and_purges (SYS := script_sys) (WIRE := spec_wire)
           (BS := mem_blockstore) (DW := mem_diffwalk) registry_vol1 ack_idle
           zero_hdr 4 4 4 3 scan_world (repeat Byte.x00 44) [] rc st' Hr).
Defined.

Lemma scanner_handshake_witness :
  exists mem w1 name w2,
    uzfs_zvol_read_header (SYS := script_sys) (WIRE := spec_wire) 4 scan_world 3
      (repeat Byte.x00 44) = Some (0, mem, w1)
    /\ opcode (hdr_of_bytes (Wire := spec_wire) mem) = ZVOL_OPCODE_HANDSHAKE
    /\ uzfs_zvol_socket_read (SYS := script_sys) 4 w1 3 []
         (len (hdr_of_bytes (Wire := spec_wire) mem)) = Some (0, name, w2)
    /\ scanner_run (SYS := script_sys) (WIRE := spec_wire)
         (BS := mem_blockstore) (DW := mem_diffwalk) registry_vol1 ack_idle
         zero_hdr 4 4 3 3 (mk_scan scan_world None [] (repeat Byte.x00 44))
       = scanner_run (SYS := script_sys) (WIRE := spec_wire)
           (BS := mem_blockstore) (DW := mem_diffwalk) registry_vol1 ack_idle
           zero_hdr 4 4 2 3 (mk_scan w2 (Some zinfo_served) [] mem).
Proof.
  destruct (uzfs_zvol_read_header (SYS := script_sys) (WIRE := spec_wire) 4
              scan_world 3 (repeat Byte.x00 44))
    as [[[rc mem] w1]|] eqn:Hh; [|vm_compute in Hh; discriminate Hh].
  assert (Hrc : rc = 0) by (vm_compute in Hh; congruence). subst rc.
  assert (Hop : opcode (hdr_of_bytes (Wire := spec_wire) mem)
                = ZVOL_OPCODE_HANDSHAKE).
  { vm_compute in Hh. inversion Hh. vm_compute. reflexivity. }
  assert (Hlen : len (hdr_of_bytes (Wire := spec_wire) mem) = 5).
  { vm_compute in Hh. inversion Hh. vm_compute. reflexivity. }
  destruct (uzfs_zvol_socket_read (SYS := script_sys) 4 w1 3 []
              (len (hdr_of_bytes (Wire := spec_wire) mem)))
    as [[[rcn name] w2]|] eqn:Hn;
    [|rewrite Hlen in Hn; vm_compute in Hh; inversion Hh; subst w1;
      vm_compute in Hn; discriminate Hn].
  assert (Hrcn : rcn = 0 /\ length name = 5%nat).
  { rewrite Hlen in Hn. vm_compute in Hh. inversion Hh; subst w1.
    vm_compute in Hn. inversion Hn. split; reflexivity. }
  destruct Hrcn as [-> Hname].
  exists mem, w1, name, w2.
  split; [reflexivity|]. split; [exact Hop|]. split; [exact Hn|].
  pose proof (scanner_handshake (SYS := script_sys) (WIRE := spec_wire)
                (BS := mem_blockstore) (DW := mem_diffwalk) registry_vol1
                ack_idle zero_hdr 4 4 2 3
                (mk_scan scan_world None [] (repeat Byte.x00 44))
                mem w1 name w2 Hh Hop Hn) as H.
  cbn [sc_zinfo sc_sched] in H.
  assert (Hl : registry_vol1 name = Some zinfo_served)
    by (unfold registry_vol1; rewrite Hname; reflexivity).
  rewrite Hl in H. exact H.
Defined.

Lemma scanner_drops_lookup_refcnt_witness :
  walks_by_callbacks mem_diffwalk
  /\ exists rc st' z',
       uzfs_zvol_rebuild_scanner (SYS := script_sys) (WIRE := spec_wire)
         (BS := mem_blockstore) (DW := mem_diffwalk) registry_vol1 ack_idle
         zero_hdr 4 4 4 3 scan_world (repeat Byte.x00 44) []
       = Some (Done (rc, st'))
       /\ sc_zinfo st' = Some z'
       /\ exists name zl,
            registry_vol1 name = Some zl /\ refcnt z' = refcnt zl - 1.
Proof.
  split; [exact mem_diffwalk_by_callbacks|].
  destruct (uzfs_zvol_rebuild_scanner (SYS := script_sys) (WIRE := spec_wire)
              (BS := mem_blockstore) (DW := mem_diffwalk) registry_vol1
              ack_idle zero_hdr 4 4 4 3 scan_world (repeat Byte.x00 44) [])
    as [[[rc st']|]|] eqn:Hr; try (vm_compute in Hr; discriminate Hr).
  pose proof (scanner_drops_lookup_refcnt (SYS := script_sys)
                (WIRE := spec_wire) (BS := mem_blockstore)
                (DW := mem_diffwalk) registry_vol1 ack_idle zero_hdr 4 4 4 3
                scan_world (repeat Byte.x00 44) [] rc st'
                mem_diffwalk_by_callbacks Hr) as H.
  destruct (sc_zinfo st') as [z'|] eqn:Ez;
    [|vm_compute in Hr; inversion Hr; subst st'; discriminate Ez].
  exists rc, st', z'. split; [reflexivity|]. split; [exact Ez | exact H].
Defined.

Lemma scanner_step_done_is_barrier_witness :
  walks_by_callbacks mem_diffwalk
  /\ state zinfo_served = ZVOL_INFO_STATE_ONLINE
  /\ is_io_ack_sender_created zinfo_served = true
  /\ exists z' s' h',
       scanner_rebuild_step (WIRE := spec_wire) (BS := mem_blockstore)
         (DW := mem_diffwalk) zero_hdr 3 hdr_step zinfo_served []
       = Some (Done (0, z', s', h'))
       /\ length (complete_queue z') = 2%nat
       /\ exists reads,
            Forall (rebuild_read_for 3) reads
            /\ complete_queue z'
               = complete_queue zinfo_served ++ reads
                 ++ [step_done_cmd (WIRE := spec_wire) 3].
Proof.
  split; [exact mem_diffwalk_by_callbacks|].
  split; [reflexivity|]. split; [reflexivity|].
  destruct (scanner_rebuild_step (WIRE := spec_wire) (BS := mem_blockstore)
              (DW := mem_diffwalk) zero_hdr 3 hdr_step zinfo_served [])
    as [[[[[rc z'] s'] h']|]|] eqn:Hr; try (vm_compute in Hr; discriminate Hr).
  assert (Hrc : rc = 0) by (vm_compute in Hr; congruence). subst rc.
  exists z', s', h'. split; [reflexivity|].
  split; [vm_compute in Hr; inversion Hr; reflexivity|].
  exact (scanner_step_done_is_barrier (WIRE := spec_wire) (BS := mem_blockstore)
           (DW := mem_diffwalk) zero_hdr 3 hdr_step zinfo_served [] 0 z' s' h'
           mem_diffwalk_by_callbacks eq_refl eq_refl Hr).
Defined.
